(** * Prompt builder: the action handlers over a relational store

    A shallow embedding of the server actions of the prompt builder
    (collections, templates and template variables) and of the table
    declarations they run against.  The store is three lists of rows; every
    statement the query builder issues is a state transformer on it, and a
    handler is a computation in a state-and-exception monad. *)

From Stdlib Require Import ZArith.
From stdpp Require Import base tactics option strings list gmap.

Local Open Scope string_scope.
Local Open Scope list_scope.

(** ** Values received from the client *)

(** A field of the submitted object.  [JNum] is a number with an integral
    value; [JNonInt] stands for every other number (fractions, NaN, the
    infinities), which [z.number().int()] rejects whatever it is; [JOther]
    stands for arrays and nested objects, which no field schema of this
    program accepts. *)
Inductive JsValue :=
  | JUndefined
  | JNull
  | JBool (b : bool)
  | JNum (n : Z)
  | JNonInt
  | JStr (s : string)
  | JOther.

(** What an action is called with: an object, or something that is not one
    ([RawValue JUndefined] when the action is called without input). *)
Inductive RawInput :=
  | RawValue (v : JsValue)
  | RawObject (o : gmap string JsValue).

(** Reading a property: a missing key reads as [undefined]. *)
Definition field (o : gmap string JsValue) (k : string) : JsValue :=
  default JUndefined (o !! k).

(** ** Text as the client reads it

    The client cuts a text it decodes at the first U+0000 character. *)
Fixpoint cut (s : string) : string :=
  match s with
  | EmptyString => EmptyString
  | String a s' =>
      if Ascii.eqb a Ascii.zero then EmptyString else String a (cut s')
  end.

(** A text that is read back as it was written: it holds no U+0000. *)
Definition plain (s : string) : Prop := cut s = s.

Definition plain_option (o : option string) : Prop :=
  match o with Some s => plain s | None => True end.

Definition plain_value (v : JsValue) : Prop :=
  match v with JStr s => plain s | _ => True end.

(** An input whose texts are all read back as they were sent. *)
Definition plain_raw (raw : RawInput) : Prop :=
  match raw with
  | RawObject o => map_Forall (λ _, plain_value) o
  | RawValue v => plain_value v
  end.

#[global] Instance plain_dec (s : string) : Decision (plain s) :=
  decide (cut s = s).

#[global] Instance plain_value_dec (v : JsValue) : Decision (plain_value v) :=
  match v as v return Decision (plain_value v) with
  | JStr s => decide (plain s)
  | _ => left I
  end.

(** ** The schema combinators used by the actions

    A schema maps a value to the parsed value, or to [None] when it reports
    an issue. *)
Module z.

Definition string (v : JsValue) : option string :=
  match v with JStr s => Some s | _ => None end.

(** [z.string().min(1)] *)
Definition string_min1 (v : JsValue) : option String.string :=
  s ← string v; if decide (1 ≤ String.length s)%nat then Some s else None.

Definition boolean (v : JsValue) : option bool :=
  match v with JBool b => Some b | _ => None end.

(** [z.number().int()] *)
Definition number_int (v : JsValue) : option Z :=
  match v with JNum n => Some n | _ => None end.

(** [.optional()]: [undefined] is accepted and stays absent; [null] is
    not [undefined] and goes to the inner schema. *)
Definition optional {A} (inner : JsValue → option A) (v : JsValue)
  : option (option A) :=
  match v with JUndefined => Some None | _ => Some <$> inner v end.

(** [.default(d)] *)
Definition default {A} (inner : JsValue → option A) (d : A) (v : JsValue)
  : option A :=
  match v with JUndefined => Some d | _ => inner v end.

(** [z.object({...})]: the input has to be an object; the shape then reads
    the keys it declares and drops the others. *)
Definition object {A} (shape : gmap String.string JsValue → option A)
    (raw : RawInput) : option A :=
  match raw with RawObject o => shape o | RawValue _ => None end.

(** [.optional()] on an object schema. *)
Definition optional_object {A} (inner : RawInput → option A)
    (raw : RawInput) : option (option A) :=
  match raw with
  | RawValue JUndefined => Some None
  | _ => Some <$> inner raw
  end.

(** [.refine(check)] *)
Definition refine {A} (inner : RawInput → option A) (check : A → bool)
    (raw : RawInput) : option A :=
  x ← inner raw; if check x then Some x else None.

End z.

(** ** The tables (db/tables.ts)

    An optional column is an [option]; dates are milliseconds as [Z]. *)
Inductive TableName := TCollections | TTemplates | TVariables.

Module PromptCollections.
Record row := {
  id : string;
  userId : string;
  name : string;
  description : option string;
  icon : option string;
  isDefault : bool;
  createdAt : Z;
  updatedAt : Z;
}.
End PromptCollections.

Module PromptTemplates.
Record row := {
  id : string;
  collectionId : option string;
  userId : string;
  name : string;
  description : option string;
  modelHint : option string;
  promptBody : string;
  tags : option string;
  isFavorite : bool;
  isSystem : bool;
  createdAt : Z;
  updatedAt : Z;
}.
End PromptTemplates.

Module PromptVariables.
Record row := {
  id : string;
  templateId : string;
  name : string;
  label : option string;
  description : option string;
  inputType : option string;
  defaultValue : option string;
  optionsJson : option string;
  orderIndex : option Z;
  createdAt : Z;
}.
End PromptVariables.

(** A row without U+0000 in any of its texts: the client reads its texts
    as they are stored. *)
Definition plain_template (t : PromptTemplates.row) : Prop :=
  plain (PromptTemplates.id t) ∧
  plain_option (PromptTemplates.collectionId t) ∧
  plain (PromptTemplates.userId t) ∧ plain (PromptTemplates.name t) ∧
  plain_option (PromptTemplates.description t) ∧
  plain_option (PromptTemplates.modelHint t) ∧
  plain (PromptTemplates.promptBody t) ∧
  plain_option (PromptTemplates.tags t).

Definition plain_variable (v : PromptVariables.row) : Prop :=
  plain (PromptVariables.id v) ∧ plain (PromptVariables.templateId v) ∧
  plain (PromptVariables.name v) ∧
  plain_option (PromptVariables.label v) ∧
  plain_option (PromptVariables.description v) ∧
  plain_option (PromptVariables.inputType v) ∧
  plain_option (PromptVariables.defaultValue v) ∧
  plain_option (PromptVariables.optionsJson v).

(** ** The store *)

(** A statement sent to the store. *)
Inductive Stmt :=
  | SELECT (t : TableName)
  | INSERT (t : TableName)
  | UPDATE (t : TableName)
  | DELETE (t : TableName).

(** The store: the rows of the three tables, whether the engine enforces the
    declared [references] (the tables declare them; enforcing them is the
    engine's setting), and the statements issued so far, oldest first. *)
Record Db := {
  collections : list PromptCollections.row;
  templates : list PromptTemplates.row;
  variables : list PromptVariables.row;
  foreignKeys : bool;
  log : list Stmt;
}.

Definition issue (s : Stmt) (db : Db) : Db :=
  {| collections := collections db; templates := templates db;
     variables := variables db; foreignKeys := foreignKeys db;
     log := log db ++ [s] |}.

(** An integer column is read back as a JavaScript number.  The client
    throws a [RangeError] rather than return an integer it cannot hold
    exactly: one of magnitude 2^53 or more.  A number of magnitude 2^63 or
    more does not fit the integer storage class, is stored as a real, and
    is read back as it is. *)
Definition unsafe_integer (n : Z) : bool :=
  (2 ^ 53 <=? Z.abs n)%Z && (Z.abs n <? 2 ^ 63)%Z.

(** A declared table: its rows in the store, its primary key, the column
    that references another table with the keys it may point to, and
    whether a row holds an integer that the client cannot decode. *)
Record Table (R : Type) := {
  tname : TableName;
  rows : Db → list R;
  set_rows : list R → Db → Db;
  pkey : R → string;
  fkey : R → option string;
  parent_keys : Db → list string;
  unsafe : R → bool;
}.
Arguments tname {R}.
Arguments rows {R}.
Arguments set_rows {R}.
Arguments pkey {R}.
Arguments fkey {R}.
Arguments parent_keys {R}.
Arguments unsafe {R}.

Definition Collections : Table PromptCollections.row := {|
  tname := TCollections;
  rows := collections;
  set_rows l db :=
    {| collections := l; templates := templates db;
       variables := variables db; foreignKeys := foreignKeys db;
       log := log db |};
  pkey := PromptCollections.id;
  fkey _ := None;
  parent_keys _ := [];
  unsafe _ := false;
|}.

Definition Templates : Table PromptTemplates.row := {|
  tname := TTemplates;
  rows := templates;
  set_rows l db :=
    {| collections := collections db; templates := l;
       variables := variables db; foreignKeys := foreignKeys db;
       log := log db |};
  pkey := PromptTemplates.id;
  fkey := PromptTemplates.collectionId;
  parent_keys db := PromptCollections.id <$> collections db;
  unsafe _ := false;
|}.

Definition Variables : Table PromptVariables.row := {|
  tname := TVariables;
  rows := variables;
  set_rows l db :=
    {| collections := collections db; templates := templates db;
       variables := l; foreignKeys := foreignKeys db;
       log := log db |};
  pkey := PromptVariables.id;
  fkey r := Some (PromptVariables.templateId r);
  parent_keys db := PromptTemplates.id <$> templates db;
  unsafe r :=
    match PromptVariables.orderIndex r with
    | Some n => unsafe_integer n
    | None => false
    end;
|}.

(** ** Failures and the handler monad *)

Inductive ErrorCode := UNAUTHORIZED | NOT_FOUND | FORBIDDEN.

(** What a call can fail with: an [ActionError] thrown by the handlers, the
    rejection of the input by the action's schema, a constraint violation
    reported by the store, or the [RangeError] of the client that finds an
    integer it cannot hold in a row it decodes. *)
Inductive Failure :=
  | ActionError (code : ErrorCode) (message : string)
  | VALIDATION
  | CONSTRAINT
  | RangeError.

Inductive Result (A : Type) :=
  | Ok (a : A)
  | Throw (e : Failure).
Arguments Ok {A}.
Arguments Throw {A}.

(** A computation against the store.  A failure keeps the store as the
    statements before it left it: there is no enclosing transaction. *)
Definition M (A : Type) : Type := Db → Result A * Db.

Definition ret {A} (a : A) : M A := λ db, (Ok a, db).
Definition throw {A} (e : Failure) : M A := λ db, (Throw e, db).
Definition bind {A B} (m : M A) (k : A → M B) : M B :=
  λ db, match m db with
        | (Ok a, db') => k a db'
        | (Throw e, db') => (Throw e, db')
        end.
Definition lift {A} (r : Result A) : M A := λ db, (r, db).

Notation "'let!' x ':=' m 'in' k" := (bind m (λ x, k))
  (at level 10, x name, m at level 100, k at level 200,
   format "'[v' 'let!'  x  ':='  m  'in' '/' k ']'").
Notation "m ';;' k" := (bind m (λ _, k))
  (at level 100, k at level 200, right associativity).

(** ** The query builder

    The rows a statement returns are decoded by the client.  Decoding
    throws on a row with an unsafe integer, after the statement has run.
    Text is returned as it is stored: this is what the client does with a
    [plain] text; a text that holds U+0000 is stored whole and decoded as
    its [cut]. *)

(** A condition of a where clause, evaluated on a row. *)
Definition Cond (R : Type) : Type := R → bool.

Definition eq_ {R A} `{EqDecision A} (column : R → A) (v : A) : Cond R :=
  λ r, bool_decide (column r = v).

Definition and_ {R} (conds : list (Cond R)) : Cond R :=
  λ r, forallb (λ c, c r) conds.

Section Queries.
Context {R : Type} (T : Table R).

(** The referencing column of [r] is null or points to an existing key. *)
Definition fk_ok (db : Db) (r : R) : bool :=
  match fkey T r with
  | None => true
  | Some k => bool_decide (k ∈ parent_keys T db)
  end.

(** [db.select().from(T).where(c)] *)
Definition select_where (c : Cond R) : M (list R) :=
  λ db,
    let db1 := issue (SELECT (tname T)) db in
    let hit := filter c (rows T db) in
    if existsb (unsafe T) hit then (Throw RangeError, db1)
    else (Ok hit, db1).

(** [db.insert(T).values(r).returning()]: refused when the primary key
    is taken, or when references are enforced and [r] points nowhere.
    The row is stored before it is decoded for the reply. *)
Definition insert_returning (r : R) : M (list R) :=
  λ db,
    let db1 := issue (INSERT (tname T)) db in
    if bool_decide (pkey T r ∈ pkey T <$> rows T db)
    then (Throw CONSTRAINT, db1)
    else if foreignKeys db && negb (fk_ok db r)
    then (Throw CONSTRAINT, db1)
    else
      let db2 := set_rows T (rows T db ++ [r]) db1 in
      if unsafe T r then (Throw RangeError, db2) else (Ok [r], db2).

(** [db.update(T).set(f).where(c).returning()].  No set clause of this
    program holds a primary key.  A row whose referencing column changes
    is checked when references are enforced.  The rows are updated before
    they are decoded for the reply. *)
Definition update_returning (f : R → R) (c : Cond R) : M (list R) :=
  λ db,
    let db1 := issue (UPDATE (tname T)) db in
    let hit := filter c (rows T db) in
    if foreignKeys db &&
       existsb (λ r, bool_decide (fkey T (f r) ≠ fkey T r) &&
                     negb (fk_ok db (f r))) hit
    then (Throw CONSTRAINT, db1)
    else
      let db2 :=
        set_rows T ((λ r, if c r then f r else r) <$> rows T db) db1 in
      if existsb (unsafe T) (f <$> hit) then (Throw RangeError, db2)
      else (Ok (f <$> hit), db2).

(** [db.delete(T).where(c)]: gives the number of rows affected. *)
Definition delete_where (c : Cond R) : M nat :=
  λ db,
    let db1 := issue (DELETE (tname T)) db in
    (Ok (length (filter c (rows T db))),
     set_rows T (filter (λ r, negb (c r)) (rows T db)) db1).
End Queries.

(** ** Column assignments

    The object given to [.set(...)] is a list of column assignments; a
    column that is not assigned keeps its value. *)

Module SetCollections.
Import PromptCollections.
Inductive assign :=
  | Id (v : string)
  | UserId (v : string)
  | Name (v : string)
  | Description (v : option string)
  | Icon (v : option string)
  | IsDefault (v : bool)
  | CreatedAt (v : Z)
  | UpdatedAt (v : Z).

Definition apply (r : row) (a : assign) : row :=
  match a with
  | Id v => {| id := v; userId := userId r; name := name r;
               description := description r; icon := icon r;
               isDefault := isDefault r; createdAt := createdAt r;
               updatedAt := updatedAt r |}
  | UserId v => {| id := id r; userId := v; name := name r;
               description := description r; icon := icon r;
               isDefault := isDefault r; createdAt := createdAt r;
               updatedAt := updatedAt r |}
  | Name v => {| id := id r; userId := userId r; name := v;
               description := description r; icon := icon r;
               isDefault := isDefault r; createdAt := createdAt r;
               updatedAt := updatedAt r |}
  | Description v => {| id := id r; userId := userId r; name := name r;
               description := v; icon := icon r;
               isDefault := isDefault r; createdAt := createdAt r;
               updatedAt := updatedAt r |}
  | Icon v => {| id := id r; userId := userId r; name := name r;
               description := description r; icon := v;
               isDefault := isDefault r; createdAt := createdAt r;
               updatedAt := updatedAt r |}
  | IsDefault v => {| id := id r; userId := userId r; name := name r;
               description := description r; icon := icon r;
               isDefault := v; createdAt := createdAt r;
               updatedAt := updatedAt r |}
  | CreatedAt v => {| id := id r; userId := userId r; name := name r;
               description := description r; icon := icon r;
               isDefault := isDefault r; createdAt := v;
               updatedAt := updatedAt r |}
  | UpdatedAt v => {| id := id r; userId := userId r; name := name r;
               description := description r; icon := icon r;
               isDefault := isDefault r; createdAt := createdAt r;
               updatedAt := v |}
  end.

Definition set (l : list assign) (r : row) : row := foldl apply r l.
End SetCollections.

Module SetTemplates.
Import PromptTemplates.
Inductive assign :=
  | Id (v : string)
  | CollectionId (v : option string)
  | UserId (v : string)
  | Name (v : string)
  | Description (v : option string)
  | ModelHint (v : option string)
  | PromptBody (v : string)
  | Tags (v : option string)
  | IsFavorite (v : bool)
  | IsSystem (v : bool)
  | CreatedAt (v : Z)
  | UpdatedAt (v : Z).

Definition apply (r : row) (a : assign) : row :=
  let mk i c u n d m p t f s ca ua :=
    {| id := i; collectionId := c; userId := u; name := n;
       description := d; modelHint := m; promptBody := p; tags := t;
       isFavorite := f; isSystem := s; createdAt := ca; updatedAt := ua |} in
  let '{| id := i; collectionId := c; userId := u; name := n;
          description := d; modelHint := m; promptBody := p; tags := t;
          isFavorite := f; isSystem := s; createdAt := ca;
          updatedAt := ua |} := r in
  match a with
  | Id v => mk v c u n d m p t f s ca ua
  | CollectionId v => mk i v u n d m p t f s ca ua
  | UserId v => mk i c v n d m p t f s ca ua
  | Name v => mk i c u v d m p t f s ca ua
  | Description v => mk i c u n v m p t f s ca ua
  | ModelHint v => mk i c u n d v p t f s ca ua
  | PromptBody v => mk i c u n d m v t f s ca ua
  | Tags v => mk i c u n d m p v f s ca ua
  | IsFavorite v => mk i c u n d m p t v s ca ua
  | IsSystem v => mk i c u n d m p t f v ca ua
  | CreatedAt v => mk i c u n d m p t f s v ua
  | UpdatedAt v => mk i c u n d m p t f s ca v
  end.

Definition set (l : list assign) (r : row) : row := foldl apply r l.
End SetTemplates.

Module SetVariables.
Import PromptVariables.
Inductive assign :=
  | Id (v : string)
  | TemplateId (v : string)
  | Name (v : string)
  | Label (v : option string)
  | Description (v : option string)
  | InputType (v : option string)
  | DefaultValue (v : option string)
  | OptionsJson (v : option string)
  | OrderIndex (v : option Z)
  | CreatedAt (v : Z).

Definition apply (r : row) (a : assign) : row :=
  let mk i t n l d it dv oj oi ca :=
    {| id := i; templateId := t; name := n; label := l; description := d;
       inputType := it; defaultValue := dv; optionsJson := oj;
       orderIndex := oi; createdAt := ca |} in
  let '{| id := i; templateId := t; name := n; label := l;
          description := d; inputType := it; defaultValue := dv;
          optionsJson := oj; orderIndex := oi; createdAt := ca |} := r in
  match a with
  | Id v => mk v t n l d it dv oj oi ca
  | TemplateId v => mk i v n l d it dv oj oi ca
  | Name v => mk i t v l d it dv oj oi ca
  | Label v => mk i t n v d it dv oj oi ca
  | Description v => mk i t n l v it dv oj oi ca
  | InputType v => mk i t n l d v dv oj oi ca
  | DefaultValue v => mk i t n l d it v oj oi ca
  | OptionsJson v => mk i t n l d it dv v oi ca
  | OrderIndex v => mk i t n l d it dv oj v ca
  | CreatedAt v => mk i t n l d it dv oj oi v
  end.

Definition set (l : list assign) (r : row) : row := foldl apply r l.
End SetVariables.

(** [...(x !== undefined ? { column: x } : {})]: the assignment is part of
    the set clause only when the input has the field. *)
Definition spread {A B} (x : option A) (column : A → B) : list B :=
  match x with Some v => [column v] | None => [] end.

(** ** The caller *)

Module App.
Record User := { id : string }.
Record Locals := { user : option User }.
End App.

Record ActionAPIContext := { locals : option App.Locals }.

(** What a handler takes from its environment: the identifier
    [crypto.randomUUID()] gives and the time [new Date()] gives. *)
Record Runtime := { randomUUID : string; now : Z }.

Definition requireUser (context : ActionAPIContext) : Result App.User :=
  match locals context ≫= App.user with
  | None =>
      Throw (ActionError UNAUTHORIZED
               "You must be signed in to perform this action.")
  | Some user => Ok user
  end.

(** ** Ownership *)

Definition getOwnedCollection (collectionId userId : string)
  : M PromptCollections.row :=
  let! found := select_where Collections
      (and_ [eq_ PromptCollections.id collectionId;
             eq_ PromptCollections.userId userId]) in
  match head found with
  | None => throw (ActionError NOT_FOUND "Collection not found.")
  | Some collection => ret collection
  end.

Definition getOwnedTemplate (templateId userId : string)
  : M PromptTemplates.row :=
  let! found := select_where Templates
      (eq_ PromptTemplates.id templateId) in
  match head found with
  | None => throw (ActionError NOT_FOUND "Template not found.")
  | Some template =>
      if bool_decide (PromptTemplates.userId template ≠ userId)
      then throw (ActionError FORBIDDEN
                    "You do not have access to this template.")
      else ret template
  end.

(** ** Actions *)

(** The reply of a successful action: [{ success: true, data }], the data
    being left out by the one action that returns none. *)
Record Envelope (A : Type) := { success : bool; data : option A }.
Arguments success {A}.
Arguments data {A}.

(** The data of a list action. *)
Record Page (R : Type) := { items : list R; total : nat }.
Arguments items {R}.
Arguments total {R}.

(** [defineAction({ input, handler })]: the input is parsed by the schema
    first, and the handler runs on the parsed input only. *)
Definition defineAction {I O} (input : RawInput → option I)
    (handler : I → ActionAPIContext → M O)
    (raw : RawInput) (context : ActionAPIContext) : M O :=
  match input raw with
  | None => throw VALIDATION
  | Some parsed => handler parsed context
  end.

Module CreateCollection.
Record Input := {
  name : string;
  description : option string;
  icon : option string;
  isDefault : option bool;
}.

Definition input : RawInput → option Input :=
  z.object (λ o,
    n ← z.string_min1 (field o "name");
    d ← z.optional z.string (field o "description");
    i ← z.optional z.string (field o "icon");
    b ← z.optional z.boolean (field o "isDefault");
    Some {| name := n; description := d; icon := i; isDefault := b |}).

Definition handler (rt : Runtime) (input : Input)
    (context : ActionAPIContext)
  : M (Envelope (option PromptCollections.row)) :=
  let! user := lift (requireUser context) in
  let now := now rt in
  let! returned := insert_returning Collections
      {| PromptCollections.id := randomUUID rt;
         PromptCollections.userId := App.id user;
         PromptCollections.name := name input;
         PromptCollections.description := description input;
         PromptCollections.icon := icon input;
         PromptCollections.isDefault := default false (isDefault input);
         PromptCollections.createdAt := now;
         PromptCollections.updatedAt := now |} in
  ret {| success := true; data := Some (head returned) |}.
End CreateCollection.

Module UpdateCollection.
Record Input := {
  id : string;
  name : option string;
  description : option string;
  icon : option string;
  isDefault : option bool;
}.

Definition input : RawInput → option Input :=
  z.refine
    (z.object (λ o,
       i ← z.string_min1 (field o "id");
       n ← z.optional z.string_min1 (field o "name");
       d ← z.optional z.string (field o "description");
       ic ← z.optional z.string (field o "icon");
       b ← z.optional z.boolean (field o "isDefault");
       Some {| id := i; name := n; description := d; icon := ic;
               isDefault := b |}))
    (λ input,
       bool_decide (name input ≠ None) ||
       bool_decide (description input ≠ None) ||
       bool_decide (icon input ≠ None) ||
       bool_decide (isDefault input ≠ None)).

Definition set_clause (rt : Runtime) (input : Input)
  : list SetCollections.assign :=
  spread (name input) SetCollections.Name ++
  spread (description input) (λ v, SetCollections.Description (Some v)) ++
  spread (icon input) (λ v, SetCollections.Icon (Some v)) ++
  spread (isDefault input) SetCollections.IsDefault ++
  [SetCollections.UpdatedAt (now rt)].

Definition handler (rt : Runtime) (input : Input)
    (context : ActionAPIContext)
  : M (Envelope (option PromptCollections.row)) :=
  let! user := lift (requireUser context) in
  getOwnedCollection (id input) (App.id user);;
  let! returned := update_returning Collections
      (SetCollections.set (set_clause rt input))
      (eq_ PromptCollections.id (id input)) in
  ret {| success := true; data := Some (head returned) |}.
End UpdateCollection.

Module ListCollections.
(** [z.object({}).optional()] *)
Definition input : RawInput → option (option unit) :=
  z.optional_object (z.object (λ _, Some tt)).

Definition handler (_input : option unit) (context : ActionAPIContext)
  : M (Envelope (Page PromptCollections.row)) :=
  let! user := lift (requireUser context) in
  let! collections := select_where Collections
      (eq_ PromptCollections.userId (App.id user)) in
  ret {| success := true;
         data := Some {| items := collections;
                         total := length collections |} |}.
End ListCollections.

Module CreateTemplate.
Record Input := {
  collectionId : option string;
  name : string;
  description : option string;
  modelHint : option string;
  promptBody : string;
  tags : option string;
  isFavorite : option bool;
}.

Definition input : RawInput → option Input :=
  z.object (λ o,
    c ← z.optional z.string (field o "collectionId");
    n ← z.string_min1 (field o "name");
    d ← z.optional z.string (field o "description");
    m ← z.optional z.string (field o "modelHint");
    p ← z.string_min1 (field o "promptBody");
    t ← z.optional z.string (field o "tags");
    f ← z.optional z.boolean (field o "isFavorite");
    Some {| collectionId := c; name := n; description := d; modelHint := m;
            promptBody := p; tags := t; isFavorite := f |}).

(** Truthiness of a string: only the empty string is falsy. *)
Definition truthy (s : string) : bool := bool_decide (s ≠ EmptyString).

(** [if (input.collectionId)] is taken when the field is there and
    truthy. *)
Definition handler (rt : Runtime) (input : Input)
    (context : ActionAPIContext)
  : M (Envelope (option PromptTemplates.row)) :=
  let! user := lift (requireUser context) in
  match collectionId input with
  | Some c =>
      if truthy c then getOwnedCollection c (App.id user);; ret tt
      else ret tt
  | None => ret tt
  end;;
  let now := now rt in
  let! returned := insert_returning Templates
      {| PromptTemplates.id := randomUUID rt;
         PromptTemplates.collectionId := collectionId input;
         PromptTemplates.userId := App.id user;
         PromptTemplates.name := name input;
         PromptTemplates.description := description input;
         PromptTemplates.modelHint := modelHint input;
         PromptTemplates.promptBody := promptBody input;
         PromptTemplates.tags := tags input;
         PromptTemplates.isFavorite := default false (isFavorite input);
         PromptTemplates.isSystem := false;
         PromptTemplates.createdAt := now;
         PromptTemplates.updatedAt := now |} in
  ret {| success := true; data := Some (head returned) |}.
End CreateTemplate.

Module UpdateTemplate.
Record Input := {
  id : string;
  collectionId : option string;
  name : option string;
  description : option string;
  modelHint : option string;
  promptBody : option string;
  tags : option string;
  isFavorite : option bool;
}.

Definition input : RawInput → option Input :=
  z.refine
    (z.object (λ o,
       i ← z.string_min1 (field o "id");
       c ← z.optional z.string (field o "collectionId");
       n ← z.optional z.string (field o "name");
       d ← z.optional z.string (field o "description");
       m ← z.optional z.string (field o "modelHint");
       p ← z.optional z.string (field o "promptBody");
       t ← z.optional z.string (field o "tags");
       f ← z.optional z.boolean (field o "isFavorite");
       Some {| id := i; collectionId := c; name := n; description := d;
               modelHint := m; promptBody := p; tags := t;
               isFavorite := f |}))
    (λ input,
       bool_decide (collectionId input ≠ None) ||
       bool_decide (name input ≠ None) ||
       bool_decide (description input ≠ None) ||
       bool_decide (modelHint input ≠ None) ||
       bool_decide (promptBody input ≠ None) ||
       bool_decide (tags input ≠ None) ||
       bool_decide (isFavorite input ≠ None)).

Definition set_clause (rt : Runtime) (input : Input)
  : list SetTemplates.assign :=
  spread (collectionId input) (λ v, SetTemplates.CollectionId (Some v)) ++
  spread (name input) SetTemplates.Name ++
  spread (description input) (λ v, SetTemplates.Description (Some v)) ++
  spread (modelHint input) (λ v, SetTemplates.ModelHint (Some v)) ++
  spread (promptBody input) SetTemplates.PromptBody ++
  spread (tags input) (λ v, SetTemplates.Tags (Some v)) ++
  spread (isFavorite input) SetTemplates.IsFavorite ++
  [SetTemplates.UpdatedAt (now rt)].

(** The parsed [collectionId] is a string or absent, so the guard
    [!== undefined && !== null] is the test that the field is there. *)
Definition handler (rt : Runtime) (input : Input)
    (context : ActionAPIContext)
  : M (Envelope (option PromptTemplates.row)) :=
  let! user := lift (requireUser context) in
  let! template := getOwnedTemplate (id input) (App.id user) in
  match collectionId input with
  | Some c => getOwnedCollection c (App.id user);; ret tt
  | None => ret tt
  end;;
  let! updated := update_returning Templates
      (SetTemplates.set (set_clause rt input))
      (eq_ PromptTemplates.id (id input)) in
  ret {| success := true; data := Some (head updated) |}.
End UpdateTemplate.

Module ListTemplates.
Record Input := { favoritesOnly : bool }.

Definition input : RawInput → option (option Input) :=
  z.optional_object
    (z.object (λ o,
       f ← z.default z.boolean false (field o "favoritesOnly");
       Some {| favoritesOnly := f |})).

Definition handler (input : option Input) (context : ActionAPIContext)
  : M (Envelope (Page PromptTemplates.row)) :=
  let! user := lift (requireUser context) in
  let favoritesOnly := default false (favoritesOnly <$> input) in
  let filters :=
    [eq_ PromptTemplates.userId (App.id user)] ++
    (if favoritesOnly then [eq_ PromptTemplates.isFavorite true] else []) in
  let! templates := select_where Templates (and_ filters) in
  ret {| success := true;
         data := Some {| items := templates; total := length templates |} |}.
End ListTemplates.

Module CreatePromptVariable.
Record Input := {
  templateId : string;
  name : string;
  label : option string;
  description : option string;
  inputType : option string;
  defaultValue : option string;
  optionsJson : option string;
  orderIndex : option Z;
}.

Definition input : RawInput → option Input :=
  z.object (λ o,
    t ← z.string_min1 (field o "templateId");
    n ← z.string_min1 (field o "name");
    l ← z.optional z.string (field o "label");
    d ← z.optional z.string (field o "description");
    it ← z.optional z.string (field o "inputType");
    dv ← z.optional z.string (field o "defaultValue");
    oj ← z.optional z.string (field o "optionsJson");
    oi ← z.optional z.number_int (field o "orderIndex");
    Some {| templateId := t; name := n; label := l; description := d;
            inputType := it; defaultValue := dv; optionsJson := oj;
            orderIndex := oi |}).

Definition handler (rt : Runtime) (input : Input)
    (context : ActionAPIContext)
  : M (Envelope (option PromptVariables.row)) :=
  let! user := lift (requireUser context) in
  getOwnedTemplate (templateId input) (App.id user);;
  let! returned := insert_returning Variables
      {| PromptVariables.id := randomUUID rt;
         PromptVariables.templateId := templateId input;
         PromptVariables.name := name input;
         PromptVariables.label := label input;
         PromptVariables.description := description input;
         PromptVariables.inputType := inputType input;
         PromptVariables.defaultValue := defaultValue input;
         PromptVariables.optionsJson := optionsJson input;
         PromptVariables.orderIndex := orderIndex input;
         PromptVariables.createdAt := now rt |} in
  ret {| success := true; data := Some (head returned) |}.
End CreatePromptVariable.

Module UpdatePromptVariable.
Record Input := {
  id : string;
  templateId : string;
  name : option string;
  label : option string;
  description : option string;
  inputType : option string;
  defaultValue : option string;
  optionsJson : option string;
  orderIndex : option Z;
}.

Definition input : RawInput → option Input :=
  z.refine
    (z.object (λ o,
       i ← z.string_min1 (field o "id");
       t ← z.string_min1 (field o "templateId");
       n ← z.optional z.string (field o "name");
       l ← z.optional z.string (field o "label");
       d ← z.optional z.string (field o "description");
       it ← z.optional z.string (field o "inputType");
       dv ← z.optional z.string (field o "defaultValue");
       oj ← z.optional z.string (field o "optionsJson");
       oi ← z.optional z.number_int (field o "orderIndex");
       Some {| id := i; templateId := t; name := n; label := l;
               description := d; inputType := it; defaultValue := dv;
               optionsJson := oj; orderIndex := oi |}))
    (λ input,
       bool_decide (name input ≠ None) ||
       bool_decide (label input ≠ None) ||
       bool_decide (description input ≠ None) ||
       bool_decide (inputType input ≠ None) ||
       bool_decide (defaultValue input ≠ None) ||
       bool_decide (optionsJson input ≠ None) ||
       bool_decide (orderIndex input ≠ None)).

Definition set_clause (input : Input) : list SetVariables.assign :=
  spread (name input) SetVariables.Name ++
  spread (label input) (λ v, SetVariables.Label (Some v)) ++
  spread (description input) (λ v, SetVariables.Description (Some v)) ++
  spread (inputType input) (λ v, SetVariables.InputType (Some v)) ++
  spread (defaultValue input) (λ v, SetVariables.DefaultValue (Some v)) ++
  spread (optionsJson input) (λ v, SetVariables.OptionsJson (Some v)) ++
  spread (orderIndex input) (λ v, SetVariables.OrderIndex (Some v)).

Definition handler (input : Input) (context : ActionAPIContext)
  : M (Envelope (option PromptVariables.row)) :=
  let! user := lift (requireUser context) in
  getOwnedTemplate (templateId input) (App.id user);;
  let! found := select_where Variables
      (and_ [eq_ PromptVariables.id (id input);
             eq_ PromptVariables.templateId (templateId input)]) in
  match head found with
  | None => throw (ActionError NOT_FOUND "Prompt variable not found.")
  | Some existing =>
      let! returned := update_returning Variables
          (SetVariables.set (set_clause input))
          (eq_ PromptVariables.id (id input)) in
      ret {| success := true; data := Some (head returned) |}
  end.
End UpdatePromptVariable.

Module DeletePromptVariable.
Record Input := { id : string; templateId : string }.

Definition input : RawInput → option Input :=
  z.object (λ o,
    i ← z.string_min1 (field o "id");
    t ← z.string_min1 (field o "templateId");
    Some {| id := i; templateId := t |}).

Definition handler (input : Input) (context : ActionAPIContext)
  : M (Envelope unit) :=
  let! user := lift (requireUser context) in
  getOwnedTemplate (templateId input) (App.id user);;
  let! rowsAffected := delete_where Variables
      (and_ [eq_ PromptVariables.id (id input);
             eq_ PromptVariables.templateId (templateId input)]) in
  if bool_decide (rowsAffected = 0%nat)
  then throw (ActionError NOT_FOUND "Prompt variable not found.")
  else ret {| success := true; data := None |}.
End DeletePromptVariable.

Module ListPromptVariables.
Record Input := { templateId : string }.

Definition input : RawInput → option Input :=
  z.object (λ o,
    t ← z.string_min1 (field o "templateId");
    Some {| templateId := t |}).

Definition handler (input : Input) (context : ActionAPIContext)
  : M (Envelope (Page PromptVariables.row)) :=
  let! user := lift (requireUser context) in
  getOwnedTemplate (templateId input) (App.id user);;
  let! variables := select_where Variables
      (eq_ PromptVariables.templateId (templateId input)) in
  ret {| success := true;
         data := Some {| items := variables; total := length variables |} |}.
End ListPromptVariables.

(** The exported actions. *)
Module server.
Definition createCollection (rt : Runtime) :=
  defineAction CreateCollection.input (CreateCollection.handler rt).
Definition updateCollection (rt : Runtime) :=
  defineAction UpdateCollection.input (UpdateCollection.handler rt).
Definition listCollections :=
  defineAction ListCollections.input ListCollections.handler.
Definition createTemplate (rt : Runtime) :=
  defineAction CreateTemplate.input (CreateTemplate.handler rt).
Definition updateTemplate (rt : Runtime) :=
  defineAction UpdateTemplate.input (UpdateTemplate.handler rt).
Definition listTemplates :=
  defineAction ListTemplates.input ListTemplates.handler.
Definition createPromptVariable (rt : Runtime) :=
  defineAction CreatePromptVariable.input (CreatePromptVariable.handler rt).
Definition updatePromptVariable :=
  defineAction UpdatePromptVariable.input UpdatePromptVariable.handler.
Definition deletePromptVariable :=
  defineAction DeletePromptVariable.input DeletePromptVariable.handler.
Definition listPromptVariables :=
  defineAction ListPromptVariables.input ListPromptVariables.handler.
End server.

(** ** Stores *)

Definition empty_db (fk : bool) : Db :=
  {| collections := []; templates := []; variables := [];
     foreignKeys := fk; log := [] |}.

(** The primary key of each table identifies its rows. *)
Definition keys_unique (db : Db) : Prop :=
  NoDup (PromptCollections.id <$> collections db) ∧
  NoDup (PromptTemplates.id <$> templates db) ∧
  NoDup (PromptVariables.id <$> variables db).

(** The same rows in the three tables (the log may differ). *)
Definition same_rows (db db' : Db) : Prop :=
  collections db' = collections db ∧
  templates db' = templates db ∧
  variables db' = variables db.

(** ** Columns that identify a row *)

(** The columns a set clause on collections must leave alone. *)
Definition collection_identity (a : SetCollections.assign) : Prop :=
  match a with
  | SetCollections.Id _ | SetCollections.UserId _
  | SetCollections.CreatedAt _ => True
  | _ => False
  end.

(** The columns a set clause on variables must leave alone. *)
Definition variable_identity (a : SetVariables.assign) : Prop :=
  match a with
  | SetVariables.Id _ | SetVariables.TemplateId _
  | SetVariables.CreatedAt _ => True
  | _ => False
  end.

(** The assignments a set clause on templates must not hold for a template
    to keep its id and stay in a collection. *)
Definition detaches (a : SetTemplates.assign) : Prop :=
  match a with
  | SetTemplates.Id _ | SetTemplates.CollectionId None => True
  | _ => False
  end.

(** ** Sample data *)

Definition signed_in (userId : string) : ActionAPIContext :=
  {| locals := Some {| App.user := Some {| App.id := userId |} |} |}.

Definition anonymous : ActionAPIContext := {| locals := None |}.

Definition object_of (l : list (string * JsValue)) : RawInput :=
  RawObject (list_to_map l).

Definition alice_coding : PromptCollections.row :=
  {| PromptCollections.id := "c1"; PromptCollections.userId := "alice";
     PromptCollections.name := "Coding";
     PromptCollections.description := None;
     PromptCollections.icon := Some "code";
     PromptCollections.isDefault := true;
     PromptCollections.createdAt := 10;
     PromptCollections.updatedAt := 10 |}.

Definition bob_marketing : PromptCollections.row :=
  {| PromptCollections.id := "c2"; PromptCollections.userId := "bob";
     PromptCollections.name := "Marketing";
     PromptCollections.description := Some "campaigns";
     PromptCollections.icon := None;
     PromptCollections.isDefault := false;
     PromptCollections.createdAt := 20;
     PromptCollections.updatedAt := 20 |}.

Definition alice_explain : PromptTemplates.row :=
  {| PromptTemplates.id := "t1";
     PromptTemplates.collectionId := Some "c1";
     PromptTemplates.userId := "alice";
     PromptTemplates.name := "Explain";
     PromptTemplates.description := None;
     PromptTemplates.modelHint := Some "chat";
     PromptTemplates.promptBody := "Explain {{topic}}";
     PromptTemplates.tags := None;
     PromptTemplates.isFavorite := false;
     PromptTemplates.isSystem := false;
     PromptTemplates.createdAt := 30;
     PromptTemplates.updatedAt := 30 |}.

Definition alice_rewrite : PromptTemplates.row :=
  {| PromptTemplates.id := "t2";
     PromptTemplates.collectionId := None;
     PromptTemplates.userId := "alice";
     PromptTemplates.name := "Rewrite";
     PromptTemplates.description := None;
     PromptTemplates.modelHint := None;
     PromptTemplates.promptBody := "Rewrite in a {{tone}} tone";
     PromptTemplates.tags := Some "style";
     PromptTemplates.isFavorite := true;
     PromptTemplates.isSystem := false;
     PromptTemplates.createdAt := 40;
     PromptTemplates.updatedAt := 40 |}.

Definition bob_slogan : PromptTemplates.row :=
  {| PromptTemplates.id := "t3";
     PromptTemplates.collectionId := Some "c2";
     PromptTemplates.userId := "bob";
     PromptTemplates.name := "Slogan";
     PromptTemplates.description := None;
     PromptTemplates.modelHint := None;
     PromptTemplates.promptBody := "A slogan for {{product}}";
     PromptTemplates.tags := None;
     PromptTemplates.isFavorite := true;
     PromptTemplates.isSystem := false;
     PromptTemplates.createdAt := 50;
     PromptTemplates.updatedAt := 50 |}.

Definition topic_of_explain : PromptVariables.row :=
  {| PromptVariables.id := "v1"; PromptVariables.templateId := "t1";
     PromptVariables.name := "topic";
     PromptVariables.label := Some "Topic";
     PromptVariables.description := None;
     PromptVariables.inputType := Some "text";
     PromptVariables.defaultValue := None;
     PromptVariables.optionsJson := None;
     PromptVariables.orderIndex := Some 0%Z;
     PromptVariables.createdAt := 60 |}.

Definition tone_of_rewrite : PromptVariables.row :=
  {| PromptVariables.id := "v2"; PromptVariables.templateId := "t2";
     PromptVariables.name := "tone";
     PromptVariables.label := None;
     PromptVariables.description := None;
     PromptVariables.inputType := Some "select";
     PromptVariables.defaultValue := Some "formal";
     PromptVariables.optionsJson := None;
     PromptVariables.orderIndex := None;
     PromptVariables.createdAt := 70 |}.

(** A store with two users: alice has a collection, two templates (one in
    the collection) and a variable on each; bob has a collection and a
    template in it. *)
Definition sample_db (fk : bool) : Db := {|
  collections := [alice_coding; bob_marketing];
  templates := [alice_explain; alice_rewrite; bob_slogan];
  variables := [topic_of_explain; tone_of_rewrite];
  foreignKeys := fk;
  log := [];
|}.

Definition sample_rt : Runtime := {| randomUUID := "n1"; now := 100 |}.

(** ** Calls and their effect on the store *)

(** A call of one of the exported actions. *)
Inductive Call :=
  | CreateCollection (rt : Runtime) (raw : RawInput) (c : ActionAPIContext)
  | UpdateCollection (rt : Runtime) (raw : RawInput) (c : ActionAPIContext)
  | ListCollections (raw : RawInput) (c : ActionAPIContext)
  | CreateTemplate (rt : Runtime) (raw : RawInput) (c : ActionAPIContext)
  | UpdateTemplate (rt : Runtime) (raw : RawInput) (c : ActionAPIContext)
  | ListTemplates (raw : RawInput) (c : ActionAPIContext)
  | CreatePromptVariable (rt : Runtime) (raw : RawInput)
      (c : ActionAPIContext)
  | UpdatePromptVariable (raw : RawInput) (c : ActionAPIContext)
  | DeletePromptVariable (raw : RawInput) (c : ActionAPIContext)
  | ListPromptVariables (raw : RawInput) (c : ActionAPIContext).

(** The store a call leaves, whatever it replies. *)
Definition perform (call : Call) (db : Db) : Db :=
  match call with
  | CreateCollection rt raw c => (server.createCollection rt raw c db).2
  | UpdateCollection rt raw c => (server.updateCollection rt raw c db).2
  | ListCollections raw c => (server.listCollections raw c db).2
  | CreateTemplate rt raw c => (server.createTemplate rt raw c db).2
  | UpdateTemplate rt raw c => (server.updateTemplate rt raw c db).2
  | ListTemplates raw c => (server.listTemplates raw c db).2
  | CreatePromptVariable rt raw c =>
      (server.createPromptVariable rt raw c db).2
  | UpdatePromptVariable raw c => (server.updatePromptVariable raw c db).2
  | DeletePromptVariable raw c => (server.deletePromptVariable raw c db).2
  | ListPromptVariables raw c => (server.listPromptVariables raw c db).2
  end.

Definition perform_all (calls : list Call) (db : Db) : Db :=
  foldl (λ d call, perform call d) db calls.

(** What a call may have written: nothing, one new row under a key that
    was free, an update in place that keeps the key of every row (and the
    owner of a collection), or the removal of variables. *)
Inductive written (db db' : Db) : Prop :=
  | written_nothing :
      same_rows db db' → written db db'
  | inserted_collection r :
      PromptCollections.id r ∉ PromptCollections.id <$> collections db →
      collections db' = collections db ++ [r] →
      templates db' = templates db → variables db' = variables db →
      written db db'
  | inserted_template r :
      PromptTemplates.id r ∉ PromptTemplates.id <$> templates db →
      templates db' = templates db ++ [r] →
      collections db' = collections db → variables db' = variables db →
      written db db'
  | inserted_variable r :
      PromptVariables.id r ∉ PromptVariables.id <$> variables db →
      variables db' = variables db ++ [r] →
      collections db' = collections db → templates db' = templates db →
      written db db'
  | updated_collections g :
      (∀ r, PromptCollections.id (g r) = PromptCollections.id r ∧
            PromptCollections.userId (g r) = PromptCollections.userId r) →
      collections db' = g <$> collections db →
      templates db' = templates db → variables db' = variables db →
      written db db'
  | updated_templates g :
      (∀ r, PromptTemplates.id (g r) = PromptTemplates.id r) →
      templates db' = g <$> templates db →
      collections db' = collections db → variables db' = variables db →
      written db db'
  | updated_variables g :
      (∀ r, PromptVariables.id (g r) = PromptVariables.id r) →
      variables db' = g <$> variables db →
      collections db' = collections db → templates db' = templates db →
      written db db'
  | deleted_variables (c : Cond PromptVariables.row) :
      variables db' = filter (λ r, negb (c r)) (variables db) →
      collections db' = collections db → templates db' = templates db →
      written db db'.

(** ** Callers and outcomes of calls *)

(** The request context a call comes with. *)
Definition context_of (call : Call) : ActionAPIContext :=
  match call with
  | CreateCollection _ _ c | UpdateCollection _ _ c | ListCollections _ c
  | CreateTemplate _ _ c | UpdateTemplate _ _ c | ListTemplates _ c
  | CreatePromptVariable _ _ c | UpdatePromptVariable _ c
  | DeletePromptVariable _ c | ListPromptVariables _ c => c
  end.

(** The input a call comes with. *)
Definition raw_of (call : Call) : RawInput :=
  match call with
  | CreateCollection _ raw _ | UpdateCollection _ raw _
  | ListCollections raw _
  | CreateTemplate _ raw _ | UpdateTemplate _ raw _ | ListTemplates raw _
  | CreatePromptVariable _ raw _ | UpdatePromptVariable raw _
  | DeletePromptVariable raw _ | ListPromptVariables raw _ => raw
  end.

Definition failure {A} (r : Result A) : option Failure :=
  match r with Ok _ => None | Throw e => Some e end.

(** What a call fails with, if it fails. *)
Definition outcome (call : Call) (db : Db) : option Failure :=
  match call with
  | CreateCollection rt raw c =>
      failure (server.createCollection rt raw c db).1
  | UpdateCollection rt raw c =>
      failure (server.updateCollection rt raw c db).1
  | ListCollections raw c => failure (server.listCollections raw c db).1
  | CreateTemplate rt raw c => failure (server.createTemplate rt raw c db).1
  | UpdateTemplate rt raw c => failure (server.updateTemplate rt raw c db).1
  | ListTemplates raw c => failure (server.listTemplates raw c db).1
  | CreatePromptVariable rt raw c =>
      failure (server.createPromptVariable rt raw c db).1
  | UpdatePromptVariable raw c =>
      failure (server.updatePromptVariable raw c db).1
  | DeletePromptVariable raw c =>
      failure (server.deletePromptVariable raw c db).1
  | ListPromptVariables raw c =>
      failure (server.listPromptVariables raw c db).1
  end.

Definition is_select (s : Stmt) : bool :=
  match s with SELECT _ => true | _ => false end.

(** What a call by [caller] that changes rows does to them: it adds one row
    of the caller's (a variable under a template of the caller's), changes
    the row that has the key of a row of the caller's, keeping what
    identifies it, or removes variables of one template of the caller's. *)
Inductive effect (caller : string) (db db' : Db) : Prop :=
  | created_collection c :
      PromptCollections.userId c = caller →
      PromptCollections.name c ≠ EmptyString →
      PromptCollections.id c ∉ PromptCollections.id <$> collections db →
      collections db' = collections db ++ [c] →
      templates db' = templates db → variables db' = variables db →
      effect caller db db'
  | created_template t :
      PromptTemplates.userId t = caller →
      PromptTemplates.isSystem t = false →
      PromptTemplates.id t ∉ PromptTemplates.id <$> templates db →
      templates db' = templates db ++ [t] →
      collections db' = collections db → variables db' = variables db →
      effect caller db db'
  | created_variable v tpl :
      tpl ∈ templates db →
      PromptTemplates.id tpl = PromptVariables.templateId v →
      PromptTemplates.userId tpl = caller →
      PromptVariables.id v ∉ PromptVariables.id <$> variables db →
      variables db' = variables db ++ [v] →
      collections db' = collections db → templates db' = templates db →
      effect caller db db'
  | changed_collection old g :
      old ∈ collections db →
      PromptCollections.userId old = caller →
      (∀ r, PromptCollections.id (g r) = PromptCollections.id r ∧
            PromptCollections.userId (g r) = PromptCollections.userId r ∧
            PromptCollections.createdAt (g r)
            = PromptCollections.createdAt r ∧
            (PromptCollections.name (g r) = PromptCollections.name r ∨
             PromptCollections.name (g r) ≠ EmptyString)) →
      collections db' =
        (λ r, if bool_decide (PromptCollections.id r
                              = PromptCollections.id old)
              then g r else r) <$> collections db →
      templates db' = templates db → variables db' = variables db →
      effect caller db db'
  | changed_template old g :
      old ∈ templates db →
      PromptTemplates.userId old = caller →
      (∀ r, PromptTemplates.id (g r) = PromptTemplates.id r ∧
            PromptTemplates.userId (g r) = PromptTemplates.userId r ∧
            PromptTemplates.isSystem (g r) = PromptTemplates.isSystem r ∧
            PromptTemplates.createdAt (g r) = PromptTemplates.createdAt r) →
      templates db' =
        (λ r, if bool_decide (PromptTemplates.id r = PromptTemplates.id old)
              then g r else r) <$> templates db →
      collections db' = collections db → variables db' = variables db →
      effect caller db db'
  | changed_variable old tpl g :
      old ∈ variables db → tpl ∈ templates db →
      PromptTemplates.id tpl = PromptVariables.templateId old →
      PromptTemplates.userId tpl = caller →
      (∀ r, PromptVariables.id (g r) = PromptVariables.id r ∧
            PromptVariables.templateId (g r)
            = PromptVariables.templateId r ∧
            PromptVariables.createdAt (g r) = PromptVariables.createdAt r) →
      variables db' =
        (λ r, if bool_decide (PromptVariables.id r = PromptVariables.id old)
              then g r else r) <$> variables db →
      collections db' = collections db → templates db' = templates db →
      effect caller db db'
  | removed_variables i tpl :
      tpl ∈ templates db →
      PromptTemplates.userId tpl = caller →
      variables db' =
        filter (λ r, ¬ (PromptVariables.id r = i ∧
                        PromptVariables.templateId r
                        = PromptTemplates.id tpl)) (variables db) →
      collections db' = collections db → templates db' = templates db →
      effect caller db db'.

(** Calls by the two users of the sample store. *)
Definition sample_calls : list Call :=
  [UpdateCollection {| randomUUID := "n2"; now := 110 |}
     (object_of [("id", JStr "c1"); ("name", JStr "Code")])
     (signed_in "alice");
   CreateTemplate {| randomUUID := "n3"; now := 120 |}
     (object_of [("name", JStr "Pitch"); ("promptBody", JStr "Pitch it");
                 ("collectionId", JStr "c2")])
     (signed_in "bob");
   CreatePromptVariable {| randomUUID := "n4"; now := 130 |}
     (object_of [("templateId", JStr "n3"); ("name", JStr "product")])
     (signed_in "bob");
   DeletePromptVariable
     (object_of [("id", JStr "v2"); ("templateId", JStr "t2")])
     (signed_in "alice")].

(** * Properties *)

(** ** Conditions and filters *)

Lemma eq_spec {R A} `{EqDecision A} (column : R → A) (v : A) (r : R) :
  eq_ column v r ↔ column r = v.
Proof. unfold eq_. apply bool_decide_spec. Qed.

Lemma and_pair {R} (c1 c2 : Cond R) (r : R) :
  and_ [c1; c2] r ↔ c1 r ∧ c2 r.
Proof.
  unfold and_. simpl. rewrite andb_true_r.
  destruct (c1 r), (c2 r); simpl; tauto.
Qed.

Lemma filter_and_pair {R} (c1 c2 : Cond R) (l : list R) :
  filter (and_ [c1; c2]) l = filter c2 (filter c1 l).
Proof.
  rewrite list_filter_filter. apply list_filter_iff.
  intros r. rewrite and_pair. tauto.
Qed.

Section Keys.
Context {R : Type} (key : R → string).

Lemma filter_key_absent (k : string) (l : list R) :
  k ∉ key <$> l → filter (eq_ key k) l = [].
Proof.
  induction l as [|x l IH]; simpl; [done|].
  intros Hk. rewrite not_elem_of_cons in Hk. destruct Hk as [Hx Hl].
  rewrite filter_cons_False; [auto|].
  rewrite eq_spec. congruence.
Qed.

Lemma filter_key_unique (l : list R) (r : R) :
  NoDup (key <$> l) → r ∈ l → filter (eq_ key (key r)) l = [r].
Proof.
  induction l as [|x l IH]; simpl; intros Hnd Hr.
  - by apply elem_of_nil in Hr.
  - apply NoDup_cons in Hnd as [Hx Hnd].
    apply elem_of_cons in Hr as [->|Hr].
    + rewrite filter_cons_True by by apply eq_spec.
      by rewrite filter_key_absent.
    + rewrite filter_cons_False; [auto|].
      rewrite eq_spec. intros Heq. apply Hx. rewrite Heq.
      by apply list_elem_of_fmap_2.
Qed.
End Keys.

(** ** Decoding

    The collections and the templates hold no integer, so that a
    statement on them never fails to decode its rows. *)

Lemma existsb_never {R} (p : R → bool) (l : list R) :
  (∀ r, p r = false) → existsb p l = false.
Proof. intros H. induction l as [|x l IH]; simpl; [done|]. by rewrite H. Qed.

Section Decoding.
Context {R : Type} (T : Table R).
Hypothesis Hsafe : ∀ r, unsafe T r = false.

Lemma select_where_run (c : Cond R) (db : Db) :
  select_where T c db = (Ok (filter c (rows T db)), issue (SELECT (tname T)) db).
Proof. unfold select_where. by rewrite existsb_never by done. Qed.

Lemma insert_returning_decoded (r : R) (db : Db) :
  insert_returning T r db =
  let db1 := issue (INSERT (tname T)) db in
  if bool_decide (pkey T r ∈ pkey T <$> rows T db)
  then (Throw CONSTRAINT, db1)
  else if foreignKeys db && negb (fk_ok T db r)
  then (Throw CONSTRAINT, db1)
  else (Ok [r], set_rows T (rows T db ++ [r]) db1).
Proof. unfold insert_returning. by rewrite Hsafe. Qed.

Lemma update_returning_decoded (f : R → R) (c : Cond R) (db : Db) :
  update_returning T f c db =
  let db1 := issue (UPDATE (tname T)) db in
  let hit := filter c (rows T db) in
  if foreignKeys db &&
     existsb (λ r, bool_decide (fkey T (f r) ≠ fkey T r) &&
                   negb (fk_ok T db (f r))) hit
  then (Throw CONSTRAINT, db1)
  else (Ok (f <$> hit),
        set_rows T ((λ r, if c r then f r else r) <$> rows T db) db1).
Proof.
  unfold update_returning. by rewrite (existsb_never (unsafe T)) by done.
Qed.
End Decoding.

(** ** The resolvers *)

Lemma getOwnedCollection_run (collectionId userId : string) (db : Db) :
  getOwnedCollection collectionId userId db =
  (match head (filter (eq_ PromptCollections.userId userId)
                 (filter (eq_ PromptCollections.id collectionId)
                    (collections db))) with
   | None => Throw (ActionError NOT_FOUND "Collection not found.")
   | Some c => Ok c
   end, issue (SELECT TCollections) db).
Proof.
  unfold getOwnedCollection, bind. rewrite select_where_run by done.
  rewrite filter_and_pair. simpl. by destruct (head _).
Qed.

Lemma getOwnedTemplate_run (templateId userId : string) (db : Db) :
  getOwnedTemplate templateId userId db =
  (match head (filter (eq_ PromptTemplates.id templateId) (templates db)) with
   | None => Throw (ActionError NOT_FOUND "Template not found.")
   | Some t =>
       if bool_decide (PromptTemplates.userId t ≠ userId)
       then Throw (ActionError FORBIDDEN
                     "You do not have access to this template.")
       else Ok t
   end, issue (SELECT TTemplates) db).
Proof.
  unfold getOwnedTemplate, bind. rewrite select_where_run by done. simpl.
  destruct (head _); [|done]. by case_bool_decide.
Qed.

(** C1. Resolving a template by an id no row has fails with NOT_FOUND, and
    resolving one whose row belongs to another user fails with FORBIDDEN;
    resolving a collection fails with NOT_FOUND in both cases, and never
    fails with anything else. *)
Theorem resolver_asymmetry (db : Db) (templateId collectionId caller : string)
    (Hkeys : keys_unique db) :
  (templateId ∉ PromptTemplates.id <$> templates db →
   (getOwnedTemplate templateId caller db).1 =
   Throw (ActionError NOT_FOUND "Template not found.")) ∧
  (∀ t, t ∈ templates db → PromptTemplates.id t = templateId →
        PromptTemplates.userId t ≠ caller →
   (getOwnedTemplate templateId caller db).1 =
   Throw (ActionError FORBIDDEN "You do not have access to this template.")) ∧
  (collectionId ∉ PromptCollections.id <$> collections db →
   (getOwnedCollection collectionId caller db).1 =
   Throw (ActionError NOT_FOUND "Collection not found.")) ∧
  (∀ c, c ∈ collections db → PromptCollections.id c = collectionId →
        PromptCollections.userId c ≠ caller →
   (getOwnedCollection collectionId caller db).1 =
   Throw (ActionError NOT_FOUND "Collection not found.")) ∧
  (∀ e, (getOwnedCollection collectionId caller db).1 = Throw e →
        e = ActionError NOT_FOUND "Collection not found.").
Proof.
  destruct Hkeys as (Hc & Ht & _).
  rewrite getOwnedTemplate_run, getOwnedCollection_run. simpl.
  repeat split.
  - intros Habs. by rewrite filter_key_absent.
  - intros t Hin <- Hown. rewrite filter_key_unique by done. simpl.
    by rewrite bool_decide_eq_true_2.
  - intros Habs. by rewrite (filter_key_absent PromptCollections.id).
  - intros c Hin <- Hown.
    rewrite (filter_key_unique PromptCollections.id) by done.
    rewrite filter_cons_False; [done|]. by rewrite eq_spec.
  - intros e. destruct (head _); [done|]. congruence.
Qed.

(** ** Validation of partial updates *)

(** C2. An update whose input has none of the optional fields is rejected
    by validation with the store exactly as it was: no row changed and no
    statement issued.  The same holds for an input that is not an object. *)
Theorem update_without_fields_rejected
    (rt : Runtime) (context : ActionAPIContext) (db : Db) :
  (∀ o, Forall (λ k, field o k = JUndefined)
          ["name"; "description"; "icon"; "isDefault"] →
        server.updateCollection rt (RawObject o) context db
        = (Throw VALIDATION, db)) ∧
  (∀ o, Forall (λ k, field o k = JUndefined)
          ["collectionId"; "name"; "description"; "modelHint";
           "promptBody"; "tags"; "isFavorite"] →
        server.updateTemplate rt (RawObject o) context db
        = (Throw VALIDATION, db)) ∧
  (∀ o, Forall (λ k, field o k = JUndefined)
          ["name"; "label"; "description"; "inputType"; "defaultValue";
           "optionsJson"; "orderIndex"] →
        server.updatePromptVariable (RawObject o) context db
        = (Throw VALIDATION, db)) ∧
  (∀ v, server.updateCollection rt (RawValue v) context db
        = (Throw VALIDATION, db) ∧
        server.updateTemplate rt (RawValue v) context db
        = (Throw VALIDATION, db) ∧
        server.updatePromptVariable (RawValue v) context db
        = (Throw VALIDATION, db)).
Proof.
  repeat split; try done.
  - intros o H. repeat (apply Forall_cons in H as [? H]).
    unfold server.updateCollection, defineAction, UpdateCollection.input,
      z.refine, z.object.
    destruct (z.string_min1 (field o "id")) as [i|]; simpl; [|done].
    by repeat match goal with E : field o _ = _ |- _ => rewrite E; clear E end.
  - intros o H. repeat (apply Forall_cons in H as [? H]).
    unfold server.updateTemplate, defineAction, UpdateTemplate.input,
      z.refine, z.object.
    destruct (z.string_min1 (field o "id")) as [i|]; simpl; [|done].
    by repeat match goal with E : field o _ = _ |- _ => rewrite E; clear E end.
  - intros o H. repeat (apply Forall_cons in H as [? H]).
    unfold server.updatePromptVariable, defineAction,
      UpdatePromptVariable.input, z.refine, z.object.
    destruct (z.string_min1 (field o "id")) as [i|]; simpl; [|done].
    destruct (z.string_min1 (field o "templateId")) as [t|]; simpl; [|done].
    by repeat match goal with E : field o _ = _ |- _ => rewrite E; clear E end.
Qed.

(** ** Statements *)

Lemma requireUser_signed_in (context : ActionAPIContext) (user : App.User) :
  requireUser context = Ok user ↔
  ∃ l, locals context = Some l ∧ App.user l = Some user.
Proof.
  unfold requireUser. destruct context as [[[[u|]]|]]; simpl;
    split; intros H; try discriminate.
  - injection H as ->. eauto.
  - destruct H as (l & [= <-] & [= ->]). done.
  - destruct H as (l & [= <-] & [=]).
  - destruct H as (l & [=] & _).
Qed.

Section Update.
Context {R : Type} (T : Table R).

(** An update that leaves the referencing column alone is never refused:
    the rows are written, and the reply is the rows or the failure to
    decode them. *)
Lemma update_returning_written (f : R → R) (c : Cond R) (db : Db) :
  (∀ r, fkey T (f r) = fkey T r) →
  update_returning T f c db =
  (if existsb (unsafe T) (f <$> filter c (rows T db))
   then Throw RangeError else Ok (f <$> filter c (rows T db)),
   set_rows T ((λ r, if c r then f r else r) <$> rows T db)
     (issue (UPDATE (tname T)) db)).
Proof.
  intros Hfk. unfold update_returning.
  replace (existsb (λ r, _ && _) _) with false.
  - rewrite andb_false_r. cbv zeta. by destruct (existsb _ _).
  - symmetry. induction (filter _ _) as [|x l IH]; simpl; [done|].
    rewrite IH, bool_decide_eq_false_2; [done|]. intros H. by apply H.
Qed.

Lemma update_returning_run (f : R → R) (c : Cond R) (db : Db) :
  (∀ r, unsafe T r = false) →
  (∀ r, fkey T (f r) = fkey T r) →
  update_returning T f c db =
  (Ok (f <$> filter c (rows T db)),
   set_rows T ((λ r, if c r then f r else r) <$> rows T db)
     (issue (UPDATE (tname T)) db)).
Proof.
  intros Hsafe Hfk. rewrite update_returning_written by done.
  by rewrite existsb_never.
Qed.
End Update.

Lemma set_collections_keeps (l : list SetCollections.assign)
    (r : PromptCollections.row) :
  Forall (λ a, ¬ collection_identity a) l →
  PromptCollections.id (SetCollections.set l r) = PromptCollections.id r ∧
  PromptCollections.userId (SetCollections.set l r)
  = PromptCollections.userId r ∧
  PromptCollections.createdAt (SetCollections.set l r)
  = PromptCollections.createdAt r.
Proof.
  unfold SetCollections.set. revert r.
  induction l as [|a l IH]; simpl; intros r H; [done|].
  apply Forall_cons in H as [Ha H].
  destruct (IH (SetCollections.apply r a) H) as (-> & -> & ->).
  destruct a; simpl in *; tauto.
Qed.

Lemma updateCollection_set_clause_columns (rt : Runtime)
    (input : UpdateCollection.Input) :
  Forall (λ a, ¬ collection_identity a) (UpdateCollection.set_clause rt input).
Proof.
  unfold UpdateCollection.set_clause.
  destruct input as [i [n|] [d|] [ic|] [b|]]; simpl;
    repeat constructor; simpl; tauto.
Qed.

(** C5. A successful updateCollection changes, on the row with the given
    id, the fields the input has and [updatedAt], which becomes the time of
    the update; the fields the input leaves out keep their values (and so
    do [id], [userId] and [createdAt]); the updated row is the one
    returned; no other row of any table changes. *)
Theorem updateCollection_partial
    (rt : Runtime) (raw : RawInput) (input : UpdateCollection.Input)
    (context : ActionAPIContext) (db db' : Db)
    (reply : Envelope (option PromptCollections.row))
    (Hkeys : keys_unique db)
    (Hparse : UpdateCollection.input raw = Some input)
    (Hrun : server.updateCollection rt raw context db = (Ok reply, db')) :
  ∃ old new : PromptCollections.row,
    old ∈ collections db ∧
    PromptCollections.id old = UpdateCollection.id input ∧
    reply = {| success := true; data := Some (Some new) |} ∧
    new ∈ collections db' ∧
    PromptCollections.name new =
      default (PromptCollections.name old) (UpdateCollection.name input) ∧
    PromptCollections.description new =
      match UpdateCollection.description input with
      | Some d => Some d
      | None => PromptCollections.description old
      end ∧
    PromptCollections.icon new =
      match UpdateCollection.icon input with
      | Some i => Some i
      | None => PromptCollections.icon old
      end ∧
    PromptCollections.isDefault new =
      default (PromptCollections.isDefault old)
              (UpdateCollection.isDefault input) ∧
    PromptCollections.updatedAt new = now rt ∧
    PromptCollections.id new = PromptCollections.id old ∧
    PromptCollections.userId new = PromptCollections.userId old ∧
    PromptCollections.createdAt new = PromptCollections.createdAt old ∧
    collections db' =
      (λ r, if decide (PromptCollections.id r = UpdateCollection.id input)
            then new else r) <$> collections db ∧
    templates db' = templates db ∧
    variables db' = variables db.
Proof.
  destruct Hkeys as (Hc & _).
  unfold server.updateCollection, defineAction in Hrun.
  rewrite Hparse in Hrun. unfold UpdateCollection.handler, bind, lift in Hrun.
  destruct (requireUser context) as [user|]; [|done].
  rewrite getOwnedCollection_run in Hrun.
  destruct (head _) as [old|] eqn:Hold; [|done].
  apply head_Some_elem_of, list_elem_of_filter in Hold as [_ Hold].
  apply list_elem_of_filter in Hold as [Hid Hold]. apply eq_spec in Hid.
  pose proof (set_collections_keeps _ old
                (updateCollection_set_clause_columns rt input))
    as (Kid & Kuser & Kcreated).
  rewrite update_returning_run in Hrun by done.
  unfold ret in Hrun. simpl in Hrun. rewrite <- Hid in Hrun.
  rewrite (filter_key_unique PromptCollections.id) in Hrun by done.
  simpl in Hrun. injection Hrun as <- <-. simpl.
  set (new := SetCollections.set _ old) in *.
  assert (Hmap : (λ r, if eq_ PromptCollections.id (PromptCollections.id old) r
                       then SetCollections.set
                              (UpdateCollection.set_clause rt input) r
                       else r) <$> collections db
                 = (λ r, if decide (PromptCollections.id r
                                    = PromptCollections.id old)
                         then new else r) <$> collections db).
  { apply list_fmap_ext. intros _ r Hr%list_elem_of_lookup_2.
    unfold eq_. case_bool_decide as E; case_decide as E'; try done.
    subst new. f_equal.
    pose proof (filter_key_unique PromptCollections.id _ old Hc Hold) as F1.
    assert (r ∈ filter (eq_ PromptCollections.id (PromptCollections.id old))
                 (collections db)) as F2.
    { apply list_elem_of_filter. split; [by apply eq_spec|done]. }
    rewrite F1 in F2. by apply list_elem_of_singleton in F2. }
  exists old, new. repeat split; try done.
  all: try (subst new; unfold UpdateCollection.set_clause;
            destruct input as [i [n|] [d|] [ic|] [b|]]; reflexivity).
  - rewrite Hmap. apply list_elem_of_fmap. exists old.
    by rewrite decide_True.
  - by rewrite <- Hid.
Qed.

(** ** Creating and listing *)

(** C6. The row a successful createTemplate inserts and returns has
    [isSystem = false], whatever the input holds; the rows that were there
    are kept, so every row of the table that is new has it. *)
Theorem createTemplate_never_system
    (rt : Runtime) (raw : RawInput) (context : ActionAPIContext)
    (db db' : Db) (reply : Envelope (option PromptTemplates.row))
    (Hrun : server.createTemplate rt raw context db = (Ok reply, db')) :
  ∃ t : PromptTemplates.row,
    reply = {| success := true; data := Some (Some t) |} ∧
    PromptTemplates.isSystem t = false ∧
    templates db' = templates db ++ [t] ∧
    ∀ t', t' ∈ templates db' →
          t' ∈ templates db ∨ PromptTemplates.isSystem t' = false.
Proof.
  unfold server.createTemplate, defineAction in Hrun.
  destruct (CreateTemplate.input raw) as [input|]; [|done].
  unfold CreateTemplate.handler, bind, lift, ret in Hrun.
  destruct (requireUser context) as [user|]; [|done].
  match type of Hrun with
  | context [insert_returning Templates ?r] => set (t := r) in *
  end.
  assert (Hins : ∀ d, templates d = templates db →
            (let (r, d') := insert_returning Templates t d in
             match r with
             | Ok a => (Ok {| success := true; data := Some (head a) |}, d')
             | Throw e => (Throw e, d')
             end) = (Ok reply, db') →
            reply = {| success := true; data := Some (Some t) |} ∧
            templates db' = templates db ++ [t]).
  { intros d Hd. unfold insert_returning. simpl. rewrite Hd.
    destruct (bool_decide _); [done|].
    destruct (_ && _); [done|]. simpl. by intros [= <- <-]. }
  assert (reply = {| success := true; data := Some (Some t) |} ∧
          templates db' = templates db ++ [t]) as [-> Hrows].
  { destruct (CreateTemplate.collectionId input) as [c|];
      [destruct (CreateTemplate.truthy c)|].
    - rewrite getOwnedCollection_run in Hrun.
      destruct (head _); [|done]. by apply Hins in Hrun.
    - by apply Hins in Hrun.
    - by apply Hins in Hrun. }
  exists t. repeat split; [done|].
  intros t'. rewrite Hrows, elem_of_app, list_elem_of_singleton.
  intros [?| ->]; auto.
Qed.

(** What the schema of listTemplates makes of the request. *)
Lemma listTemplates_input :
  ListTemplates.input (RawValue JUndefined) = Some None ∧
  (∀ o, field o "favoritesOnly" = JUndefined →
        ListTemplates.input (RawObject o)
        = Some (Some {| ListTemplates.favoritesOnly := false |})) ∧
  (∀ o b, field o "favoritesOnly" = JBool b →
          ListTemplates.input (RawObject o)
          = Some (Some {| ListTemplates.favoritesOnly := b |})).
Proof.
  repeat split.
  - intros o H. unfold ListTemplates.input. simpl. by rewrite H.
  - intros o b H. unfold ListTemplates.input. simpl. by rewrite H.
Qed.

(** C7. For a signed-in caller and an accepted input, listTemplates
    succeeds with the templates of the caller, in table order; they are
    restricted to the favorites exactly when [favoritesOnly] was given as
    true (absent, it is false); [total] is the number of items. *)
Theorem listTemplates_items
    (raw : RawInput) (input : option ListTemplates.Input)
    (context : ActionAPIContext) (user : App.User) (db : Db)
    (Hparse : ListTemplates.input raw = Some input)
    (Huser : requireUser context = Ok user) :
  let favoritesOnly := default false (ListTemplates.favoritesOnly <$> input) in
  ∃ page : Page PromptTemplates.row,
    server.listTemplates raw context db =
      (Ok {| success := true; data := Some page |},
       issue (SELECT TTemplates) db) ∧
    items page =
      filter (λ t, PromptTemplates.userId t = App.id user ∧
                   (favoritesOnly = true → PromptTemplates.isFavorite t = true))
             (templates db) ∧
    (∀ t, t ∈ items page ↔
          t ∈ templates db ∧ PromptTemplates.userId t = App.id user ∧
          (favoritesOnly = true → PromptTemplates.isFavorite t = true)) ∧
    total page = length (items page).
Proof.
  intros favoritesOnly.
  unfold server.listTemplates, defineAction. rewrite Hparse.
  unfold ListTemplates.handler, bind, lift, ret.
  rewrite Huser. fold favoritesOnly. rewrite select_where_run by done. simpl.
  eexists. split; [reflexivity|]. simpl.
  assert (Hiff : ∀ t : PromptTemplates.row,
    and_ ([eq_ PromptTemplates.userId (App.id user)] ++
          (if favoritesOnly then [eq_ PromptTemplates.isFavorite true]
           else [])) t ↔
    PromptTemplates.userId t = App.id user ∧
    (favoritesOnly = true → PromptTemplates.isFavorite t = true)).
  { intros t. unfold and_.
    destruct favoritesOnly; simpl;
      rewrite ?andb_true_r, ?andb_True, !eq_spec; intuition congruence. }
  split; [by apply list_filter_iff|]. split; [|done].
  intros t. rewrite list_elem_of_filter. rewrite <- Hiff. tauto.
Qed.

(** A successful createCollection appends the row it returns, owned by the
    caller. *)
Lemma createCollection_run
    (rt : Runtime) (raw : RawInput) (context : ActionAPIContext)
    (db db' : Db) (reply : Envelope (option PromptCollections.row)) :
  server.createCollection rt raw context db = (Ok reply, db') →
  ∃ (user : App.User) (c : PromptCollections.row),
    requireUser context = Ok user ∧
    reply = {| success := true; data := Some (Some c) |} ∧
    PromptCollections.id c = randomUUID rt ∧
    PromptCollections.userId c = App.id user ∧
    collections db' = collections db ++ [c] ∧
    templates db' = templates db ∧ variables db' = variables db.
Proof.
  unfold server.createCollection, defineAction.
  destruct (CreateCollection.input raw) as [input|]; [|done].
  unfold CreateCollection.handler, bind, lift, ret, insert_returning.
  destruct (requireUser context) as [user|]; [|done]. simpl.
  destruct (bool_decide _); [done|].
  rewrite andb_false_r. intros [= <- <-]. simpl. by eexists _, _.
Qed.

(** listCollections for a signed-in caller. *)
Lemma listCollections_run
    (raw : RawInput) (input : option unit) (context : ActionAPIContext)
    (user : App.User) (db : Db) :
  ListCollections.input raw = Some input →
  requireUser context = Ok user →
  server.listCollections raw context db =
  (Ok {| success := true;
         data := Some
           {| items := filter (eq_ PromptCollections.userId (App.id user))
                         (collections db);
              total := length
                         (filter (eq_ PromptCollections.userId (App.id user))
                            (collections db)) |} |},
   issue (SELECT TCollections) db).
Proof.
  intros Hparse Huser. unfold server.listCollections, defineAction.
  rewrite Hparse. unfold ListCollections.handler, bind, lift, ret.
  rewrite Huser. by rewrite select_where_run.
Qed.

(** ** Variables *)

Lemma set_variables_keeps (l : list SetVariables.assign)
    (r : PromptVariables.row) :
  Forall (λ a, ¬ variable_identity a) l →
  PromptVariables.id (SetVariables.set l r) = PromptVariables.id r ∧
  PromptVariables.templateId (SetVariables.set l r)
  = PromptVariables.templateId r ∧
  PromptVariables.createdAt (SetVariables.set l r)
  = PromptVariables.createdAt r.
Proof.
  unfold SetVariables.set. revert r.
  induction l as [|a l IH]; simpl; intros r H; [done|].
  apply Forall_cons in H as [Ha H].
  destruct (IH (SetVariables.apply r a) H) as (-> & -> & ->).
  destruct r, a; simpl in *; tauto.
Qed.

Lemma updatePromptVariable_set_clause_columns
    (input : UpdatePromptVariable.Input) :
  Forall (λ a, ¬ variable_identity a) (UpdatePromptVariable.set_clause input).
Proof.
  unfold UpdatePromptVariable.set_clause.
  destruct input as [i t [n|] [l|] [d|] [it|] [dv|] [oj|] [oi|]]; simpl;
    repeat constructor; simpl; tauto.
Qed.

(** C9. The set clause of updatePromptVariable never assigns [id],
    [templateId] or [createdAt]; after a successful call the updated row is
    in the table and returned with these three fields as they were, under
    the template the call named, and every row of the table has kept
    them. *)
Theorem updatePromptVariable_keeps_identity
    (raw : RawInput) (input : UpdatePromptVariable.Input)
    (context : ActionAPIContext) (db db' : Db)
    (reply : Envelope (option PromptVariables.row))
    (Hkeys : keys_unique db)
    (Hparse : UpdatePromptVariable.input raw = Some input)
    (Hrun : server.updatePromptVariable raw context db = (Ok reply, db')) :
  Forall (λ a, ¬ variable_identity a) (UpdatePromptVariable.set_clause input) ∧
  (∃ old new : PromptVariables.row,
     old ∈ variables db ∧
     PromptVariables.id old = UpdatePromptVariable.id input ∧
     PromptVariables.templateId old = UpdatePromptVariable.templateId input ∧
     reply = {| success := true; data := Some (Some new) |} ∧
     new ∈ variables db' ∧
     PromptVariables.id new = PromptVariables.id old ∧
     PromptVariables.templateId new = PromptVariables.templateId old ∧
     PromptVariables.createdAt new = PromptVariables.createdAt old) ∧
  Forall2 (λ r r', PromptVariables.id r' = PromptVariables.id r ∧
                   PromptVariables.templateId r' = PromptVariables.templateId r ∧
                   PromptVariables.createdAt r' = PromptVariables.createdAt r)
          (variables db) (variables db').
Proof.
  destruct Hkeys as (_ & _ & Hv).
  pose proof (updatePromptVariable_set_clause_columns input) as Hcols.
  split; [done|].
  unfold server.updatePromptVariable, defineAction in Hrun.
  rewrite Hparse in Hrun.
  unfold UpdatePromptVariable.handler, bind, lift in Hrun.
  destruct (requireUser context) as [user|]; [|done].
  rewrite getOwnedTemplate_run in Hrun.
  destruct (head _) as [tpl|]; [|done].
  destruct (bool_decide _); [done|].
  unfold select_where in Hrun. cbv zeta in Hrun.
  rewrite filter_and_pair in Hrun.
  destruct (existsb _ _); [done|].
  destruct (head _) as [old|] eqn:Hold; [|done].
  apply head_Some_elem_of, list_elem_of_filter in Hold as [Htpl Hold].
  apply list_elem_of_filter in Hold as [Hid Hold].
  apply eq_spec in Hid, Htpl. simpl in Hold.
  rewrite update_returning_written in Hrun.
  2:{ intros r. simpl. f_equal. by apply set_variables_keeps. }
  destruct (existsb _ _); [done|].
  unfold ret in Hrun. simpl in Hrun. rewrite <- Hid in Hrun.
  rewrite (filter_key_unique PromptVariables.id) in Hrun by done.
  simpl in Hrun. injection Hrun as <- <-. simpl.
  set (f := SetVariables.set (UpdatePromptVariable.set_clause input)).
  split.
  - exists old, (f old). repeat split; try done.
    + apply list_elem_of_fmap. exists old. split; [|done].
      unfold eq_. by rewrite bool_decide_eq_true_2.
    + by apply set_variables_keeps.
    + by apply set_variables_keeps.
    + by apply set_variables_keeps.
  - apply Forall2_fmap_r, Forall_Forall2_diag, Forall_forall.
    intros r _. simpl. match goal with |- context [if ?b then _ else _] => destruct b end; [|done].
    by apply set_variables_keeps.
Qed.

(** ** The collection of a template *)

Ltac not_issued :=
  let H := fresh in
  intros H;
  repeat (apply elem_of_cons in H as [H|H]; [discriminate|]);
  by apply elem_of_nil in H.

Lemma set_templates_keeps (l : list SetTemplates.assign)
    (r : PromptTemplates.row) :
  Forall (λ a, ¬ detaches a) l →
  PromptTemplates.id (SetTemplates.set l r) = PromptTemplates.id r ∧
  (PromptTemplates.collectionId r ≠ None →
   PromptTemplates.collectionId (SetTemplates.set l r) ≠ None).
Proof.
  unfold SetTemplates.set. revert r.
  induction l as [|a l IH]; simpl; intros r H; [done|].
  apply Forall_cons in H as [Ha H].
  destruct (IH (SetTemplates.apply r a) H) as (-> & Hc).
  split.
  - destruct r, a; simpl in *; tauto.
  - intros Hr. apply Hc. destruct r, a as [| [] | | | | | | | | | |];
      simpl in *; tauto || done.
Qed.

Lemma updateTemplate_set_clause_columns (rt : Runtime)
    (input : UpdateTemplate.Input) :
  Forall (λ a, ¬ detaches a) (UpdateTemplate.set_clause rt input).
Proof.
  unfold UpdateTemplate.set_clause.
  destruct input as [i [c|] [n|] [d|] [m|] [p|] [t|] [f|]]; simpl;
    repeat constructor; simpl; tauto.
Qed.

Lemma updateTemplate_input_collectionId (raw : RawInput)
    (input : UpdateTemplate.Input) :
  UpdateTemplate.input raw = Some input →
  ∃ o, raw = RawObject o ∧
       field o "collectionId" =
       match UpdateTemplate.collectionId input with
       | Some s => JStr s
       | None => JUndefined
       end.
Proof.
  unfold UpdateTemplate.input, z.refine, z.object.
  destruct raw as [v|o]; simpl; [done|]. intros H. exists o. split; [done|].
  destruct (z.string_min1 _); simpl in H; [|done].
  destruct (field o "collectionId"); simpl in H; try done.
  all: repeat match type of H with
       | context [z.optional ?s ?v] =>
           destruct (z.optional s v); simpl in H; [|done]
       end.
  all: try (by simplify_eq).
  all: by destruct (_ || _); simplify_eq.
Qed.

Lemma update_templates_frame (f : PromptTemplates.row → PromptTemplates.row)
    (c : Cond PromptTemplates.row) (db : Db) :
  let db' := (update_returning Templates f c db).2 in
  collections db' = collections db ∧ variables db' = variables db ∧
  log db' = log db ++ [UPDATE TTemplates] ∧
  (templates db' = templates db ∨
   templates db' = (λ r, if c r then f r else r) <$> templates db).
Proof.
  rewrite update_returning_decoded by done.
  cbv zeta. destruct (_ && _); simpl; auto.
Qed.

(** C10. An accepted updateTemplate input has [collectionId] absent or a
    string: [null] is rejected.  When it is there, the call reaches its
    update statement only after the collection was resolved as one of the
    caller's.  The set clause never assigns [id] nor sets [collectionId]
    to null, so whatever the outcome every template keeps its id and a
    template that is in a collection stays in one. *)
Theorem updateTemplate_collectionId_checked
    (rt : Runtime) (raw : RawInput) (input : UpdateTemplate.Input)
    (context : ActionAPIContext) (db db' : Db)
    (r : Result (Envelope (option PromptTemplates.row)))
    (Hparse : UpdateTemplate.input raw = Some input)
    (Hrun : server.updateTemplate rt raw context db = (r, db')) :
  (∃ o, raw = RawObject o ∧
        field o "collectionId" =
        match UpdateTemplate.collectionId input with
        | Some s => JStr s
        | None => JUndefined
        end) ∧
  (∀ o, field o "collectionId" = JNull →
        UpdateTemplate.input (RawObject o) = None) ∧
  (∀ c, UpdateTemplate.collectionId input = Some c →
     (same_rows db db' ∧ (∃ e, r = Throw e) ∧
      ∃ l, log db' = log db ++ l ∧ UPDATE TTemplates ∉ l) ∨
     (∃ user col,
        requireUser context = Ok user ∧ col ∈ collections db ∧
        PromptCollections.id col = c ∧
        PromptCollections.userId col = App.id user ∧
        log db' = log db ++ [SELECT TTemplates; SELECT TCollections;
                             UPDATE TTemplates])) ∧
  Forall (λ a, ¬ detaches a) (UpdateTemplate.set_clause rt input) ∧
  Forall2 (λ t t', PromptTemplates.id t' = PromptTemplates.id t ∧
                   (PromptTemplates.collectionId t ≠ None →
                    PromptTemplates.collectionId t' ≠ None))
          (templates db) (templates db').
Proof.
  pose proof (updateTemplate_set_clause_columns rt input) as Hcols.
  split; [by apply updateTemplate_input_collectionId|].
  split.
  { intros o Ho. unfold UpdateTemplate.input, z.refine, z.object. simpl.
    rewrite Ho. by destruct (z.string_min1 _). }
  assert (Hsame : Forall2
            (λ t t', PromptTemplates.id t' = PromptTemplates.id t ∧
                     (PromptTemplates.collectionId t ≠ None →
                      PromptTemplates.collectionId t' ≠ None))
            (templates db) (templates db)).
  { by apply Forall_Forall2_diag, Forall_forall. }
  assert (Hupd : ∀ c d, templates d = templates db →
            Forall2
              (λ t t', PromptTemplates.id t' = PromptTemplates.id t ∧
                       (PromptTemplates.collectionId t ≠ None →
                        PromptTemplates.collectionId t' ≠ None))
              (templates db)
              (templates (update_returning Templates
                            (SetTemplates.set
                               (UpdateTemplate.set_clause rt input)) c d).2)).
  { intros c d Hd.
    destruct (update_templates_frame
                (SetTemplates.set (UpdateTemplate.set_clause rt input)) c d)
      as (_ & _ & _ & [-> | ->]); rewrite Hd; [done|].
    apply Forall2_fmap_r, Forall_Forall2_diag, Forall_forall.
    intros t _. simpl. destruct (c t); [|done]. by apply set_templates_keeps. }
  assert (Hfail : ∀ e l, r = Throw e → UPDATE TTemplates ∉ l →
            same_rows db db' → log db' = log db ++ l →
            ∀ c, UpdateTemplate.collectionId input = Some c →
     (same_rows db db' ∧ (∃ e, r = Throw e) ∧
      ∃ l, log db' = log db ++ l ∧ UPDATE TTemplates ∉ l) ∨
     (∃ user col,
        requireUser context = Ok user ∧ col ∈ collections db ∧
        PromptCollections.id col = c ∧
        PromptCollections.userId col = App.id user ∧
        log db' = log db ++ [SELECT TTemplates; SELECT TCollections;
                             UPDATE TTemplates])).
  { intros e l -> Hl Hrows Hlog c _. left. eauto 10. }
  unfold server.updateTemplate, defineAction in Hrun.
  rewrite Hparse in Hrun.
  unfold UpdateTemplate.handler, bind, lift, ret in Hrun.
  destruct (requireUser context) as [user|e] eqn:Huser.
  2:{ injection Hrun as <- <-. repeat split; try done.
      intros c _. left. repeat split; eauto.
      exists []. rewrite app_nil_r. split; [done|]. apply not_elem_of_nil. }
  rewrite getOwnedTemplate_run in Hrun.
  destruct (head _) as [tpl|].
  2:{ injection Hrun as <- <-. repeat split; try done.
      eapply (Hfail _ [SELECT TTemplates]); try done. not_issued. }
  destruct (bool_decide _).
  { injection Hrun as <- <-. repeat split; try done.
    eapply (Hfail _ [SELECT TTemplates]); try done. not_issued. }
  destruct (UpdateTemplate.collectionId input) as [c|] eqn:Ec.
  - rewrite getOwnedCollection_run in Hrun.
    destruct (head _) as [col|] eqn:Hcol.
    2:{ injection Hrun as <- <-. repeat split; try done.
        eapply (Hfail _ [SELECT TTemplates; SELECT TCollections]);
          try done; [not_issued|]. simpl. by rewrite <- app_assoc. }
    apply head_Some_elem_of, list_elem_of_filter in Hcol as [Hown Hcol].
    apply list_elem_of_filter in Hcol as [Hid Hcol].
    apply eq_spec in Hid, Hown.
    match type of Hrun with
    | context [update_returning Templates ?f ?c ?d] =>
        pose proof (update_templates_frame f c d) as (_ & _ & Hlog & _);
        pose proof (Hupd c d eq_refl) as Hrows;
        destruct (update_returning Templates f c d) as [[a|e] d']
    end; injection Hrun as <- <-; simpl in *.
    all: repeat split; try done.
    all: intros c' [= <-]; right; exists user, col; repeat split; try done.
    all: by rewrite Hlog, <- !app_assoc.
  - match type of Hrun with
    | context [update_returning Templates ?f ?c ?d] =>
        pose proof (Hupd c d eq_refl) as Hrows;
        destruct (update_returning Templates f c d) as [[a|e] d']
    end; injection Hrun as <- <-; simpl in *.
    all: by repeat split.
Qed.

(** ** Deleting a variable *)

Lemma filter_none_keeps_all {R} (c : Cond R) (l : list R) :
  filter c l = [] → filter (λ r, negb (c r)) l = l.
Proof.
  induction l as [|x l IH]; [done|]. rewrite !filter_cons.
  destruct (decide (c x)) as [Hx|Hx]; [done|]. intros H.
  rewrite decide_True by by apply negb_True. by rewrite IH.
Qed.

Lemma filter_no_match {R} (c : Cond R) (l : list R) :
  (∀ r, r ∈ l → ¬ c r) → filter c l = [].
Proof.
  intros H. destruct (filter c l) as [|x l'] eqn:E; [done|].
  assert (x ∈ filter c l) as Hx by (rewrite E; left).
  apply list_elem_of_filter in Hx as [? ?]. by destruct (H x).
Qed.

(** C4. deletePromptVariable resolves the named template for the caller
    first, and a failure there is the outcome, with no delete issued.
    Otherwise it deletes the rows that have both the given id and the
    given templateId, and only them, and fails with NOT_FOUND when there
    is none.  A variable with the given id under another template than the
    one named is never deleted and the table is as it was; the call
    fails: with NOT_FOUND 'Template not found.' when no template has the
    named id, with FORBIDDEN when the named template is another user's,
    and with NOT_FOUND 'Prompt variable not found.' when it is the
    caller's. *)
Theorem deletePromptVariable_scoped
    (raw : RawInput) (input : DeletePromptVariable.Input)
    (context : ActionAPIContext) (user : App.User) (db : Db)
    (Hkeys : keys_unique db)
    (Hparse : DeletePromptVariable.input raw = Some input)
    (Huser : requireUser context = Ok user) :
  let run := server.deletePromptVariable raw context db in
  let owned :=
    (getOwnedTemplate (DeletePromptVariable.templateId input)
       (App.id user) db).1 in
  let named (v : PromptVariables.row) :=
    PromptVariables.id v = DeletePromptVariable.id input ∧
    PromptVariables.templateId v = DeletePromptVariable.templateId input in
  (∀ e, owned = Throw e → run = (Throw e, issue (SELECT TTemplates) db)) ∧
  (∀ tpl, owned = Ok tpl →
     collections run.2 = collections db ∧
     templates run.2 = templates db ∧
     variables run.2 = filter (λ v, ¬ named v) (variables db) ∧
     log run.2 = log db ++ [SELECT TTemplates; DELETE TVariables] ∧
     ((∃ v, v ∈ variables db ∧ named v) →
      run.1 = Ok {| success := true; data := None |}) ∧
     ((∀ v, v ∈ variables db → ¬ named v) →
      run.1 = Throw (ActionError NOT_FOUND "Prompt variable not found."))) ∧
  (∀ v, v ∈ variables db →
     PromptVariables.id v = DeletePromptVariable.id input →
     PromptVariables.templateId v ≠ DeletePromptVariable.templateId input →
     v ∈ variables run.2 ∧ variables run.2 = variables db ∧
     (∃ e, run.1 = Throw e) ∧
     (DeletePromptVariable.templateId input
        ∉ PromptTemplates.id <$> templates db →
      run.1 = Throw (ActionError NOT_FOUND "Template not found.")) ∧
     (∀ tpl, tpl ∈ templates db →
        PromptTemplates.id tpl = DeletePromptVariable.templateId input →
        (PromptTemplates.userId tpl ≠ App.id user →
         run.1 = Throw (ActionError FORBIDDEN
                          "You do not have access to this template.")) ∧
        (PromptTemplates.userId tpl = App.id user →
         run.1 = Throw (ActionError NOT_FOUND
                          "Prompt variable not found."))) ∧
     (∀ tpl, owned = Ok tpl →
        run.1 = Throw (ActionError NOT_FOUND "Prompt variable not found."))).
Proof.
  intros run owned named. destruct Hkeys as (_ & Ht & Hv).
  set (c := and_ [eq_ PromptVariables.id (DeletePromptVariable.id input);
                  eq_ PromptVariables.templateId
                    (DeletePromptVariable.templateId input)]).
  assert (Hc : ∀ v, c v ↔ named v).
  { intros v. unfold c, named. by rewrite and_pair, !eq_spec. }
  assert (Hrun : run =
    match owned with
    | Throw e => (Throw e, issue (SELECT TTemplates) db)
    | Ok _ =>
        (if bool_decide (length (filter c (variables db)) = 0%nat)
         then Throw (ActionError NOT_FOUND "Prompt variable not found.")
         else Ok {| success := true; data := None |},
         set_rows Variables (filter (λ r, negb (c r)) (variables db))
           (issue (DELETE TVariables) (issue (SELECT TTemplates) db)))
    end).
  { unfold run, owned, server.deletePromptVariable, defineAction.
    rewrite Hparse.
    unfold DeletePromptVariable.handler, bind, lift, ret, throw.
    rewrite Huser, getOwnedTemplate_run. simpl.
    destruct (head _); [|done]. destruct (bool_decide (_ ≠ _)); [done|].
    unfold delete_where. simpl. fold c. by destruct (bool_decide _). }
  assert (Hthrow : ∀ e, owned = Throw e →
            run = (Throw e, issue (SELECT TTemplates) db)).
  { intros e He. by rewrite Hrun, He. }
  split; [done|]. split.
  - intros tpl Htpl. rewrite Hrun, Htpl. simpl.
    repeat split.
    + apply list_filter_iff. intros v. by rewrite negb_True, Hc.
    + by rewrite <- app_assoc.
    + intros (v & Hin & Hnamed). rewrite bool_decide_eq_false_2; [done|].
      intros Hlen%nil_length_inv.
      assert (v ∈ filter c (variables db)) as Hf.
      { apply list_elem_of_filter. by rewrite Hc. }
      rewrite Hlen in Hf. by apply elem_of_nil in Hf.
    + intros Hnone. rewrite bool_decide_eq_true_2; [done|].
      rewrite filter_no_match; [done|]. intros v Hin. rewrite Hc. auto.
  - intros v Hin Hid Htpl.
    assert (Hnone : filter c (variables db) = []).
    { unfold c. rewrite filter_and_pair, <- Hid.
      rewrite (filter_key_unique PromptVariables.id) by done.
      rewrite filter_cons_False; [done|]. by rewrite eq_spec. }
    assert (Hrows : variables run.2 = variables db).
    { rewrite Hrun. destruct owned; simpl; [|done].
      by rewrite filter_none_keeps_all. }
    assert (Hout : run.1 =
      match owned with
      | Throw e => Throw e
      | Ok _ => Throw (ActionError NOT_FOUND "Prompt variable not found.")
      end).
    { rewrite Hrun. destruct owned; simpl; [|done]. by rewrite Hnone. }
    split; [by rewrite Hrows|]. split; [done|].
    split; [rewrite Hout; destruct owned; eauto|].
    rewrite Hout. unfold owned. rewrite getOwnedTemplate_run. simpl.
    split; [|split].
    + intros Habs. by rewrite filter_key_absent.
    + intros tpl Hin0 <-. rewrite filter_key_unique by done. simpl.
      split; intros Hown.
      * by rewrite bool_decide_eq_true_2.
      * rewrite bool_decide_eq_false_2; [done|]. by intros ?.
    + intros tpl Hres. by rewrite Hres.
Qed.

(** ** The collection of a new template *)

(** A createTemplate call that names a collection by a non-empty id which
    does not resolve for the caller fails with NOT_FOUND after the one
    select, with no insert. *)
Lemma createTemplate_unresolved_collection
    (rt : Runtime) (raw : RawInput) (input : CreateTemplate.Input)
    (context : ActionAPIContext) (user : App.User) (db : Db) (c : string) :
  CreateTemplate.input raw = Some input →
  requireUser context = Ok user →
  CreateTemplate.collectionId input = Some c → c ≠ EmptyString →
  (∀ r, r ∈ collections db → PromptCollections.id r = c →
        PromptCollections.userId r ≠ App.id user) →
  server.createTemplate rt raw context db =
  (Throw (ActionError NOT_FOUND "Collection not found."),
   issue (SELECT TCollections) db).
Proof.
  intros Hparse Huser Hc Hne Hnone.
  unfold server.createTemplate, defineAction. rewrite Hparse.
  unfold CreateTemplate.handler, CreateTemplate.truthy, bind, lift.
  rewrite Huser, Hc. simpl. rewrite bool_decide_eq_true_2 by done.
  rewrite getOwnedCollection_run.
  destruct (head _) as [col|] eqn:Hcol; [|done].
  apply head_Some_elem_of, list_elem_of_filter in Hcol as [Hown Hcol].
  apply list_elem_of_filter in Hcol as [Hid Hcol].
  apply eq_spec in Hid, Hown. by destruct (Hnone col).
Qed.

(** C3. createTemplate called with the empty string as [collectionId], on
    a store where no collection has that id: the guard is falsy, no
    collection is looked up, and the insert is the only statement issued.
    Where references are not enforced the row is stored with a collection
    id that no collection has; where they are, the store refuses it.
    NOT_FOUND is not raised. *)
Theorem createTemplate_empty_collectionId (fk : bool) :
  let run :=
    server.createTemplate sample_rt
      (object_of [("name", JStr "Explain");
                  ("promptBody", JStr "Explain {{topic}}");
                  ("collectionId", JStr EmptyString)])
      (signed_in "alice") (sample_db fk) in
  (EmptyString ∉ PromptCollections.id <$> collections (sample_db fk)) ∧
  log run.2 = [INSERT TTemplates] ∧
  if fk
  then run.1 = Throw CONSTRAINT ∧ templates run.2 = templates (sample_db fk)
  else ∃ t, run.1 = Ok {| success := true; data := Some (Some t) |} ∧
            PromptTemplates.collectionId t = Some EmptyString ∧
            templates run.2 = templates (sample_db fk) ++ [t].
Proof.
  assert (Habsent : ∀ fk, EmptyString ∉
            PromptCollections.id <$> collections (sample_db fk)).
  { intros b H. simpl in H.
    repeat (apply elem_of_cons in H as [H|H]; [discriminate|]).
    by apply elem_of_nil in H. }
  split; [apply Habsent|].
  destruct fk; vm_compute; (split; [reflexivity|]).
  - split; reflexivity.
  - eexists. repeat split.
Qed.

(** ** What the actions write *)

Lemma same_rows_refl (db : Db) : same_rows db db.
Proof. by repeat split. Qed.

Lemma same_rows_issue (s : Stmt) (db d : Db) :
  same_rows db d → same_rows db (issue s d).
Proof. by intros (? & ? & ?). Qed.

Create HintDb rows.
#[local] Hint Resolve same_rows_refl same_rows_issue : rows.

Lemma written_insert_collection (r : PromptCollections.row) (db d : Db) :
  same_rows db d → written db (insert_returning Collections r d).2.
Proof.
  intros (Hc & Ht & Hv). unfold insert_returning. simpl.
  case_bool_decide as Hk; simpl.
  - by apply written_nothing.
  - rewrite andb_false_r. simpl. rewrite Hc in Hk.
    apply (inserted_collection _ _ r); simpl; congruence.
Qed.

Lemma written_insert_template (r : PromptTemplates.row) (db d : Db) :
  same_rows db d → written db (insert_returning Templates r d).2.
Proof.
  intros (Hc & Ht & Hv). unfold insert_returning. simpl.
  case_bool_decide as Hk; simpl.
  - by apply written_nothing.
  - rewrite Ht in Hk. destruct (_ && _); simpl.
    + by apply written_nothing.
    + apply (inserted_template _ _ r); simpl; congruence.
Qed.

Lemma written_insert_variable (r : PromptVariables.row) (db d : Db) :
  same_rows db d → written db (insert_returning Variables r d).2.
Proof.
  intros (Hc & Ht & Hv). unfold insert_returning. cbv zeta.
  case_bool_decide as Hk; [by apply written_nothing|].
  simpl in Hk. rewrite Hv in Hk.
  destruct (_ && _); [by apply written_nothing|].
  destruct (unsafe _ _); apply (inserted_variable _ _ r); simpl; congruence.
Qed.

Lemma written_update_collections (l : list SetCollections.assign)
    (c : Cond PromptCollections.row) (db d : Db) :
  Forall (λ a, ¬ collection_identity a) l →
  same_rows db d →
  written db (update_returning Collections (SetCollections.set l) c d).2.
Proof.
  intros Hl (Hc & Ht & Hv). rewrite update_returning_decoded by done.
  cbv zeta. destruct (_ && _); simpl; [by apply written_nothing|].
  apply (updated_collections _ _
           (λ r, if c r then SetCollections.set l r else r));
    simpl; try congruence.
  intros r. destruct (c r); [|done].
  by destruct (set_collections_keeps l r Hl) as (? & ? & _).
Qed.

Lemma written_update_templates (l : list SetTemplates.assign)
    (c : Cond PromptTemplates.row) (db d : Db) :
  Forall (λ a, ¬ detaches a) l →
  same_rows db d →
  written db (update_returning Templates (SetTemplates.set l) c d).2.
Proof.
  intros Hl (Hc & Ht & Hv). rewrite update_returning_decoded by done.
  cbv zeta. destruct (_ && _); simpl; [by apply written_nothing|].
  apply (updated_templates _ _
           (λ r, if c r then SetTemplates.set l r else r));
    simpl; try congruence.
  intros r. destruct (c r); [|done].
  by destruct (set_templates_keeps l r Hl) as (? & _).
Qed.

Lemma written_update_variables (l : list SetVariables.assign)
    (c : Cond PromptVariables.row) (db d : Db) :
  Forall (λ a, ¬ variable_identity a) l →
  same_rows db d →
  written db (update_returning Variables (SetVariables.set l) c d).2.
Proof.
  intros Hl (Hc & Ht & Hv). unfold update_returning. cbv zeta.
  destruct (_ && _); [by apply written_nothing|].
  assert (W : written db
    (set_rows Variables
       ((λ r, if c r then SetVariables.set l r else r) <$> rows Variables d)
       (issue (UPDATE (tname Variables)) d))).
  { apply (updated_variables _ _
             (λ r, if c r then SetVariables.set l r else r));
      simpl; try congruence.
    intros r. destruct (c r); [|done].
    by destruct (set_variables_keeps l r Hl) as (? & _). }
  by destruct (existsb _ _).
Qed.

Lemma written_delete_variables (c : Cond PromptVariables.row) (db d : Db) :
  same_rows db d → written db (delete_where Variables c d).2.
Proof.
  intros (Hc & Ht & Hv). unfold delete_where. simpl.
  apply (deleted_variables _ _ c); simpl; congruence.
Qed.

#[local] Hint Resolve written_insert_collection written_insert_template
  written_insert_variable written_delete_variables : rows.
#[local] Hint Extern 1 (written _ _) => apply written_nothing : rows.
#[local] Hint Extern 2 (written _ (update_returning Collections _ _ _).2) =>
  apply written_update_collections;
  [apply updateCollection_set_clause_columns|] : rows.
#[local] Hint Extern 2 (written _ (update_returning Templates _ _ _).2) =>
  apply written_update_templates;
  [apply updateTemplate_set_clause_columns|] : rows.
#[local] Hint Extern 2 (written _ (update_returning Variables _ _ _).2) =>
  apply written_update_variables;
  [apply updatePromptVariable_set_clause_columns|] : rows.

(** Runs a handler up to its write, case by case. *)
Ltac run_handler :=
  unfold defineAction, bind, lift, ret, throw, select_where;
  repeat (simpl;
    match goal with
    | |- context [match ?p ?raw with Some _ => _ | None => _ end] =>
        is_var raw; destruct (p raw)
    | |- context [requireUser ?c] => destruct (requireUser c)
    | |- context [getOwnedTemplate ?a ?b ?d] =>
        rewrite (getOwnedTemplate_run a b d)
    | |- context [getOwnedCollection ?a ?b ?d] =>
        rewrite (getOwnedCollection_run a b d)
    | |- context [match head ?l with Some _ => _ | None => _ end] =>
        destruct (head l)
    | |- context [match ?o with Some _ => _ | None => _ end] =>
        is_var o; destruct o
    | |- context [if bool_decide ?P then _ else _] =>
        destruct (bool_decide P)
    | |- context [if CreateTemplate.truthy ?s then _ else _] =>
        destruct (CreateTemplate.truthy s)
    | |- context [if existsb ?p ?l then _ else _] => destruct (existsb p l)
    | |- context [let (_, _) := ?m in _] => destruct m as [[?|?] ?] eqn:?
    | |- context [match ?m with (_, _) => _ end] =>
        destruct m as [[?|?] ?] eqn:?
    end).

(** Every call writes at most once, in one of the shapes of [written]. *)
Lemma perform_written (call : Call) (db : Db) : written db (perform call db).
Proof.
  destruct call; unfold perform, server.createCollection,
    server.updateCollection, server.listCollections, server.createTemplate,
    server.updateTemplate, server.listTemplates, server.createPromptVariable,
    server.updatePromptVariable, server.deletePromptVariable,
    server.listPromptVariables, CreateCollection.handler,
    UpdateCollection.handler, ListCollections.handler,
    CreateTemplate.handler, UpdateTemplate.handler, ListTemplates.handler,
    CreatePromptVariable.handler, UpdatePromptVariable.handler,
    DeletePromptVariable.handler, ListPromptVariables.handler.
  all: run_handler.
  all: simpl; try (by eauto 6 with rows).
  all: try (eapply deleted_variables; simpl; reflexivity).
  all: match goal with
       | E : ?m = (_, ?d) |- written _ ?d =>
           replace d with (m.2) by (by rewrite E); clear E
       end.
  all: try (by eauto 6 with rows).
Qed.

(** ** Invariants of the store *)

Lemma keys_unique_empty (fk : bool) : keys_unique (empty_db fk).
Proof. repeat split; apply NoDup_nil_2. Qed.

Lemma NoDup_keys_snoc {R} (key : R → string) (l : list R) (r : R) :
  NoDup (key <$> l) → key r ∉ key <$> l → NoDup (key <$> l ++ [r]).
Proof.
  intros Hl Hr. rewrite fmap_app. apply NoDup_app. repeat split; [done| |].
  - intros k Hk [->|[]%elem_of_nil]%elem_of_cons. done.
  - apply NoDup_singleton.
Qed.

Lemma keys_fmap_kept {R} (key : R → string) (g : R → R) (l : list R) :
  (∀ r, key (g r) = key r) → key <$> (g <$> l) = key <$> l.
Proof.
  intros Hg. rewrite <- list_fmap_compose. apply list_fmap_ext.
  intros _ r _. apply Hg.
Qed.

(** The primary keys stay unique through every write. *)
Lemma keys_unique_written (db db' : Db) :
  written db db' → keys_unique db → keys_unique db'.
Proof.
  intros W (Hc & Ht & Hv). unfold keys_unique.
  destruct W as [(-> & -> & ->)
                | r Hr -> -> -> | r Hr -> -> -> | r Hr -> -> ->
                | g Hg -> -> -> | g Hg -> -> -> | g Hg -> -> ->
                | c -> -> ->];
    repeat split; try done.
  - by apply NoDup_keys_snoc.
  - by apply NoDup_keys_snoc.
  - by apply NoDup_keys_snoc.
  - rewrite keys_fmap_kept; [done|]. intros r. apply Hg.
  - by rewrite keys_fmap_kept.
  - by rewrite keys_fmap_kept.
  - eapply sublist_NoDup; [exact Hv|]. apply fmap_sublist, sublist_filter.
Qed.

Lemma keys_unique_perform (call : Call) (db : Db) :
  keys_unique db → keys_unique (perform call db).
Proof. apply keys_unique_written, perform_written. Qed.

(** Every store the actions can build from an empty one has unique keys. *)
Lemma keys_unique_perform_all (calls : list Call) (db : Db) :
  keys_unique db → keys_unique (perform_all calls db).
Proof.
  unfold perform_all. revert db.
  induction calls as [|call calls IH]; simpl; intros db H; [done|].
  by apply IH, keys_unique_perform.
Qed.

(** No write removes a collection or changes its id or owner. *)
Lemma collection_kept_written (db db' : Db) (c : PromptCollections.row) :
  written db db' → c ∈ collections db →
  ∃ c', c' ∈ collections db' ∧
        PromptCollections.id c' = PromptCollections.id c ∧
        PromptCollections.userId c' = PromptCollections.userId c.
Proof.
  intros W Hin.
  destruct W as [(-> & _ & _)
                | r _ -> _ _ | r _ _ -> _ | r _ _ -> _
                | g Hg -> _ _ | g _ _ -> _ | g _ _ -> _
                | k _ -> _]; try (by exists c).
  - exists c. split; [|done]. apply elem_of_app. by left.
  - exists (g c). split; [by apply list_elem_of_fmap_2|]. apply Hg.
Qed.

Lemma collection_kept_perform_all (calls : list Call) (db : Db)
    (c : PromptCollections.row) :
  c ∈ collections db →
  ∃ c', c' ∈ collections (perform_all calls db) ∧
        PromptCollections.id c' = PromptCollections.id c ∧
        PromptCollections.userId c' = PromptCollections.userId c.
Proof.
  unfold perform_all. revert db c.
  induction calls as [|call calls IH]; simpl; intros db c Hin.
  - by exists c.
  - destruct (collection_kept_written _ _ c (perform_written call db) Hin)
      as (c1 & Hin1 & Hid1 & Hown1).
    destruct (IH _ c1 Hin1) as (c2 & Hin2 & Hid2 & Hown2).
    exists c2. repeat split; [done|congruence|congruence].
Qed.

(** C8. A collection a user has created is listed for that user: the
    items of a listCollections call by the user made right after hold the
    created row, and made after any further calls of any actions by
    anyone they hold the row with its id.  The items of a listCollections
    call are the collections of the store owned by the caller, none of
    another user; [total] is the number of items. *)
Theorem created_collection_listed
    (rt : Runtime) (raw raw' : RawInput) (input' : option unit)
    (context context' : ActionAPIContext) (user : App.User)
    (db db' : Db) (reply : Envelope (option PromptCollections.row))
    (calls : list Call)
    (Hcreate : server.createCollection rt raw context db = (Ok reply, db'))
    (Huser : requireUser context = Ok user)
    (Hparse' : ListCollections.input raw' = Some input')
    (Huser' : requireUser context' = Ok user) :
  let later := perform_all calls db' in
  ∃ (c : PromptCollections.row) (page : Page PromptCollections.row),
    reply = {| success := true; data := Some (Some c) |} ∧
    PromptCollections.userId c = App.id user ∧
    server.listCollections raw' context' later =
      (Ok {| success := true; data := Some page |},
       issue (SELECT TCollections) later) ∧
    (∃ c', c' ∈ items page ∧
           PromptCollections.id c' = PromptCollections.id c) ∧
    (calls = [] → c ∈ items page) ∧
    (∀ r, r ∈ items page ↔
          r ∈ collections later ∧ PromptCollections.userId r = App.id user) ∧
    (∀ r, r ∈ collections later → PromptCollections.userId r ≠ App.id user →
          r ∉ items page) ∧
    total page = length (items page).
Proof.
  intros later.
  apply createCollection_run in Hcreate
    as (user0 & c & Hu & -> & _ & Hown & Hrows & _).
  rewrite Huser in Hu. injection Hu as <-.
  rewrite (listCollections_run _ _ _ _ _ Hparse' Huser').
  assert (Hitems : ∀ r,
    r ∈ filter (eq_ PromptCollections.userId (App.id user)) (collections later)
    ↔ r ∈ collections later ∧ PromptCollections.userId r = App.id user).
  { intros r. rewrite list_elem_of_filter, eq_spec. tauto. }
  assert (Hin : c ∈ collections db').
  { rewrite Hrows. apply elem_of_app. right. by apply list_elem_of_singleton. }
  eexists c, _. split; [done|]. split; [done|]. split; [reflexivity|].
  simpl. split; [|split; [|split; [done|split; [|done]]]].
  - destruct (collection_kept_perform_all calls db' c Hin)
      as (c' & Hin' & Hid' & Hown').
    exists c'. split; [|done]. apply Hitems. split; [done|congruence].
  - intros ->. by apply Hitems.
  - intros r _ Hne Hr%Hitems. by destruct Hr.
Qed.

(** ** The properties on the sample store *)

Ltac decided := refine (bool_decide_unpack _ _); vm_compute; exact I.

Ltac sample_keys := repeat split; decided.

Lemma resolver_asymmetry_witness :
  (getOwnedTemplate "t9" "alice" (sample_db true)).1 =
    Throw (ActionError NOT_FOUND "Template not found.") ∧
  (getOwnedTemplate "t3" "alice" (sample_db true)).1 =
    Throw (ActionError FORBIDDEN "You do not have access to this template.") ∧
  (getOwnedCollection "c9" "alice" (sample_db true)).1 =
    Throw (ActionError NOT_FOUND "Collection not found.") ∧
  (getOwnedCollection "c2" "alice" (sample_db true)).1 =
    Throw (ActionError NOT_FOUND "Collection not found.").
Proof.
  assert (Hk : keys_unique (sample_db true)) by sample_keys.
  destruct (resolver_asymmetry (sample_db true) "t9" "c9" "alice" Hk)
    as (A & _ & C & _).
  destruct (resolver_asymmetry (sample_db true) "t3" "c2" "alice" Hk)
    as (_ & B & _ & D & _).
  split; [|split; [|split]].
  - apply A. decided.
  - apply (B bob_slogan); [by repeat constructor|reflexivity|discriminate].
  - apply C. decided.
  - apply (D bob_marketing); [by repeat constructor|reflexivity|discriminate].
Defined.

Lemma update_without_fields_rejected_witness :
  server.updateCollection sample_rt (object_of [("id", JStr "c1")])
    (signed_in "alice") (sample_db true)
  = (Throw VALIDATION, sample_db true) ∧
  server.updateTemplate sample_rt (object_of [("id", JStr "t1")])
    (signed_in "alice") (sample_db true)
  = (Throw VALIDATION, sample_db true) ∧
  server.updatePromptVariable
    (object_of [("id", JStr "v1"); ("templateId", JStr "t1")])
    (signed_in "alice") (sample_db true)
  = (Throw VALIDATION, sample_db true).
Proof.
  destruct (update_without_fields_rejected sample_rt (signed_in "alice")
              (sample_db true)) as (A & B & C & _).
  split; [|split].
  - apply A. repeat constructor.
  - apply B. repeat constructor.
  - apply C. repeat constructor.
Defined.

Lemma deletePromptVariable_scoped_witness :
  let run templateId :=
    server.deletePromptVariable
      (object_of [("id", JStr "v1"); ("templateId", JStr templateId)])
      (signed_in "alice") (sample_db true) in
  (run "t9").1 = Throw (ActionError NOT_FOUND "Template not found.") ∧
  (run "t3").1 =
    Throw (ActionError FORBIDDEN "You do not have access to this template.") ∧
  (run "t2").1 = Throw (ActionError NOT_FOUND "Prompt variable not found.") ∧
  variables (run "t3").2 = variables (sample_db true) ∧
  variables (run "t2").2 = variables (sample_db true) ∧
  topic_of_explain ∈ variables (run "t2").2.
Proof.
  intros run.
  assert (Hk : keys_unique (sample_db true)) by sample_keys.
  destruct (deletePromptVariable_scoped
              (object_of [("id", JStr "v1"); ("templateId", JStr "t9")])
              {| DeletePromptVariable.id := "v1";
                 DeletePromptVariable.templateId := "t9" |}
              (signed_in "alice") {| App.id := "alice" |} (sample_db true)
              Hk eq_refl eq_refl) as (_ & _ & Pt9).
  destruct (Pt9 topic_of_explain) as (_ & _ & _ & A & _);
    [by repeat constructor | reflexivity | discriminate |].
  destruct (deletePromptVariable_scoped
              (object_of [("id", JStr "v1"); ("templateId", JStr "t3")])
              {| DeletePromptVariable.id := "v1";
                 DeletePromptVariable.templateId := "t3" |}
              (signed_in "alice") {| App.id := "alice" |} (sample_db true)
              Hk eq_refl eq_refl) as (_ & _ & Pt3).
  destruct (Pt3 topic_of_explain) as (_ & Hrows3 & _ & _ & B & _);
    [by repeat constructor | reflexivity | discriminate |].
  destruct (deletePromptVariable_scoped
              (object_of [("id", JStr "v1"); ("templateId", JStr "t2")])
              {| DeletePromptVariable.id := "v1";
                 DeletePromptVariable.templateId := "t2" |}
              (signed_in "alice") {| App.id := "alice" |} (sample_db true)
              Hk eq_refl eq_refl) as (_ & _ & Pt2).
  destruct (Pt2 topic_of_explain) as (Hin & Hrows2 & _ & _ & C & _);
    [by repeat constructor | reflexivity | discriminate |].
  split; [apply A; decided|].
  split; [apply (B bob_slogan);
            [by repeat constructor | reflexivity | discriminate]|].
  split; [apply (C alice_rewrite);
            [by repeat constructor | reflexivity | reflexivity]|].
  split; [exact Hrows3|]. split; [exact Hrows2 | exact Hin].
Defined.

(** Alice deletes her variable v1, of her template t1, naming the template
    t3 of Bob: the call is refused with FORBIDDEN by the resolver, not with
    NOT_FOUND. *)
Lemma deletePromptVariable_foreign_template_forbidden :
  let run :=
    server.deletePromptVariable
      (object_of [("id", JStr "v1"); ("templateId", JStr "t3")])
      (signed_in "alice") (sample_db true) in
  topic_of_explain ∈ variables (sample_db true) ∧
  PromptVariables.id topic_of_explain = "v1" ∧
  PromptVariables.templateId topic_of_explain = "t1" ∧
  bob_slogan ∈ templates (sample_db true) ∧
  PromptTemplates.id bob_slogan = "t3" ∧
  PromptTemplates.userId bob_slogan = "bob" ∧
  run.1 =
    Throw (ActionError FORBIDDEN "You do not have access to this template.") ∧
  run.1 ≠ Throw (ActionError NOT_FOUND "Prompt variable not found.") ∧
  run.1 ≠ Throw (ActionError NOT_FOUND "Template not found.") ∧
  variables run.2 = variables (sample_db true).
Proof.
  intros run.
  assert (Hrun : run.1 = Throw (ActionError FORBIDDEN
                   "You do not have access to this template."))
    by (vm_compute; reflexivity).
  split; [by repeat constructor|]. split; [reflexivity|].
  split; [reflexivity|]. split; [by repeat constructor|].
  split; [reflexivity|]. split; [reflexivity|]. split; [exact Hrun|].
  rewrite Hrun. split; [discriminate|]. split; [discriminate|].
  vm_compute. reflexivity.
Qed.

Lemma updateCollection_partial_witness :
  let run :=
    server.updateCollection sample_rt
      (object_of [("id", JStr "c1"); ("name", JStr "Code")])
      (signed_in "alice") (sample_db true) in
  ∃ new, run.1 = Ok {| success := true; data := Some (Some new) |} ∧
         new ∈ collections run.2 ∧
         PromptCollections.name new = "Code" ∧
         PromptCollections.icon new = Some "code" ∧
         PromptCollections.isDefault new = true ∧
         PromptCollections.updatedAt new = 100%Z.
Proof.
  intros run.
  assert (Hk : keys_unique (sample_db true)) by sample_keys.
  destruct run as [[reply|e] db'] eqn:Hrun;
    [|vm_compute in Hrun; discriminate].
  destruct (updateCollection_partial sample_rt
              (object_of [("id", JStr "c1"); ("name", JStr "Code")])
              {| UpdateCollection.id := "c1";
                 UpdateCollection.name := Some "Code";
                 UpdateCollection.description := None;
                 UpdateCollection.icon := None;
                 UpdateCollection.isDefault := None |}
              (signed_in "alice") (sample_db true) db' reply
              Hk eq_refl Hrun)
    as (old & new & Hold & Hid & -> & Hnew & Hname & _ & Hicon & Hdef &
        Hupd & _).
  assert (old = alice_coding) as ->.
  { simpl in Hold, Hid.
    apply elem_of_cons in Hold as [->|Hold]; [done|].
    apply elem_of_cons in Hold as [->|Hold]; [discriminate|].
    by apply elem_of_nil in Hold. }
  exists new. repeat split; assumption.
Defined.

Lemma createTemplate_never_system_witness :
  let run :=
    server.createTemplate sample_rt
      (object_of [("name", JStr "Global"); ("promptBody", JStr "Hello");
                  ("isSystem", JBool true)])
      (signed_in "alice") (sample_db true) in
  ∃ t, run.1 = Ok {| success := true; data := Some (Some t) |} ∧
       PromptTemplates.isSystem t = false ∧
       templates run.2 = templates (sample_db true) ++ [t].
Proof.
  intros run.
  destruct run as [[reply|e] db'] eqn:Hrun;
    [|vm_compute in Hrun; discriminate].
  destruct (createTemplate_never_system _ _ _ _ _ _ Hrun)
    as (t & -> & Hsys & Hrows & _).
  exists t. split; [reflexivity|]. split; assumption.
Defined.

Lemma listTemplates_items_witness :
  server.listTemplates (object_of [("favoritesOnly", JBool true)])
    (signed_in "alice") (sample_db true) =
  (Ok {| success := true;
         data := Some {| items := [alice_rewrite]; total := 1 |} |},
   issue (SELECT TTemplates) (sample_db true)) ∧
  ∃ page,
    server.listTemplates (RawValue JUndefined) (signed_in "alice")
      (sample_db true) =
    (Ok {| success := true; data := Some page |},
     issue (SELECT TTemplates) (sample_db true)) ∧
    items page = [alice_explain; alice_rewrite] ∧ total page = 2%nat.
Proof.
  split.
  - destruct (listTemplates_items
                (object_of [("favoritesOnly", JBool true)])
                (Some {| ListTemplates.favoritesOnly := true |})
                (signed_in "alice") {| App.id := "alice" |} (sample_db true)
                eq_refl eq_refl) as ([its n] & -> & Hitems & _ & Htotal).
    simpl in Hitems, Htotal. subst n. rewrite Hitems. reflexivity.
  - destruct (listTemplates_items (RawValue JUndefined) None
                (signed_in "alice") {| App.id := "alice" |} (sample_db true)
                eq_refl eq_refl) as (page & Hrun & Hitems & _ & Htotal).
    exists page. split; [exact Hrun|].
    rewrite Htotal, Hitems. split; reflexivity.
Defined.

Lemma created_collection_listed_witness :
  let db' :=
    (server.createCollection sample_rt (object_of [("name", JStr "Drafts")])
       (signed_in "alice") (sample_db true)).2 in
  let later :=
    perform_all
      [UpdateCollection {| randomUUID := "n2"; now := 110 |}
         (object_of [("id", JStr "n1"); ("name", JStr "Notes")])
         (signed_in "alice");
       CreateTemplate {| randomUUID := "n3"; now := 120 |}
         (object_of [("name", JStr "Pitch"); ("promptBody", JStr "Pitch it");
                     ("collectionId", JStr "c2")])
         (signed_in "bob")]
      db' in
  ∃ page,
    server.listCollections (RawValue JUndefined) (signed_in "alice") later =
    (Ok {| success := true; data := Some page |},
     issue (SELECT TCollections) later) ∧
    (∃ c', c' ∈ items page ∧ PromptCollections.id c' = "n1") ∧
    (∀ r, r ∈ items page → PromptCollections.userId r = "alice") ∧
    total page = length (items page).
Proof.
  intros db' later.
  destruct (server.createCollection sample_rt
              (object_of [("name", JStr "Drafts")])
              (signed_in "alice") (sample_db true))
    as [[reply|e] d] eqn:Hcreate; [|vm_compute in Hcreate; discriminate].
  destruct (created_collection_listed sample_rt
              (object_of [("name", JStr "Drafts")]) (RawValue JUndefined)
              None (signed_in "alice") (signed_in "alice")
              {| App.id := "alice" |} (sample_db true) d reply
              [UpdateCollection {| randomUUID := "n2"; now := 110 |}
                 (object_of [("id", JStr "n1"); ("name", JStr "Notes")])
                 (signed_in "alice");
               CreateTemplate {| randomUUID := "n3"; now := 120 |}
                 (object_of [("name", JStr "Pitch");
                             ("promptBody", JStr "Pitch it");
                             ("collectionId", JStr "c2")])
                 (signed_in "bob")]
              Hcreate eq_refl eq_refl eq_refl)
    as (c & page & Hreply & Hown & Hlist & Hkept & _ & Hitems & _ & Htotal).
  assert (PromptCollections.id c = "n1") as Hid.
  { rewrite Hreply in Hcreate. vm_compute in Hcreate.
    by injection Hcreate as <- _. }
  exists page. split; [exact Hlist|]. split; [|split; [|exact Htotal]].
  - destruct Hkept as (c' & Hin & Hc'). exists c'. split; [done|congruence].
  - intros r Hr. by apply Hitems in Hr as [_ Hr].
Defined.

Lemma updatePromptVariable_keeps_identity_witness :
  let run :=
    server.updatePromptVariable
      (object_of [("id", JStr "v1"); ("templateId", JStr "t1");
                  ("label", JStr "Subject")])
      (signed_in "alice") (sample_db true) in
  ∃ new, run.1 = Ok {| success := true; data := Some (Some new) |} ∧
         new ∈ variables run.2 ∧
         PromptVariables.id new = "v1" ∧
         PromptVariables.templateId new = "t1" ∧
         PromptVariables.createdAt new = 60%Z.
Proof.
  intros run.
  assert (Hk : keys_unique (sample_db true)) by sample_keys.
  destruct run as [[reply|e] db'] eqn:Hrun;
    [|vm_compute in Hrun; discriminate].
  destruct (updatePromptVariable_keeps_identity
              (object_of [("id", JStr "v1"); ("templateId", JStr "t1");
                          ("label", JStr "Subject")])
              {| UpdatePromptVariable.id := "v1";
                 UpdatePromptVariable.templateId := "t1";
                 UpdatePromptVariable.name := None;
                 UpdatePromptVariable.label := Some "Subject";
                 UpdatePromptVariable.description := None;
                 UpdatePromptVariable.inputType := None;
                 UpdatePromptVariable.defaultValue := None;
                 UpdatePromptVariable.optionsJson := None;
                 UpdatePromptVariable.orderIndex := None |}
              (signed_in "alice") (sample_db true) db' reply
              Hk eq_refl Hrun)
    as (_ & (old & new & Hold & Hid & Htpl & -> & Hnew & Kid & Ktpl & Kat) & _).
  assert (old = topic_of_explain) as ->.
  { simpl in Hold, Hid.
    apply elem_of_cons in Hold as [->|Hold]; [done|].
    apply elem_of_cons in Hold as [->|Hold]; [discriminate|].
    by apply elem_of_nil in Hold. }
  exists new. repeat split; assumption.
Defined.

Lemma updateTemplate_collectionId_checked_witness :
  let run :=
    server.updateTemplate sample_rt
      (object_of [("id", JStr "t2"); ("collectionId", JStr "c1")])
      (signed_in "alice") (sample_db true) in
  (∃ col, col ∈ collections (sample_db true) ∧
          PromptCollections.id col = "c1" ∧
          PromptCollections.userId col = "alice") ∧
  log run.2 = [SELECT TTemplates; SELECT TCollections; UPDATE TTemplates] ∧
  UpdateTemplate.input
    (object_of [("id", JStr "t2"); ("collectionId", JNull)]) = None.
Proof.
  intros run.
  destruct run as [r db'] eqn:Hrun.
  destruct (updateTemplate_collectionId_checked sample_rt
              (object_of [("id", JStr "t2"); ("collectionId", JStr "c1")])
              {| UpdateTemplate.id := "t2";
                 UpdateTemplate.collectionId := Some "c1";
                 UpdateTemplate.name := None;
                 UpdateTemplate.description := None;
                 UpdateTemplate.modelHint := None;
                 UpdateTemplate.promptBody := None;
                 UpdateTemplate.tags := None;
                 UpdateTemplate.isFavorite := None |}
              (signed_in "alice") (sample_db true) db' r eq_refl Hrun)
    as (_ & Hnull & Hchecked & _).
  destruct (Hchecked "c1" eq_refl)
    as [(_ & (e & ->) & _) | (user & col & Hu & Hin & Hid & Hown & Hlog)].
  { vm_compute in Hrun. discriminate. }
  injection Hu as <-.
  split; [by exists col|]. split; [exact Hlog|].
  apply Hnull. reflexivity.
Defined.

(** ** Scenarios *)

(** A collection, a template in it and a variable on the template are
    created; the variable is listed, deleted, and listed no more. *)
Example scenario_variable_lifecycle :
  let alice := signed_in "alice" in
  let db1 :=
    perform (CreateCollection {| randomUUID := "id1"; now := 1 |}
               (object_of [("name", JStr "Coding")]) alice)
            (empty_db true) in
  let db2 :=
    perform (CreateTemplate {| randomUUID := "id2"; now := 2 |}
               (object_of [("name", JStr "Explain");
                           ("promptBody", JStr "Explain {{topic}}");
                           ("collectionId", JStr "id1")]) alice) db1 in
  let db3 :=
    perform (CreatePromptVariable {| randomUUID := "id3"; now := 3 |}
               (object_of [("templateId", JStr "id2");
                           ("name", JStr "topic")]) alice) db2 in
  let list := server.listPromptVariables
                (object_of [("templateId", JStr "id2")]) alice in
  let delete := server.deletePromptVariable
                  (object_of [("id", JStr "id3");
                              ("templateId", JStr "id2")]) alice in
  PromptCollections.isDefault <$> collections db1 = [false] ∧
  PromptTemplates.collectionId <$> templates db2 = [Some "id1"] ∧
  (∃ page, (list db3).1 = Ok {| success := true; data := Some page |} ∧
           length (items page) = 1%nat ∧ total page = 1%nat) ∧
  (delete db3).1 = Ok {| success := true; data := None |} ∧
  (list (delete db3).2).1 =
    Ok {| success := true; data := Some {| items := []; total := 0 |} |}.
Proof.
  vm_compute. repeat split. eexists. repeat split.
Qed.

(** A user who calls updateTemplate on the template of another gets
    FORBIDDEN, and the rows are as they were. *)
Example scenario_foreign_template :
  let run :=
    server.updateTemplate sample_rt
      (object_of [("id", JStr "t1"); ("name", JStr "x")])
      (signed_in "bob") (sample_db true) in
  run.1 = Throw (ActionError FORBIDDEN
                   "You do not have access to this template.") ∧
  same_rows (sample_db true) run.2 ∧
  log run.2 = [SELECT TTemplates].
Proof. vm_compute. repeat split. Qed.

(** updateTemplate does look up the empty string as a collection id. *)
Example updateTemplate_empty_collectionId :
  let run :=
    server.updateTemplate sample_rt
      (object_of [("id", JStr "t1"); ("collectionId", JStr EmptyString)])
      (signed_in "alice") (sample_db true) in
  run.1 = Throw (ActionError NOT_FOUND "Collection not found.") ∧
  same_rows (sample_db true) run.2 ∧
  log run.2 = [SELECT TTemplates; SELECT TCollections].
Proof. vm_compute. repeat split. Qed.

(** ** What the schemas let through *)

Lemma string_min1_nonempty (v : JsValue) (s : string) :
  z.string_min1 v = Some s → s ≠ EmptyString.
Proof.
  unfold z.string_min1. destruct (z.string v) as [s'|]; simpl; [|done].
  case_decide as H; [|done]. intros [= ->] ->. simpl in H. lia.
Qed.

Lemma optional_string_min1_nonempty (v : JsValue) (s : string) :
  z.optional z.string_min1 v = Some (Some s) → s ≠ EmptyString.
Proof.
  unfold z.optional. destruct v; simpl; try done.
  destruct (z.string_min1 (JStr s0)) eqn:E; simpl; [|done].
  intros [= ->]. by eapply string_min1_nonempty.
Qed.

Lemma createCollection_input_name (raw : RawInput)
    (input : CreateCollection.Input) :
  CreateCollection.input raw = Some input →
  CreateCollection.name input ≠ EmptyString.
Proof.
  unfold CreateCollection.input, z.object. destruct raw as [v|o]; [done|].
  intros H.
  destruct (z.string_min1 (field o "name")) as [n|] eqn:E; simpl in H;
    [|done].
  apply string_min1_nonempty in E.
  repeat match type of H with
  | context [z.optional ?s ?v] =>
      destruct (z.optional s v); simpl in H; [|done]
  end.
  by injection H as <-.
Qed.

Lemma updateCollection_input_name (raw : RawInput)
    (input : UpdateCollection.Input) (n : string) :
  UpdateCollection.input raw = Some input →
  UpdateCollection.name input = Some n → n ≠ EmptyString.
Proof.
  unfold UpdateCollection.input, z.refine, z.object.
  destruct raw as [v|o]; [done|]. simpl. intros H.
  destruct (z.string_min1 (field o "id")) as [i|]; simpl in H; [|done].
  destruct (z.optional z.string_min1 (field o "name")) as [on|] eqn:E;
    simpl in H; [|done].
  repeat match type of H with
  | context [z.optional ?s ?v] =>
      destruct (z.optional s v); simpl in H; [|done]
  end.
  destruct (_ || _); [|done]. injection H as <-. simpl. intros ->.
  by eapply optional_string_min1_nonempty.
Qed.

(** ** The texts of an accepted input

    Every text of a parsed input is a text of the submitted object. *)

Lemma plain_field (o : gmap string JsValue) (k : string) :
  map_Forall (λ _, plain_value) o → plain_value (field o k).
Proof.
  intros H. unfold field. destruct (o !! k) as [v|] eqn:E; simpl; [|done].
  by apply (H k).
Qed.

Lemma string_plain (v : JsValue) (s : string) :
  plain_value v → z.string v = Some s → plain s.
Proof. destruct v; try done. by intros ? [= <-]. Qed.

Lemma string_min1_plain (v : JsValue) (s : string) :
  plain_value v → z.string_min1 v = Some s → plain s.
Proof.
  unfold z.string_min1. intros Hv.
  destruct (z.string v) as [s'|] eqn:E; simpl; [|done].
  case_decide; [|done]. intros [= <-]. by eapply string_plain.
Qed.

Lemma optional_string_plain (v : JsValue) (o : option string) :
  plain_value v → z.optional z.string v = Some o → plain_option o.
Proof.
  intros Hv. unfold z.optional.
  destruct v; simpl; intros [= <-]; simpl; done.
Qed.

Lemma optional_string_min1_plain (v : JsValue) (o : option string) :
  plain_value v → z.optional z.string_min1 v = Some o → plain_option o.
Proof.
  intros Hv. unfold z.optional. destruct v; simpl; try (by intros [= <-]).
  destruct (z.string_min1 (JStr s)) as [s'|] eqn:E; simpl; [|done].
  intros [= <-]. simpl. by eapply string_min1_plain.
Qed.

(** Reads the fields of a schema one after the other, keeping for each
    text that it is plain. *)
Ltac plain_fields H Hraw :=
  repeat match type of H with
  | context [?s (field ?o ?k)] =>
      let E := fresh "E" in
      destruct (s (field o k)) eqn:E; simpl in H; [|discriminate H];
      first [ apply (string_min1_plain _ _ (plain_field o k Hraw)) in E
            | apply (optional_string_plain _ _ (plain_field o k Hraw)) in E
            | apply (optional_string_min1_plain _ _ (plain_field o k Hraw))
                in E
            | clear E ]
  end.

Lemma createCollection_input_plain (raw : RawInput)
    (input : CreateCollection.Input) :
  plain_raw raw → CreateCollection.input raw = Some input →
  plain (CreateCollection.name input).
Proof.
  unfold CreateCollection.input, z.object.
  destruct raw as [v|o]; [done|]. simpl. intros Hraw H.
  plain_fields H Hraw. by injection H as <-.
Qed.

Lemma updateCollection_input_plain (raw : RawInput)
    (input : UpdateCollection.Input) :
  plain_raw raw → UpdateCollection.input raw = Some input →
  plain_option (UpdateCollection.name input).
Proof.
  unfold UpdateCollection.input, z.refine, z.object.
  destruct raw as [v|o]; [done|]. simpl. intros Hraw H.
  plain_fields H Hraw. destruct (_ || _); [|done]. by injection H as <-.
Qed.

Lemma updateTemplate_input_plain (raw : RawInput)
    (input : UpdateTemplate.Input) :
  plain_raw raw → UpdateTemplate.input raw = Some input →
  plain_option (UpdateTemplate.collectionId input) ∧
  plain_option (UpdateTemplate.name input) ∧
  plain_option (UpdateTemplate.description input) ∧
  plain_option (UpdateTemplate.modelHint input) ∧
  plain_option (UpdateTemplate.promptBody input) ∧
  plain_option (UpdateTemplate.tags input).
Proof.
  unfold UpdateTemplate.input, z.refine, z.object.
  destruct raw as [v|o]; [done|]. simpl. intros Hraw H.
  plain_fields H Hraw. destruct (_ || _); [|done]. by injection H as <-.
Qed.

Lemma createPromptVariable_input_plain (raw : RawInput)
    (input : CreatePromptVariable.Input) :
  plain_raw raw → CreatePromptVariable.input raw = Some input →
  plain (CreatePromptVariable.templateId input) ∧
  plain (CreatePromptVariable.name input) ∧
  plain_option (CreatePromptVariable.label input) ∧
  plain_option (CreatePromptVariable.description input) ∧
  plain_option (CreatePromptVariable.inputType input) ∧
  plain_option (CreatePromptVariable.defaultValue input) ∧
  plain_option (CreatePromptVariable.optionsJson input).
Proof.
  unfold CreatePromptVariable.input, z.object.
  destruct raw as [v|o]; [done|]. simpl. intros Hraw H.
  plain_fields H Hraw. by injection H as <-.
Qed.

Lemma updatePromptVariable_input_plain (raw : RawInput)
    (input : UpdatePromptVariable.Input) :
  plain_raw raw → UpdatePromptVariable.input raw = Some input →
  plain_option (UpdatePromptVariable.name input) ∧
  plain_option (UpdatePromptVariable.label input) ∧
  plain_option (UpdatePromptVariable.description input) ∧
  plain_option (UpdatePromptVariable.inputType input) ∧
  plain_option (UpdatePromptVariable.defaultValue input) ∧
  plain_option (UpdatePromptVariable.optionsJson input).
Proof.
  unfold UpdatePromptVariable.input, z.refine, z.object.
  destruct raw as [v|o]; [done|]. simpl. intros Hraw H.
  plain_fields H Hraw. destruct (_ || _); [|done]. by injection H as <-.
Qed.

(** ** What the set clauses assign *)

Lemma updateCollection_set_fields (rt : Runtime)
    (input : UpdateCollection.Input) (r : PromptCollections.row) :
  SetCollections.set (UpdateCollection.set_clause rt input) r =
  {| PromptCollections.id := PromptCollections.id r;
     PromptCollections.userId := PromptCollections.userId r;
     PromptCollections.name :=
       default (PromptCollections.name r) (UpdateCollection.name input);
     PromptCollections.description :=
       match UpdateCollection.description input with
       | Some d => Some d
       | None => PromptCollections.description r
       end;
     PromptCollections.icon :=
       match UpdateCollection.icon input with
       | Some i => Some i
       | None => PromptCollections.icon r
       end;
     PromptCollections.isDefault :=
       default (PromptCollections.isDefault r)
               (UpdateCollection.isDefault input);
     PromptCollections.createdAt := PromptCollections.createdAt r;
     PromptCollections.updatedAt := now rt |}.
Proof.
  unfold UpdateCollection.set_clause.
  destruct r, input as [i [n|] [d|] [ic|] [b|]]; reflexivity.
Qed.

Lemma updateTemplate_set_fields (rt : Runtime)
    (input : UpdateTemplate.Input) (r : PromptTemplates.row) :
  SetTemplates.set (UpdateTemplate.set_clause rt input) r =
  {| PromptTemplates.id := PromptTemplates.id r;
     PromptTemplates.collectionId :=
       match UpdateTemplate.collectionId input with
       | Some c => Some c
       | None => PromptTemplates.collectionId r
       end;
     PromptTemplates.userId := PromptTemplates.userId r;
     PromptTemplates.name :=
       default (PromptTemplates.name r) (UpdateTemplate.name input);
     PromptTemplates.description :=
       match UpdateTemplate.description input with
       | Some d => Some d
       | None => PromptTemplates.description r
       end;
     PromptTemplates.modelHint :=
       match UpdateTemplate.modelHint input with
       | Some m => Some m
       | None => PromptTemplates.modelHint r
       end;
     PromptTemplates.promptBody :=
       default (PromptTemplates.promptBody r)
               (UpdateTemplate.promptBody input);
     PromptTemplates.tags :=
       match UpdateTemplate.tags input with
       | Some t => Some t
       | None => PromptTemplates.tags r
       end;
     PromptTemplates.isFavorite :=
       default (PromptTemplates.isFavorite r)
               (UpdateTemplate.isFavorite input);
     PromptTemplates.isSystem := PromptTemplates.isSystem r;
     PromptTemplates.createdAt := PromptTemplates.createdAt r;
     PromptTemplates.updatedAt := now rt |}.
Proof.
  unfold UpdateTemplate.set_clause.
  destruct r, input as [i [c|] [n|] [d|] [m|] [p|] [t|] [f|]]; reflexivity.
Qed.

Lemma updatePromptVariable_set_fields
    (input : UpdatePromptVariable.Input) (r : PromptVariables.row) :
  SetVariables.set (UpdatePromptVariable.set_clause input) r =
  {| PromptVariables.id := PromptVariables.id r;
     PromptVariables.templateId := PromptVariables.templateId r;
     PromptVariables.name :=
       default (PromptVariables.name r) (UpdatePromptVariable.name input);
     PromptVariables.label :=
       match UpdatePromptVariable.label input with
       | Some l => Some l
       | None => PromptVariables.label r
       end;
     PromptVariables.description :=
       match UpdatePromptVariable.description input with
       | Some d => Some d
       | None => PromptVariables.description r
       end;
     PromptVariables.inputType :=
       match UpdatePromptVariable.inputType input with
       | Some t => Some t
       | None => PromptVariables.inputType r
       end;
     PromptVariables.defaultValue :=
       match UpdatePromptVariable.defaultValue input with
       | Some d => Some d
       | None => PromptVariables.defaultValue r
       end;
     PromptVariables.optionsJson :=
       match UpdatePromptVariable.optionsJson input with
       | Some o => Some o
       | None => PromptVariables.optionsJson r
       end;
     PromptVariables.orderIndex :=
       match UpdatePromptVariable.orderIndex input with
       | Some o => Some o
       | None => PromptVariables.orderIndex r
       end;
     PromptVariables.createdAt := PromptVariables.createdAt r |}.
Proof.
  unfold UpdatePromptVariable.set_clause.
  destruct r, input as [i t [n|] [l|] [d|] [it|] [dv|] [oj|] [oi|]];
    reflexivity.
Qed.

(** ** The effect of a call *)

Lemma head_filter_pair {R} (c1 c2 : Cond R) (l : list R) (r : R) :
  head (filter c2 (filter c1 l)) = Some r → r ∈ l ∧ c1 r ∧ c2 r.
Proof.
  intros H. apply head_Some_elem_of, list_elem_of_filter in H as [H2 H].
  by apply list_elem_of_filter in H as [H1 H].
Qed.

Lemma head_filter_one {R} (c : Cond R) (l : list R) (r : R) :
  head (filter c l) = Some r → r ∈ l ∧ c r.
Proof.
  intros H. by apply head_Some_elem_of, list_elem_of_filter in H as [? ?].
Qed.

(** The template the caller was found to own. *)
Lemma getOwnedTemplate_ok (templateId userId : string) (db : Db)
    (t : PromptTemplates.row) :
  (getOwnedTemplate templateId userId db).1 = Ok t →
  t ∈ templates db ∧ PromptTemplates.id t = templateId ∧
  PromptTemplates.userId t = userId.
Proof.
  rewrite getOwnedTemplate_run. simpl.
  destruct (head _) as [t'|] eqn:H; [|done].
  case_bool_decide as Hu; [done|]. intros [= ->].
  apply head_filter_one in H as [? H]. apply eq_spec in H.
  by repeat split.
Qed.

Lemma getOwnedCollection_ok (collectionId userId : string) (db : Db)
    (c : PromptCollections.row) :
  (getOwnedCollection collectionId userId db).1 = Ok c →
  c ∈ collections db ∧ PromptCollections.id c = collectionId ∧
  PromptCollections.userId c = userId.
Proof.
  rewrite getOwnedCollection_run. simpl.
  destruct (head _) as [c'|] eqn:H; [|done]. intros [= ->].
  apply head_filter_pair in H as (? & H1 & H2).
  by apply eq_spec in H1, H2.
Qed.

Ltac untouched := left; by repeat split.

Lemma createCollection_effect (rt : Runtime) (raw : RawInput)
    (context : ActionAPIContext) (db : Db) :
  let db' := (server.createCollection rt raw context db).2 in
  same_rows db db' ∨
  ∃ user, requireUser context = Ok user ∧ effect (App.id user) db db'.
Proof.
  unfold server.createCollection, defineAction.
  destruct (CreateCollection.input raw) as [input|] eqn:Hparse;
    [|untouched].
  unfold CreateCollection.handler, bind, lift, ret, insert_returning.
  destruct (requireUser context) as [user|]; [|untouched]. simpl.
  case_bool_decide as Hk; [untouched|]. rewrite andb_false_r. simpl.
  right. exists user. split; [done|].
  eapply created_collection; simpl; try reflexivity; try done.
  by eapply createCollection_input_name.
Qed.

Lemma createTemplate_effect (rt : Runtime) (raw : RawInput)
    (context : ActionAPIContext) (db : Db) :
  let db' := (server.createTemplate rt raw context db).2 in
  same_rows db db' ∨
  ∃ user, requireUser context = Ok user ∧ effect (App.id user) db db'.
Proof.
  unfold server.createTemplate, defineAction.
  destruct (CreateTemplate.input raw) as [input|]; [|untouched].
  unfold CreateTemplate.handler, bind, lift, ret.
  destruct (requireUser context) as [user|]; [|untouched].
  match goal with
  | |- context [insert_returning Templates ?r] => set (t := r)
  end.
  assert (Hins : ∀ d, same_rows db d →
    same_rows db (insert_returning Templates t d).2 ∨
    ∃ u, Ok user = Ok u ∧
         effect (App.id u) db (insert_returning Templates t d).2).
  { intros d (Hc & Ht & Hv). unfold insert_returning. simpl.
    case_bool_decide as Hk; [untouched|].
    destruct (_ && _); [untouched|]. simpl. rewrite Ht in Hk.
    right. exists user. split; [done|].
    eapply (created_template _ _ _ t); simpl; try done; congruence. }
  assert (Hfin : ∀ d, same_rows db d →
    let db' :=
      (let (r, d') := insert_returning Templates t d in
       match r with
       | Ok a => (Ok {| success := true; data := Some (head a) |}, d')
       | Throw e => (Throw e, d')
       end).2 in
    same_rows db db' ∨
    ∃ u, Ok user = Ok u ∧ effect (App.id u) db db').
  { intros d Hd. specialize (Hins d Hd).
    by destruct (insert_returning Templates t d) as [[a|e] d']. }
  destruct (CreateTemplate.collectionId input) as [c|];
    [destruct (CreateTemplate.truthy c)|].
  - rewrite getOwnedCollection_run.
    destruct (head _); [|untouched]. by apply Hfin.
  - by apply Hfin.
  - by apply Hfin.
Qed.

Lemma createPromptVariable_effect (rt : Runtime) (raw : RawInput)
    (context : ActionAPIContext) (db : Db) :
  let db' := (server.createPromptVariable rt raw context db).2 in
  same_rows db db' ∨
  ∃ user, requireUser context = Ok user ∧ effect (App.id user) db db'.
Proof.
  unfold server.createPromptVariable, defineAction.
  destruct (CreatePromptVariable.input raw) as [input|]; [|untouched].
  unfold CreatePromptVariable.handler, bind, lift, ret.
  destruct (requireUser context) as [user|]; [|untouched].
  destruct (getOwnedTemplate _ _ db) as [[tpl|e] d] eqn:Hown.
  2:{ rewrite getOwnedTemplate_run in Hown. injection Hown as _ <-.
      untouched. }
  destruct (getOwnedTemplate_ok (CreatePromptVariable.templateId input)
              (App.id user) db tpl) as (Hin & Hid & Hu);
    [by rewrite Hown|].
  rewrite getOwnedTemplate_run in Hown. injection Hown as _ <-.
  match goal with
  | |- context [insert_returning Variables ?r] => set (v := r)
  end.
  unfold insert_returning. cbv zeta.
  case_bool_decide as Hk; [untouched|].
  destruct (_ && _); [untouched|].
  right. exists user. split; [done|].
  destruct (unsafe Variables v); by apply (created_variable _ _ _ v tpl).
Qed.

Lemma map_on_key {R} (key : R → string) (k k' : string) (g : R → R)
    (l : list R) :
  k = k' →
  (λ r, if eq_ key k r then g r else r) <$> l =
  (λ r, if bool_decide (key r = k') then g r else r) <$> l.
Proof. by intros ->. Qed.

Lemma updateCollection_effect (rt : Runtime) (raw : RawInput)
    (context : ActionAPIContext) (db : Db) :
  let db' := (server.updateCollection rt raw context db).2 in
  same_rows db db' ∨
  ∃ user, requireUser context = Ok user ∧ effect (App.id user) db db'.
Proof.
  unfold server.updateCollection, defineAction.
  destruct (UpdateCollection.input raw) as [input|] eqn:Hparse;
    [|untouched].
  unfold UpdateCollection.handler, bind, lift, ret.
  destruct (requireUser context) as [user|]; [|untouched].
  rewrite getOwnedCollection_run.
  destruct (head _) as [old|] eqn:Hold; [|untouched].
  apply head_filter_pair in Hold as (Hin & Hid & Hown).
  apply eq_spec in Hid, Hown.
  rewrite update_returning_run by done. simpl.
  right. exists user. split; [done|].
  apply (changed_collection _ _ _ old
           (SetCollections.set (UpdateCollection.set_clause rt input)));
    simpl; try done.
  - intros r. rewrite updateCollection_set_fields. simpl.
    repeat split.
    destruct (UpdateCollection.name input) as [n|] eqn:Hn; [|by left].
    right. simpl. by eapply updateCollection_input_name.
  - by apply map_on_key.
Qed.

Lemma updateTemplate_effect (rt : Runtime) (raw : RawInput)
    (context : ActionAPIContext) (db : Db) :
  let db' := (server.updateTemplate rt raw context db).2 in
  same_rows db db' ∨
  ∃ user, requireUser context = Ok user ∧ effect (App.id user) db db'.
Proof.
  unfold server.updateTemplate, defineAction.
  destruct (UpdateTemplate.input raw) as [input|]; [|untouched].
  unfold UpdateTemplate.handler, bind, lift, ret.
  destruct (requireUser context) as [user|]; [|untouched].
  destruct (getOwnedTemplate _ _ db) as [[old|e] d] eqn:Hown.
  2:{ rewrite getOwnedTemplate_run in Hown. injection Hown as _ <-.
      untouched. }
  destruct (getOwnedTemplate_ok (UpdateTemplate.id input) (App.id user)
              db old) as (Hin & Hid & Hu); [by rewrite Hown|].
  rewrite getOwnedTemplate_run in Hown. injection Hown as _ <-.
  assert (Hupd : ∀ d, same_rows db d →
    let db' :=
      (let (r, d') :=
         update_returning Templates
           (SetTemplates.set (UpdateTemplate.set_clause rt input))
           (eq_ PromptTemplates.id (UpdateTemplate.id input)) d in
       match r with
       | Ok a => (Ok {| success := true; data := Some (head a) |}, d')
       | Throw e => (Throw e, d')
       end).2 in
    same_rows db db' ∨
    ∃ u, Ok user = Ok u ∧ effect (App.id u) db db').
  { intros d (Hc & Ht & Hv). rewrite update_returning_decoded by done.
    cbv zeta. destruct (_ && _); [untouched|]. simpl.
    right. exists user. split; [done|].
    apply (changed_template _ _ _ old
             (SetTemplates.set (UpdateTemplate.set_clause rt input)));
      simpl; try done.
    - intros r. by rewrite updateTemplate_set_fields.
    - rewrite Ht. by apply map_on_key. }
  destruct (UpdateTemplate.collectionId input) as [c|].
  - rewrite getOwnedCollection_run.
    destruct (head _); [|untouched]. by apply Hupd.
  - by apply Hupd.
Qed.

Lemma updatePromptVariable_effect (raw : RawInput)
    (context : ActionAPIContext) (db : Db) :
  let db' := (server.updatePromptVariable raw context db).2 in
  same_rows db db' ∨
  ∃ user, requireUser context = Ok user ∧ effect (App.id user) db db'.
Proof.
  unfold server.updatePromptVariable, defineAction.
  destruct (UpdatePromptVariable.input raw) as [input|]; [|untouched].
  unfold UpdatePromptVariable.handler, bind, lift, ret.
  destruct (requireUser context) as [user|]; [|untouched].
  destruct (getOwnedTemplate _ _ db) as [[tpl|e] d] eqn:Hown.
  2:{ rewrite getOwnedTemplate_run in Hown. injection Hown as _ <-.
      untouched. }
  destruct (getOwnedTemplate_ok (UpdatePromptVariable.templateId input)
              (App.id user) db tpl) as (Hin & Hid & Hu);
    [by rewrite Hown|].
  rewrite getOwnedTemplate_run in Hown. injection Hown as _ <-.
  unfold select_where. cbv zeta. rewrite filter_and_pair.
  destruct (existsb _ _); [untouched|].
  destruct (head _) as [old|] eqn:Hold; [|untouched].
  apply head_filter_pair in Hold as (Hold & Hoid & Hotpl).
  apply eq_spec in Hoid, Hotpl. simpl in Hold.
  rewrite update_returning_written.
  2:{ intros r. simpl. by rewrite updatePromptVariable_set_fields. }
  right. exists user. split; [done|].
  destruct (existsb _ _); simpl.
  all: apply (changed_variable _ _ _ old tpl
           (SetVariables.set (UpdatePromptVariable.set_clause input)));
    simpl; try done;
    [congruence
    | intros r; by rewrite updatePromptVariable_set_fields
    | by apply map_on_key].
Qed.

Lemma deletePromptVariable_effect (raw : RawInput)
    (context : ActionAPIContext) (db : Db) :
  let db' := (server.deletePromptVariable raw context db).2 in
  same_rows db db' ∨
  ∃ user, requireUser context = Ok user ∧ effect (App.id user) db db'.
Proof.
  unfold server.deletePromptVariable, defineAction.
  destruct (DeletePromptVariable.input raw) as [input|]; [|untouched].
  unfold DeletePromptVariable.handler, bind, lift, ret, throw.
  destruct (requireUser context) as [user|]; [|untouched].
  destruct (getOwnedTemplate _ _ db) as [[tpl|e] d] eqn:Hown.
  2:{ rewrite getOwnedTemplate_run in Hown. injection Hown as _ <-.
      untouched. }
  destruct (getOwnedTemplate_ok (DeletePromptVariable.templateId input)
              (App.id user) db tpl) as (Hin & Hid & Hu);
    [by rewrite Hown|].
  rewrite getOwnedTemplate_run in Hown. injection Hown as _ <-.
  unfold delete_where. simpl.
  right. exists user. split; [done|].
  assert (Hrows : ∀ r : Result (Envelope unit),
    effect (App.id user) db
      (r, set_rows Variables
            (filter (λ r, negb (and_
               [eq_ PromptVariables.id (DeletePromptVariable.id input);
                eq_ PromptVariables.templateId
                  (DeletePromptVariable.templateId input)] r))
               (variables db))
            (issue (DELETE TVariables) (issue (SELECT TTemplates) db))).2).
  { intros r.
    apply (removed_variables _ _ _ (DeletePromptVariable.id input) tpl);
      simpl; try done.
    apply list_filter_iff. intros v.
    rewrite andb_true_r, negb_True, andb_True, !eq_spec, Hid. tauto. }
  destruct (bool_decide _); apply Hrows.
Qed.

(** A call leaves the rows alone, or its caller is signed in and it has
    one of the effects of [effect]. *)
Lemma perform_effect (call : Call) (db : Db) :
  same_rows db (perform call db) ∨
  ∃ user, requireUser (context_of call) = Ok user ∧
          effect (App.id user) db (perform call db).
Proof.
  destruct call; simpl.
  - apply createCollection_effect.
  - apply updateCollection_effect.
  - left. unfold server.listCollections, defineAction.
    destruct (ListCollections.input raw); [|by repeat split].
    unfold ListCollections.handler, bind, lift.
    destruct (requireUser c); [|by repeat split].
    by rewrite select_where_run.
  - apply createTemplate_effect.
  - apply updateTemplate_effect.
  - left. unfold server.listTemplates, defineAction.
    destruct (ListTemplates.input raw); [|by repeat split].
    unfold ListTemplates.handler, bind, lift.
    destruct (requireUser c); [|by repeat split].
    by rewrite select_where_run.
  - apply createPromptVariable_effect.
  - apply updatePromptVariable_effect.
  - apply deletePromptVariable_effect.
  - left. unfold server.listPromptVariables, defineAction.
    destruct (ListPromptVariables.input raw); [|by repeat split].
    unfold ListPromptVariables.handler, bind, lift.
    destruct (requireUser c); [|by repeat split].
    rewrite getOwnedTemplate_run.
    destruct (head _); [|by repeat split].
    destruct (bool_decide _); [by repeat split|].
    unfold select_where. cbv zeta. by destruct (existsb _ _).
Qed.

(** ** Rows and their owners *)

Lemma same_key_same_row {R} (key : R → string) (l : list R) (r r' : R) :
  NoDup (key <$> l) → r ∈ l → r' ∈ l → key r' = key r → r' = r.
Proof.
  intros Hnd Hr Hr' Hk.
  assert (r' ∈ filter (eq_ key (key r)) l) as H.
  { apply list_elem_of_filter. split; [by apply eq_spec|done]. }
  rewrite (filter_key_unique key) in H by done.
  by apply list_elem_of_singleton in H.
Qed.

Lemma lookup_map_on_key {R} (key : R → string) (k : string) (g : R → R)
    (l : list R) (i : nat) (r : R) :
  l !! i = Some r → key r ≠ k →
  ((λ r, if bool_decide (key r = k) then g r else r) <$> l) !! i = Some r.
Proof.
  intros Hi Hk. rewrite list_lookup_fmap, Hi. simpl.
  by rewrite bool_decide_eq_false_2.
Qed.

(** X4. A collection or a template keeps its place and all its fields
    through a call, unless the caller is signed in and owns it. *)
Theorem rows_changed_by_owner_only (call : Call) (db : Db)
    (Hkeys : keys_unique db) :
  (∀ i c, collections db !! i = Some c →
     collections (perform call db) !! i = Some c ∨
     ∃ user, requireUser (context_of call) = Ok user ∧
             PromptCollections.userId c = App.id user) ∧
  (∀ i t, templates db !! i = Some t →
     templates (perform call db) !! i = Some t ∨
     ∃ user, requireUser (context_of call) = Ok user ∧
             PromptTemplates.userId t = App.id user).
Proof.
  destruct Hkeys as (Hc & Ht & _).
  destruct (perform_effect call db) as [(Ec & Et & _) | (user & Hu & E)].
  { rewrite Ec, Et. auto. }
  split.
  - intros i c Hi.
    destruct E as [r _ _ _ -> _ _ | r _ _ _ _ -> _ | v tpl _ _ _ _ _ -> _
                  | old g Hold Hown _ -> _ _ | old g _ _ _ _ -> _
                  | old tpl g _ _ _ _ _ _ -> _ | k tpl _ _ _ -> _];
      try (by left).
    + left. by apply lookup_app_l_Some.
    + destruct (decide (PromptCollections.id c = PromptCollections.id old))
        as [Heq|Hne].
      * right. exists user. split; [done|].
        apply (same_key_same_row PromptCollections.id (collections db) old c)
          in Heq;
          [by subst|done|done|by eapply list_elem_of_lookup_2].
      * left. by apply lookup_map_on_key.
  - intros i t Hi.
    destruct E as [r _ _ _ _ -> _ | r _ _ _ -> _ _ | v tpl _ _ _ _ _ _ ->
                  | old g _ _ _ _ -> _ | old g Hold Hown _ -> _ _
                  | old tpl g _ _ _ _ _ _ _ -> | k tpl _ _ _ _ ->];
      try (by left).
    + left. by apply lookup_app_l_Some.
    + destruct (decide (PromptTemplates.id t = PromptTemplates.id old))
        as [Heq|Hne].
      * right. exists user. split; [done|].
        apply (same_key_same_row PromptTemplates.id (templates db) old t)
          in Heq;
          [by subst|done|done|by eapply list_elem_of_lookup_2].
      * left. by apply lookup_map_on_key.
Qed.

(** X5. A variable is in the table after a call as it was before, unless
    the caller is signed in and owns the template the variable names. *)
Theorem variables_changed_by_owner_only (call : Call) (db : Db)
    (v : PromptVariables.row)
    (Hkeys : keys_unique db) (Hv : v ∈ variables db) :
  v ∈ variables (perform call db) ∨
  ∃ user tpl, requireUser (context_of call) = Ok user ∧
              tpl ∈ templates db ∧
              PromptTemplates.id tpl = PromptVariables.templateId v ∧
              PromptTemplates.userId tpl = App.id user.
Proof.
  destruct Hkeys as (_ & _ & Hk).
  destruct (perform_effect call db) as [(_ & _ & Ev) | (user & Hu & E)].
  { rewrite Ev. auto. }
  destruct E as [r _ _ _ _ _ -> | r _ _ _ _ _ -> | r tpl _ _ _ _ -> _ _
                | old g _ _ _ _ _ -> | old g _ _ _ _ _ ->
                | old tpl g Hold Htpl Hid Hown _ -> _ _
                | k tpl Htpl Hown -> _ _];
    try (by left).
  - left. apply elem_of_app. by left.
  - destruct (decide (PromptVariables.id v = PromptVariables.id old))
      as [Heq|Hne].
    + right. exists user, tpl.
      apply (same_key_same_row PromptVariables.id (variables db) old v)
        in Heq;
        [by subst|done|done|done].
    + left. apply list_elem_of_lookup in Hv as [i Hi].
      eapply list_elem_of_lookup_2. by apply lookup_map_on_key.
  - destruct (decide (PromptVariables.id v = k ∧
                      PromptVariables.templateId v = PromptTemplates.id tpl))
      as [[_ Heq]|Hne].
    + right. by exists user, tpl.
    + left. by apply list_elem_of_filter.
Qed.

(** ** What every sequence of calls keeps *)

(** A property of stores kept by each call is kept by every sequence. *)
Lemma perform_all_keeps (P : Db → Prop) :
  (∀ call db, P db → P (perform call db)) →
  ∀ calls db, P db → P (perform_all calls db).
Proof.
  intros Hstep calls. unfold perform_all.
  induction calls as [|call calls IH]; simpl; intros db H; [done|].
  by apply IH, Hstep.
Qed.

Lemma templates_system_step (call : Call) (db : Db) :
  Forall (λ t, PromptTemplates.isSystem t = false) (templates db) →
  Forall (λ t, PromptTemplates.isSystem t = false)
         (templates (perform call db)).
Proof.
  intros H.
  destruct (perform_effect call db) as [(_ & -> & _) | (user & _ & E)];
    [done|].
  destruct E as [c _ _ _ _ -> _ | r _ Hs _ -> _ _ | v tpl _ _ _ _ _ _ ->
                | old g _ _ _ _ -> _ | old g _ _ Hg -> _ _
                | old tpl g _ _ _ _ _ _ _ -> | k tpl _ _ _ _ ->];
    try done.
  - apply Forall_app. split; [done|]. by apply Forall_singleton.
  - apply Forall_fmap. eapply Forall_impl; [exact H|].
    intros r Hr. simpl. case_bool_decide; [|done].
    destruct (Hg r) as (_ & _ & -> & _). done.
Qed.

Lemma variables_template_step (call : Call) (db : Db) :
  Forall (λ v, PromptVariables.templateId v
               ∈ PromptTemplates.id <$> templates db) (variables db) →
  let db' := perform call db in
  Forall (λ v, PromptVariables.templateId v
               ∈ PromptTemplates.id <$> templates db') (variables db').
Proof.
  intros H.
  destruct (perform_effect call db) as [(_ & Et & Ev) | (user & _ & E)].
  { simpl. by rewrite Et, Ev. }
  simpl.
  destruct E as [c _ _ _ _ -> -> | r _ _ _ -> _ -> | v tpl Htpl Hid _ _ -> _ ->
                | old g _ _ _ _ -> -> | old g _ _ Hg -> _ ->
                | old tpl g _ _ _ _ Hg -> _ -> | k tpl _ _ -> _ ->];
    try done.
  - eapply Forall_impl; [exact H|]. intros v Hv. simpl in *.
    rewrite fmap_app. apply elem_of_app. by left.
  - apply Forall_app. split; [done|]. apply Forall_singleton.
    rewrite <- Hid. by apply list_elem_of_fmap_2.
  - rewrite keys_fmap_kept; [done|].
    intros r. case_bool_decide; [|done]. by destruct (Hg r) as (-> & _).
  - apply Forall_fmap. eapply Forall_impl; [exact H|].
    intros r Hr. simpl. case_bool_decide; [|done].
    by destruct (Hg r) as (_ & -> & _).
  - apply Forall_forall. intros v [_ Hv]%list_elem_of_filter.
    by eapply Forall_forall in H.
Qed.

(** X12. From a store without system templates, no sequence of calls leads
    to one with a system template. *)
Theorem templates_stay_non_system (calls : list Call) (db : Db)
    (H : Forall (λ t, PromptTemplates.isSystem t = false) (templates db)) :
  Forall (λ t, PromptTemplates.isSystem t = false)
         (templates (perform_all calls db)).
Proof.
  revert calls db H.
  apply (perform_all_keeps
           (λ db, Forall (λ t, PromptTemplates.isSystem t = false)
                         (templates db))).
  apply templates_system_step.
Qed.

(** X10. From a store where every variable names a template of the store,
    every sequence of calls leads to such a store, whether the engine
    enforces references or not. *)
Theorem variables_keep_a_template (calls : list Call) (db : Db)
    (H : Forall (λ v, PromptVariables.templateId v
                      ∈ PromptTemplates.id <$> templates db)
                (variables db)) :
  let db' := perform_all calls db in
  Forall (λ v, PromptVariables.templateId v
               ∈ PromptTemplates.id <$> templates db') (variables db').
Proof.
  revert calls db H.
  apply (perform_all_keeps
           (λ db, Forall (λ v, PromptVariables.templateId v
                               ∈ PromptTemplates.id <$> templates db)
                         (variables db))).
  apply variables_template_step.
Qed.

(** X9. Every store built from an empty one by calls of the actions has
    unique primary keys in its three tables. *)
Theorem reachable_keys_unique (calls : list Call) (fk : bool) :
  keys_unique (perform_all calls (empty_db fk)).
Proof. apply keys_unique_perform_all, keys_unique_empty. Qed.

(** ** Rows are kept *)

Lemma rows_kept_step (call : Call) (db : Db) :
  (∀ i c, collections db !! i = Some c →
     ∃ c', collections (perform call db) !! i = Some c' ∧
           PromptCollections.id c' = PromptCollections.id c ∧
           PromptCollections.userId c' = PromptCollections.userId c ∧
           PromptCollections.createdAt c' = PromptCollections.createdAt c) ∧
  (∀ i t, templates db !! i = Some t →
     ∃ t', templates (perform call db) !! i = Some t' ∧
           PromptTemplates.id t' = PromptTemplates.id t ∧
           PromptTemplates.userId t' = PromptTemplates.userId t ∧
           PromptTemplates.createdAt t' = PromptTemplates.createdAt t).
Proof.
  destruct (perform_effect call db) as [(Ec & Et & _) | (user & _ & E)].
  { rewrite Ec, Et. eauto 10. }
  split.
  - intros i c Hi.
    destruct E as [r _ _ _ -> _ _ | r _ _ _ _ -> _ | v tpl _ _ _ _ _ -> _
                  | old g _ _ Hg -> _ _ | old g _ _ _ _ -> _
                  | old tpl g _ _ _ _ _ _ -> _ | k tpl _ _ _ -> _];
      try (by exists c).
    + exists c. split; [|done]. by apply lookup_app_l_Some.
    + rewrite list_lookup_fmap, Hi. simpl. eexists. split; [done|].
      case_bool_decide; [|done]. by destruct (Hg c) as (? & ? & ? & _).
  - intros i t Hi.
    destruct E as [r _ _ _ _ -> _ | r _ _ _ -> _ _ | v tpl _ _ _ _ _ _ ->
                  | old g _ _ _ _ -> _ | old g _ _ Hg -> _ _
                  | old tpl g _ _ _ _ _ _ _ -> | k tpl _ _ _ _ ->];
      try (by exists t).
    + exists t. split; [|done]. by apply lookup_app_l_Some.
    + rewrite list_lookup_fmap, Hi. simpl. eexists. split; [done|].
      case_bool_decide; [|done]. by destruct (Hg t) as (? & ? & _ & ?).
Qed.

(** X8. No sequence of calls removes or moves a collection or a template,
    or changes its id, its owner or its creation time. *)
Theorem rows_never_removed (calls : list Call) (db : Db) :
  (∀ i c, collections db !! i = Some c →
     ∃ c', collections (perform_all calls db) !! i = Some c' ∧
           PromptCollections.id c' = PromptCollections.id c ∧
           PromptCollections.userId c' = PromptCollections.userId c ∧
           PromptCollections.createdAt c' = PromptCollections.createdAt c) ∧
  (∀ i t, templates db !! i = Some t →
     ∃ t', templates (perform_all calls db) !! i = Some t' ∧
           PromptTemplates.id t' = PromptTemplates.id t ∧
           PromptTemplates.userId t' = PromptTemplates.userId t ∧
           PromptTemplates.createdAt t' = PromptTemplates.createdAt t).
Proof.
  unfold perform_all. revert db.
  induction calls as [|call calls IH]; simpl; intros db.
  { split; intros i r Hi; by exists r. }
  destruct (rows_kept_step call db) as (Sc & St).
  destruct (IH (perform call db)) as (Ic & It).
  split.
  - intros i c Hi. destruct (Sc i c Hi) as (c1 & L1 & ? & ? & ?).
    destruct (Ic i c1 L1) as (c2 & L2 & ? & ? & ?).
    exists c2. repeat split; [done|congruence..].
  - intros i t Hi. destruct (St i t Hi) as (t1 & L1 & ? & ? & ?).
    destruct (It i t1 L1) as (t2 & L2 & ? & ? & ?).
    exists t2. repeat split; [done|congruence..].
Qed.

(** ** Calls that fail *)

(** X1. A call that comes without a signed-in user is rejected, by
    validation or as UNAUTHORIZED, and leaves the store exactly as it was:
    no row is changed and no statement issued. *)
Theorem anonymous_call_refused (call : Call) (db : Db) (e : Failure)
    (H : requireUser (context_of call) = Throw e) :
  perform call db = db ∧
  (outcome call db = Some VALIDATION ∨
   outcome call db =
   Some (ActionError UNAUTHORIZED
           "You must be signed in to perform this action.")).
Proof.
  assert (He : e = ActionError UNAUTHORIZED
                     "You must be signed in to perform this action.").
  { unfold requireUser in H. destruct (_ ≫= _); congruence. }
  subst e.
  destruct call; simpl in *;
    unfold server.createCollection, server.updateCollection,
      server.listCollections, server.createTemplate, server.updateTemplate,
      server.listTemplates, server.createPromptVariable,
      server.updatePromptVariable, server.deletePromptVariable,
      server.listPromptVariables, defineAction;
    match goal with
    | |- context [match ?p ?r with Some _ => _ | None => _ end] =>
        is_var r; destruct (p r)
    end; simpl; auto;
    unfold CreateCollection.handler, UpdateCollection.handler,
      ListCollections.handler, CreateTemplate.handler,
      UpdateTemplate.handler, ListTemplates.handler,
      CreatePromptVariable.handler, UpdatePromptVariable.handler,
      DeletePromptVariable.handler, ListPromptVariables.handler, bind, lift;
    rewrite H; simpl; auto.
Qed.

(** Unfolds the actions down to the statements. *)
Ltac unfold_actions :=
  unfold perform, outcome, server.createCollection, server.updateCollection,
    server.listCollections, server.createTemplate, server.updateTemplate,
    server.listTemplates, server.createPromptVariable,
    server.updatePromptVariable, server.deletePromptVariable,
    server.listPromptVariables, defineAction,
    CreateCollection.handler, UpdateCollection.handler,
    ListCollections.handler, CreateTemplate.handler,
    UpdateTemplate.handler, ListTemplates.handler,
    CreatePromptVariable.handler, UpdatePromptVariable.handler,
    DeletePromptVariable.handler, ListPromptVariables.handler,
    getOwnedCollection, getOwnedTemplate,
    bind, lift, ret, throw, select_where, insert_returning,
    update_returning, delete_where.

Lemma requireUser_failure (context : ActionAPIContext) (e : Failure) :
  requireUser context = Throw e →
  e = ActionError UNAUTHORIZED "You must be signed in to perform this action.".
Proof.
  unfold requireUser. destruct (_ ≫= _); [done|]. by intros [= <-].
Qed.

(** Goes through the cases of an unfolded action. *)
Ltac cases_of_action :=
  repeat (simpl;
    match goal with
    | |- context [match ?p ?r with Some _ => _ | None => _ end] =>
        is_var r; destruct (p r)
    | |- context [requireUser ?c] => destruct (requireUser c) eqn:?
    | |- context [match head ?l with Some _ => _ | None => _ end] =>
        destruct (head l)
    | |- context [match ?o with Some _ => _ | None => _ end] =>
        is_var o; destruct o
    | |- context [if CreateTemplate.truthy ?s then _ else _] =>
        destruct (CreateTemplate.truthy s)
    | |- context [if bool_decide ?P then _ else _] =>
        let E := fresh "E" in destruct (bool_decide P) eqn:E
    | |- context [if ?a && ?b then _ else _] => destruct (a && b)
    | |- context [existsb (λ _, false) ?l] =>
        rewrite (existsb_never (λ _, false) l) by done
    | |- context [if existsb ?p ?l then _ else _] => destruct (existsb p l)
    | |- context [if ?b then (Throw RangeError, _) else _] => destruct b
    end).

(** X6. A call that fails with anything but the [RangeError] of the
    client leaves the rows of the three tables as they were.  A call that
    fails with [RangeError] is a call on the variables: it may have written
    the variable whose decoding failed, and it leaves the collections and
    the templates as they were. *)
Theorem failed_call_keeps_rows (call : Call) (db : Db) (e : Failure)
    (H : outcome call db = Some e) :
  (e ≠ RangeError → same_rows db (perform call db)) ∧
  (e = RangeError →
   match call with
   | CreatePromptVariable _ _ _ | UpdatePromptVariable _ _
   | ListPromptVariables _ _ => True
   | _ => False
   end ∧
   collections (perform call db) = collections db ∧
   templates (perform call db) = templates db).
Proof.
  revert H. destruct call; unfold_actions; cases_of_action;
    intros H; try discriminate H; injection H as <-.
  all: split; intros He; try done.
  all: try match goal with
       | E : requireUser _ = Throw ?e0 |- _ =>
           apply requireUser_failure in E; congruence
       end.
  all: repeat split; simpl.
  all: match goal with
       | L : bool_decide (length _ = 0%nat) = true |- _ =>
           apply bool_decide_eq_true_1, nil_length_inv in L;
           by apply filter_none_keeps_all
       end.
Qed.

(** X7. The statements a call issues are at most three; all but the last
    are selects; none deletes from the collections or the templates; the
    list actions issue selects only; and when only selects were issued the
    rows are as they were. *)
Theorem call_statements (call : Call) (db : Db) :
  ∃ l : list Stmt,
    log (perform call db) = log db ++ l ∧
    (length l ≤ 3)%nat ∧
    forallb is_select (removelast l) = true ∧
    forallb (λ s, match s with
                  | DELETE TCollections | DELETE TTemplates => false
                  | _ => true
                  end) l = true ∧
    match call with
    | ListCollections _ _ | ListTemplates _ _ | ListPromptVariables _ _ =>
        forallb is_select l = true
    | _ => True
    end ∧
    (forallb is_select l = true → same_rows db (perform call db)).
Proof.
  destruct call; unfold_actions; cases_of_action.
  all: simpl; rewrite <- ?app_assoc; simpl.
  all: first [ exists []; split; [by rewrite app_nil_r|]
             | eexists; split; [reflexivity|] ].
  all: simpl; repeat split; try done; lia.
Qed.

(** ** Failures of the resolvers reach the caller *)

Lemma getOwnedTemplate_throw (templateId userId : string) (db : Db)
    (e : Failure) :
  (getOwnedTemplate templateId userId db).1 = Throw e →
  getOwnedTemplate templateId userId db
  = (Throw e, issue (SELECT TTemplates) db) ∧
  (e = ActionError NOT_FOUND "Template not found." ∨
   e = ActionError FORBIDDEN "You do not have access to this template.").
Proof.
  rewrite getOwnedTemplate_run. simpl.
  destruct (head _); [destruct (bool_decide _)|]; intros [= <-]; auto.
Qed.

Lemma getOwnedCollection_throw (collectionId userId : string) (db : Db)
    (e : Failure) :
  (getOwnedCollection collectionId userId db).1 = Throw e →
  getOwnedCollection collectionId userId db
  = (Throw e, issue (SELECT TCollections) db) ∧
  e = ActionError NOT_FOUND "Collection not found.".
Proof.
  rewrite getOwnedCollection_run. simpl.
  destruct (head _); intros [= <-]; auto.
Qed.

(** X2. When the template an action names does not resolve for the signed-in
    caller, the action fails with the failure of the resolver, NOT_FOUND or
    FORBIDDEN, and the select of the resolver is the only statement
    issued.  This holds for the five actions that name a template. *)
Theorem unresolved_template_stops_action
    (context : ActionAPIContext) (user : App.User) (db : Db)
    (templateId : string) (e : Failure)
    (Huser : requireUser context = Ok user)
    (Hdenied : (getOwnedTemplate templateId (App.id user) db).1 = Throw e) :
  (e = ActionError NOT_FOUND "Template not found." ∨
   e = ActionError FORBIDDEN "You do not have access to this template.") ∧
  (∀ rt raw input,
     UpdateTemplate.input raw = Some input →
     UpdateTemplate.id input = templateId →
     server.updateTemplate rt raw context db
     = (Throw e, issue (SELECT TTemplates) db)) ∧
  (∀ rt raw input,
     CreatePromptVariable.input raw = Some input →
     CreatePromptVariable.templateId input = templateId →
     server.createPromptVariable rt raw context db
     = (Throw e, issue (SELECT TTemplates) db)) ∧
  (∀ raw input,
     UpdatePromptVariable.input raw = Some input →
     UpdatePromptVariable.templateId input = templateId →
     server.updatePromptVariable raw context db
     = (Throw e, issue (SELECT TTemplates) db)) ∧
  (∀ raw input,
     DeletePromptVariable.input raw = Some input →
     DeletePromptVariable.templateId input = templateId →
     server.deletePromptVariable raw context db
     = (Throw e, issue (SELECT TTemplates) db)) ∧
  (∀ raw input,
     ListPromptVariables.input raw = Some input →
     ListPromptVariables.templateId input = templateId →
     server.listPromptVariables raw context db
     = (Throw e, issue (SELECT TTemplates) db)).
Proof.
  apply getOwnedTemplate_throw in Hdenied as [Hrun He].
  split; [exact He|].
  repeat split; intros; subst templateId.
  - unfold server.updateTemplate, defineAction, UpdateTemplate.handler,
      bind, lift. by rewrite H, Huser, Hrun.
  - unfold server.createPromptVariable, defineAction,
      CreatePromptVariable.handler, bind, lift. by rewrite H, Huser, Hrun.
  - unfold server.updatePromptVariable, defineAction,
      UpdatePromptVariable.handler, bind, lift. by rewrite H, Huser, Hrun.
  - unfold server.deletePromptVariable, defineAction,
      DeletePromptVariable.handler, bind, lift. by rewrite H, Huser, Hrun.
  - unfold server.listPromptVariables, defineAction,
      ListPromptVariables.handler, bind, lift. by rewrite H, Huser, Hrun.
Qed.

(** X3. updateCollection on an id that does not resolve to a collection of
    the signed-in caller fails with NOT_FOUND after its one select, and so
    does updateTemplate, after resolving the template, on a [collectionId]
    that does not. *)
Theorem unresolved_collection_stops_update
    (context : ActionAPIContext) (user : App.User) (db : Db)
    (collectionId : string) (e : Failure)
    (Huser : requireUser context = Ok user)
    (Hdenied : (getOwnedCollection collectionId (App.id user) db).1
               = Throw e) :
  e = ActionError NOT_FOUND "Collection not found." ∧
  (∀ rt raw input,
     UpdateCollection.input raw = Some input →
     UpdateCollection.id input = collectionId →
     server.updateCollection rt raw context db
     = (Throw e, issue (SELECT TCollections) db)) ∧
  (∀ rt raw input tpl,
     UpdateTemplate.input raw = Some input →
     UpdateTemplate.collectionId input = Some collectionId →
     (getOwnedTemplate (UpdateTemplate.id input) (App.id user) db).1
     = Ok tpl →
     server.updateTemplate rt raw context db
     = (Throw e, issue (SELECT TCollections)
                   (issue (SELECT TTemplates) db))).
Proof.
  assert (Hany : ∀ d, collections d = collections db →
            getOwnedCollection collectionId (App.id user) d
            = (Throw e, issue (SELECT TCollections) d)).
  { intros d Hd. rewrite getOwnedCollection_run in Hdenied.
    rewrite getOwnedCollection_run, Hd. simpl in Hdenied.
    destruct (head _); [done|]. by injection Hdenied as <-. }
  apply getOwnedCollection_throw in Hdenied as [Hrun He].
  split; [exact He|]. split.
  - intros rt raw input Hparse <-.
    unfold server.updateCollection, defineAction, UpdateCollection.handler,
      bind, lift. by rewrite Hparse, Huser, Hrun.
  - intros rt raw input tpl Hparse Hc Htpl.
    unfold server.updateTemplate, defineAction, UpdateTemplate.handler,
      bind, lift. rewrite Hparse, Huser, Hc.
    rewrite getOwnedTemplate_run in Htpl. rewrite getOwnedTemplate_run.
    simpl in Htpl. destruct (head _) as [t|]; [|done].
    destruct (bool_decide _); [done|].
    by rewrite Hany.
Qed.

(** ** Successful updates *)

Lemma map_on_unique_key {R} (key : R → string) (g : R → R) (l : list R)
    (old : R) :
  NoDup (key <$> l) → old ∈ l →
  (λ r, if eq_ key (key old) r then g r else r) <$> l =
  (λ r, if decide (key r = key old) then g old else r) <$> l.
Proof.
  intros Hnd Hold. apply list_fmap_ext. intros _ r Hr%list_elem_of_lookup_2.
  unfold eq_. case_bool_decide as E; case_decide as E'; try done.
  f_equal. by apply (same_key_same_row key l).
Qed.

Lemma plain_or_kept (o old : option string) :
  plain_option o → plain_option old →
  plain_option match o with Some s => Some s | None => old end.
Proof. by destruct o. Qed.

Lemma plain_or_default (o : option string) (old : string) :
  plain_option o → plain old → plain (default old o).
Proof. by destruct o. Qed.

(** X13. With an input and stored templates that hold no U+0000, a
    successful updateTemplate changes, on the caller's template with the
    given id, the fields the input has and [updatedAt]; the other fields,
    among them [userId], [isSystem] and [createdAt], keep their values;
    the changed row is returned and no other row changes.  The changed
    row holds no U+0000 either: the client reads it as it is stored. *)
Theorem updateTemplate_partial
    (rt : Runtime) (raw : RawInput) (input : UpdateTemplate.Input)
    (context : ActionAPIContext) (db db' : Db)
    (reply : Envelope (option PromptTemplates.row))
    (Hkeys : keys_unique db)
    (Hraw : plain_raw raw)
    (Hrows : Forall plain_template (templates db))
    (Hparse : UpdateTemplate.input raw = Some input)
    (Hrun : server.updateTemplate rt raw context db = (Ok reply, db')) :
  ∃ (user : App.User) (old : PromptTemplates.row),
    requireUser context = Ok user ∧
    old ∈ templates db ∧
    PromptTemplates.id old = UpdateTemplate.id input ∧
    PromptTemplates.userId old = App.id user ∧
    let new :=
      {| PromptTemplates.id := PromptTemplates.id old;
         PromptTemplates.collectionId :=
           match UpdateTemplate.collectionId input with
           | Some c => Some c
           | None => PromptTemplates.collectionId old
           end;
         PromptTemplates.userId := PromptTemplates.userId old;
         PromptTemplates.name :=
           default (PromptTemplates.name old) (UpdateTemplate.name input);
         PromptTemplates.description :=
           match UpdateTemplate.description input with
           | Some d => Some d
           | None => PromptTemplates.description old
           end;
         PromptTemplates.modelHint :=
           match UpdateTemplate.modelHint input with
           | Some m => Some m
           | None => PromptTemplates.modelHint old
           end;
         PromptTemplates.promptBody :=
           default (PromptTemplates.promptBody old)
                   (UpdateTemplate.promptBody input);
         PromptTemplates.tags :=
           match UpdateTemplate.tags input with
           | Some t => Some t
           | None => PromptTemplates.tags old
           end;
         PromptTemplates.isFavorite :=
           default (PromptTemplates.isFavorite old)
                   (UpdateTemplate.isFavorite input);
         PromptTemplates.isSystem := PromptTemplates.isSystem old;
         PromptTemplates.createdAt := PromptTemplates.createdAt old;
         PromptTemplates.updatedAt := now rt |} in
    reply = {| success := true; data := Some (Some new) |} ∧
    templates db' =
      (λ r, if decide (PromptTemplates.id r = UpdateTemplate.id input)
            then new else r) <$> templates db ∧
    collections db' = collections db ∧
    variables db' = variables db ∧
    plain_template new ∧
    Forall plain_template (templates db').
Proof.
  destruct Hkeys as (_ & Ht & _).
  unfold server.updateTemplate, defineAction in Hrun.
  rewrite Hparse in Hrun.
  unfold UpdateTemplate.handler, bind, lift, ret in Hrun.
  destruct (requireUser context) as [user|]; [|done].
  destruct (getOwnedTemplate _ _ db) as [[old|e] d] eqn:Hown; [|done].
  destruct (getOwnedTemplate_ok (UpdateTemplate.id input) (App.id user)
              db old) as (Hin & Hid & Hu); [by rewrite Hown|].
  rewrite getOwnedTemplate_run in Hown. injection Hown as _ <-.
  assert (Hupd : ∀ d, same_rows db d →
    (let (r, d') :=
       update_returning Templates
         (SetTemplates.set (UpdateTemplate.set_clause rt input))
         (eq_ PromptTemplates.id (UpdateTemplate.id input)) d in
     match r with
     | Ok a => (Ok {| success := true; data := Some (head a) |}, d')
     | Throw e => (Throw e, d')
     end) = (Ok reply, db') →
    reply = {| success := true;
               data := Some (Some (SetTemplates.set
                                     (UpdateTemplate.set_clause rt input)
                                     old)) |} ∧
    templates db' =
      (λ r, if decide (PromptTemplates.id r = UpdateTemplate.id input)
            then SetTemplates.set (UpdateTemplate.set_clause rt input) old
            else r) <$> templates db ∧
    collections db' = collections db ∧ variables db' = variables db).
  { intros d0 (Hc0 & Ht0 & Hv0). rewrite update_returning_decoded by done.
    cbv zeta. destruct (_ && _); [done|]. simpl. rewrite Ht0, <- Hid.
    rewrite (filter_key_unique PromptTemplates.id) by done.
    intros [= <- <-]. simpl.
    by rewrite (map_on_unique_key PromptTemplates.id). }
  assert (Hfacts :
    reply = {| success := true;
               data := Some (Some (SetTemplates.set
                                     (UpdateTemplate.set_clause rt input)
                                     old)) |} ∧
    templates db' =
      (λ r, if decide (PromptTemplates.id r = UpdateTemplate.id input)
            then SetTemplates.set (UpdateTemplate.set_clause rt input) old
            else r) <$> templates db ∧
    collections db' = collections db ∧ variables db' = variables db).
  { destruct (UpdateTemplate.collectionId input) as [c|].
    - rewrite getOwnedCollection_run in Hrun.
      destruct (head _); [|done].
      apply Hupd in Hrun; [done|by repeat split].
    - apply Hupd in Hrun; [done|by repeat split]. }
  rewrite updateTemplate_set_fields in Hfacts.
  destruct Hfacts as (Hreply & Htpls & Hcols & Hvars).
  exists user, old. do 4 (split; [done|]). cbv zeta.
  do 4 (split; [done|]).
  match type of Hreply with
  | _ = {| success := _; data := Some (Some ?r) |} => set (new := r) in *
  end.
  assert (Hnew : plain_template new).
  { destruct (updateTemplate_input_plain raw input Hraw Hparse)
      as (Pc & Pn & Pd & Pm & Pp & Pt).
    eapply Forall_forall in Hrows as (Ri & Rc & Ru & Rn & Rd & Rm & Rp & Rt);
      [|exact Hin].
    unfold plain_template, new. simpl.
    repeat split;
      first [done | by apply plain_or_kept | by apply plain_or_default]. }
  split; [done|]. rewrite Htpls. apply Forall_fmap.
  eapply Forall_impl; [exact Hrows|]. intros r Hr. simpl.
  by case_decide.
Qed.

(** X16. With an input and stored variables that hold no U+0000, a
    successful updatePromptVariable changes, on the variable with the
    given id under the given template of the caller's, the fields the
    input has; the other fields keep their values; the changed row is
    returned and no other row changes.  The changed row holds no U+0000
    and no integer the client cannot decode: the client reads it as it is
    stored. *)
Theorem updatePromptVariable_partial
    (raw : RawInput) (input : UpdatePromptVariable.Input)
    (context : ActionAPIContext) (db db' : Db)
    (reply : Envelope (option PromptVariables.row))
    (Hkeys : keys_unique db)
    (Hraw : plain_raw raw)
    (Hrows : Forall plain_variable (variables db))
    (Hparse : UpdatePromptVariable.input raw = Some input)
    (Hrun : server.updatePromptVariable raw context db = (Ok reply, db')) :
  ∃ (user : App.User) (tpl : PromptTemplates.row)
    (old : PromptVariables.row),
    requireUser context = Ok user ∧
    tpl ∈ templates db ∧
    PromptTemplates.id tpl = UpdatePromptVariable.templateId input ∧
    PromptTemplates.userId tpl = App.id user ∧
    old ∈ variables db ∧
    PromptVariables.id old = UpdatePromptVariable.id input ∧
    PromptVariables.templateId old = UpdatePromptVariable.templateId input ∧
    let new :=
      {| PromptVariables.id := PromptVariables.id old;
         PromptVariables.templateId := PromptVariables.templateId old;
         PromptVariables.name :=
           default (PromptVariables.name old)
                   (UpdatePromptVariable.name input);
         PromptVariables.label :=
           match UpdatePromptVariable.label input with
           | Some l => Some l
           | None => PromptVariables.label old
           end;
         PromptVariables.description :=
           match UpdatePromptVariable.description input with
           | Some d => Some d
           | None => PromptVariables.description old
           end;
         PromptVariables.inputType :=
           match UpdatePromptVariable.inputType input with
           | Some t => Some t
           | None => PromptVariables.inputType old
           end;
         PromptVariables.defaultValue :=
           match UpdatePromptVariable.defaultValue input with
           | Some d => Some d
           | None => PromptVariables.defaultValue old
           end;
         PromptVariables.optionsJson :=
           match UpdatePromptVariable.optionsJson input with
           | Some o => Some o
           | None => PromptVariables.optionsJson old
           end;
         PromptVariables.orderIndex :=
           match UpdatePromptVariable.orderIndex input with
           | Some o => Some o
           | None => PromptVariables.orderIndex old
           end;
         PromptVariables.createdAt := PromptVariables.createdAt old |} in
    reply = {| success := true; data := Some (Some new) |} ∧
    variables db' =
      (λ r, if decide (PromptVariables.id r = UpdatePromptVariable.id input)
            then new else r) <$> variables db ∧
    collections db' = collections db ∧
    templates db' = templates db ∧
    plain_variable new ∧ unsafe Variables new = false ∧
    Forall plain_variable (variables db').
Proof.
  destruct Hkeys as (_ & _ & Hv).
  unfold server.updatePromptVariable, defineAction in Hrun.
  rewrite Hparse in Hrun.
  unfold UpdatePromptVariable.handler, bind, lift, ret in Hrun.
  destruct (requireUser context) as [user|]; [|done].
  destruct (getOwnedTemplate _ _ db) as [[tpl|e] d] eqn:Hown; [|done].
  destruct (getOwnedTemplate_ok (UpdatePromptVariable.templateId input)
              (App.id user) db tpl) as (Hin & Hid & Hu);
    [by rewrite Hown|].
  rewrite getOwnedTemplate_run in Hown. injection Hown as _ <-.
  unfold select_where in Hrun. cbv zeta in Hrun.
  rewrite filter_and_pair in Hrun.
  destruct (existsb _ _); [done|].
  destruct (head _) as [old|] eqn:Hold; [|done].
  apply head_filter_pair in Hold as (Hold & Hoid & Hotpl).
  apply eq_spec in Hoid, Hotpl. simpl in Hold.
  rewrite update_returning_written in Hrun.
  2:{ intros r. simpl. by rewrite updatePromptVariable_set_fields. }
  unfold ret in Hrun. rewrite <- Hoid in Hrun.
  rewrite (filter_key_unique PromptVariables.id) in Hrun by done.
  cbn [fmap list_fmap existsb] in Hrun. rewrite orb_false_r in Hrun.
  destruct (unsafe Variables _) eqn:Hsafe in Hrun; [done|].
  rewrite updatePromptVariable_set_fields in Hsafe.
  injection Hrun as <- <-. cbn [head].
  exists user, tpl, old. do 7 (split; [done|]). cbv zeta.
  split; [by rewrite updatePromptVariable_set_fields|].
  match goal with
  | |- _ = (λ r, if _ then ?r0 else r) <$> _ ∧ _ => set (new := r0) in *
  end.
  cbn [variables collections templates set_rows Variables issue].
  assert (Hmap : (λ r, if eq_ PromptVariables.id (PromptVariables.id old) r
                       then SetVariables.set
                              (UpdatePromptVariable.set_clause input) r
                       else r) <$> variables db
                 = (λ r, if decide (PromptVariables.id r
                                    = UpdatePromptVariable.id input)
                         then new else r) <$> variables db).
  { rewrite (map_on_unique_key PromptVariables.id) by done.
    by rewrite updatePromptVariable_set_fields, <- Hoid. }
  assert (Hnew : plain_variable new).
  { destruct (updatePromptVariable_input_plain raw input Hraw Hparse)
      as (Pn & Pl & Pd & Pi & Pv & Po).
    eapply Forall_forall in Hrows
      as (Ri & Rt & Rn & Rl & Rd & Rit & Rv & Ro); [|exact Hold].
    unfold plain_variable, new. simpl.
    repeat split;
      first [done | by apply plain_or_kept | by apply plain_or_default]. }
  split; [exact Hmap|]. do 2 (split; [done|]).
  split; [done|]. split; [exact Hsafe|].
  rewrite Hmap. apply Forall_fmap.
  eapply Forall_impl; [exact Hrows|]. intros r Hr. simpl.
  by case_decide.
Qed.

(** ** Variables of a template *)

(** Resolving a template only reads the templates. *)
Lemma getOwnedTemplate_same_templates (templateId userId : string)
    (db d : Db) :
  templates d = templates db →
  getOwnedTemplate templateId userId d =
  ((getOwnedTemplate templateId userId db).1, issue (SELECT TTemplates) d).
Proof. intros H. by rewrite !getOwnedTemplate_run, H. Qed.

Lemma createPromptVariable_ok
    (rt : Runtime) (raw : RawInput) (input : CreatePromptVariable.Input)
    (context : ActionAPIContext) (db db' : Db)
    (reply : Envelope (option PromptVariables.row))
    (Hparse : CreatePromptVariable.input raw = Some input)
    (Hrun : server.createPromptVariable rt raw context db
            = (Ok reply, db')) :
  ∃ (user : App.User) (tpl : PromptTemplates.row),
    requireUser context = Ok user ∧
    tpl ∈ templates db ∧
    PromptTemplates.id tpl = CreatePromptVariable.templateId input ∧
    PromptTemplates.userId tpl = App.id user ∧
    (getOwnedTemplate (CreatePromptVariable.templateId input)
       (App.id user) db).1 = Ok tpl ∧
    let v :=
      {| PromptVariables.id := randomUUID rt;
         PromptVariables.templateId := CreatePromptVariable.templateId input;
         PromptVariables.name := CreatePromptVariable.name input;
         PromptVariables.label := CreatePromptVariable.label input;
         PromptVariables.description :=
           CreatePromptVariable.description input;
         PromptVariables.inputType := CreatePromptVariable.inputType input;
         PromptVariables.defaultValue :=
           CreatePromptVariable.defaultValue input;
         PromptVariables.optionsJson :=
           CreatePromptVariable.optionsJson input;
         PromptVariables.orderIndex := CreatePromptVariable.orderIndex input;
         PromptVariables.createdAt := now rt |} in
    reply = {| success := true; data := Some (Some v) |} ∧
    (randomUUID rt ∉ PromptVariables.id <$> variables db) ∧
    variables db' = variables db ++ [v] ∧
    collections db' = collections db ∧
    templates db' = templates db ∧
    unsafe Variables v = false.
Proof.
  unfold server.createPromptVariable, defineAction in Hrun.
  rewrite Hparse in Hrun.
  unfold CreatePromptVariable.handler, bind, lift, ret in Hrun.
  destruct (requireUser context) as [user|]; [|done].
  destruct (getOwnedTemplate _ _ db) as [[tpl|e] d] eqn:Hown; [|done].
  destruct (getOwnedTemplate_ok (CreatePromptVariable.templateId input)
              (App.id user) db tpl) as (Hin & Hid & Hu);
    [by rewrite Hown|].
  exists user, tpl. do 4 (split; [done|]). split; [by rewrite Hown|].
  rewrite getOwnedTemplate_run in Hown. injection Hown as _ <-.
  unfold insert_returning in Hrun. cbv zeta in Hrun.
  case_bool_decide as Hk; [done|].
  destruct (_ && _); [done|].
  destruct (unsafe Variables _) eqn:Hsafe in Hrun; [done|].
  by injection Hrun as <- <-.
Qed.

(** X17. With an input and a fresh identifier that hold no U+0000, a
    successful createPromptVariable has found the named template among the
    caller's; it appends, under an id that was free, a variable of that
    template with the fields of the input and the time of the call,
    returns it, and changes nothing else.  The variable holds no U+0000
    and no integer the client cannot decode: the client reads it as it is
    stored. *)
Theorem createPromptVariable_created
    (rt : Runtime) (raw : RawInput) (input : CreatePromptVariable.Input)
    (context : ActionAPIContext) (db db' : Db)
    (reply : Envelope (option PromptVariables.row))
    (Hraw : plain_raw raw)
    (Hfresh : plain (randomUUID rt))
    (Hparse : CreatePromptVariable.input raw = Some input)
    (Hrun : server.createPromptVariable rt raw context db
            = (Ok reply, db')) :
  ∃ (user : App.User) (tpl : PromptTemplates.row),
    requireUser context = Ok user ∧
    tpl ∈ templates db ∧
    PromptTemplates.id tpl = CreatePromptVariable.templateId input ∧
    PromptTemplates.userId tpl = App.id user ∧
    (getOwnedTemplate (CreatePromptVariable.templateId input)
       (App.id user) db).1 = Ok tpl ∧
    let v :=
      {| PromptVariables.id := randomUUID rt;
         PromptVariables.templateId := CreatePromptVariable.templateId input;
         PromptVariables.name := CreatePromptVariable.name input;
         PromptVariables.label := CreatePromptVariable.label input;
         PromptVariables.description :=
           CreatePromptVariable.description input;
         PromptVariables.inputType := CreatePromptVariable.inputType input;
         PromptVariables.defaultValue :=
           CreatePromptVariable.defaultValue input;
         PromptVariables.optionsJson :=
           CreatePromptVariable.optionsJson input;
         PromptVariables.orderIndex := CreatePromptVariable.orderIndex input;
         PromptVariables.createdAt := now rt |} in
    reply = {| success := true; data := Some (Some v) |} ∧
    (randomUUID rt ∉ PromptVariables.id <$> variables db) ∧
    variables db' = variables db ++ [v] ∧
    collections db' = collections db ∧
    templates db' = templates db ∧
    plain_variable v ∧ unsafe Variables v = false.
Proof.
  destruct (createPromptVariable_ok rt raw input context db db' reply
              Hparse Hrun)
    as (user & tpl & Huser & Hin & Hid & Hu & Hown & Hreply & Hfree &
        Hvars & Hcols & Htpls & Hsafe).
  exists user, tpl. do 5 (split; [done|]). cbv zeta.
  do 5 (split; [done|]). split; [|done].
  destruct (createPromptVariable_input_plain raw input Hraw Hparse)
    as (Pt & Pn & Pl & Pd & Pi & Pv & Po).
  by repeat split.
Qed.

Lemma existsb_cases {R} (p : R → bool) (l : list R) :
  (existsb p l = true ∧ Exists (λ r, p r = true) l) ∨
  (existsb p l = false ∧ Forall (λ r, p r = false) l).
Proof.
  induction l as [|x l IH]; simpl; [right; by split|].
  destruct (p x) eqn:Hx; simpl.
  - left. split; [done|]. by apply Exists_cons_hd.
  - destruct IH as [[-> H] | [-> H]]; [left|right]; split; try done.
    + by apply Exists_cons_tl.
    + by apply Forall_cons.
Qed.

(** listPromptVariables once the template resolved: the variables of the
    template, or the failure to decode one of them. *)
Lemma listPromptVariables_run
    (raw : RawInput) (input : ListPromptVariables.Input)
    (context : ActionAPIContext) (user : App.User) (db : Db)
    (tpl : PromptTemplates.row)
    (Hparse : ListPromptVariables.input raw = Some input)
    (Huser : requireUser context = Ok user)
    (Hown : (getOwnedTemplate (ListPromptVariables.templateId input)
               (App.id user) db).1 = Ok tpl) :
  let listed :=
    filter (λ v, PromptVariables.templateId v
                 = ListPromptVariables.templateId input) (variables db) in
  server.listPromptVariables raw context db =
  (if existsb (unsafe Variables) listed then Throw RangeError
   else Ok {| success := true;
              data := Some {| items := listed; total := length listed |} |},
   issue (SELECT TVariables) (issue (SELECT TTemplates) db)).
Proof.
  intros listed.
  unfold server.listPromptVariables, defineAction. rewrite Hparse.
  unfold ListPromptVariables.handler, bind, lift, ret, select_where.
  rewrite Huser.
  rewrite (getOwnedTemplate_same_templates _ _ db db eq_refl), Hown.
  cbv zeta.
  assert (Hl : filter (eq_ PromptVariables.templateId
                         (ListPromptVariables.templateId input))
                 (rows Variables (issue (SELECT TTemplates) db)) = listed).
  { apply list_filter_iff. intros v. apply eq_spec. }
  rewrite Hl. by destruct (existsb _ _).
Qed.

(** X18. For a signed-in caller who owns the named template,
    listPromptVariables reads the variables that have that [templateId].
    When none of them holds an integer the client cannot decode, it
    succeeds with them, in table order, and [total] is their number;
    when one does, it fails with [RangeError].  Either way it issues its
    two selects and nothing else. *)
Theorem listPromptVariables_items
    (raw : RawInput) (input : ListPromptVariables.Input)
    (context : ActionAPIContext) (user : App.User) (db : Db)
    (tpl : PromptTemplates.row)
    (Hparse : ListPromptVariables.input raw = Some input)
    (Huser : requireUser context = Ok user)
    (Hown : (getOwnedTemplate (ListPromptVariables.templateId input)
               (App.id user) db).1 = Ok tpl) :
  let listed :=
    filter (λ v, PromptVariables.templateId v
                 = ListPromptVariables.templateId input) (variables db) in
  let db' := issue (SELECT TVariables) (issue (SELECT TTemplates) db) in
  (Forall (λ v, unsafe Variables v = false) listed →
   ∃ page : Page PromptVariables.row,
     server.listPromptVariables raw context db =
       (Ok {| success := true; data := Some page |}, db') ∧
     items page = listed ∧
     (∀ v, v ∈ items page ↔
           v ∈ variables db ∧
           PromptVariables.templateId v
           = ListPromptVariables.templateId input) ∧
     total page = length (items page)) ∧
  (Exists (λ v, unsafe Variables v = true) listed →
   server.listPromptVariables raw context db = (Throw RangeError, db')).
Proof.
  intros listed db'.
  rewrite (listPromptVariables_run raw input context user db tpl
             Hparse Huser Hown).
  fold listed. fold db'.
  destruct (existsb_cases (unsafe Variables) listed)
    as [[-> Hsome] | [-> Hnone]]; split.
  - intros Hall. exfalso. apply Exists_exists in Hsome as (v & Hv & Hbad).
    eapply Forall_forall in Hall; [|exact Hv]. congruence.
  - done.
  - intros _. eexists. split; [reflexivity|]. simpl.
    split; [done|]. split; [|done].
    intros v. unfold listed. by rewrite list_elem_of_filter, (comm and).
  - intros Hsome. exfalso. apply Exists_exists in Hsome as (v & Hv & Hbad).
    eapply Forall_forall in Hnone; [|exact Hv]. congruence.
Qed.

(** deletePromptVariable once the template resolved. *)
Lemma deletePromptVariable_run (raw : RawInput)
    (input : DeletePromptVariable.Input) (context : ActionAPIContext)
    (user : App.User) (db : Db) (tpl : PromptTemplates.row) :
  DeletePromptVariable.input raw = Some input →
  requireUser context = Ok user →
  (getOwnedTemplate (DeletePromptVariable.templateId input)
     (App.id user) db).1 = Ok tpl →
  let hit :=
    filter (eq_ PromptVariables.templateId
              (DeletePromptVariable.templateId input))
      (filter (eq_ PromptVariables.id (DeletePromptVariable.id input))
         (variables db)) in
  server.deletePromptVariable raw context db =
  (if bool_decide (length hit = 0%nat)
   then Throw (ActionError NOT_FOUND "Prompt variable not found.")
   else Ok {| success := true; data := None |},
   set_rows Variables
     (filter (λ r, negb (and_
        [eq_ PromptVariables.id (DeletePromptVariable.id input);
         eq_ PromptVariables.templateId
           (DeletePromptVariable.templateId input)] r)) (variables db))
     (issue (DELETE TVariables) (issue (SELECT TTemplates) db))).
Proof.
  intros Hparse Huser Hown hit.
  unfold server.deletePromptVariable, defineAction. rewrite Hparse.
  unfold DeletePromptVariable.handler, bind, lift, ret, throw.
  rewrite Huser.
  rewrite (getOwnedTemplate_same_templates _ _ db db eq_refl), Hown.
  unfold delete_where. rewrite filter_and_pair. fold hit. simpl.
  by destruct (bool_decide _).
Qed.

Lemma filter_fresh_key {R} (key : R → string) (c : Cond R) (l : list R)
    (r : R) :
  key r ∉ key <$> l →
  filter (λ x, eq_ key (key r) x && c x) (l ++ [r])
  = (if c r then [r] else []) ∧
  filter (λ x, negb (eq_ key (key r) x && c x)) (l ++ [r])
  = l ++ (if c r then [] else [r]).
Proof.
  intros Hfresh.
  assert (Hl : Forall (λ x, ¬ eq_ key (key r) x) l).
  { apply Forall_forall. intros x Hx Hk%eq_spec. apply Hfresh.
    rewrite <- Hk. by apply list_elem_of_fmap_2. }
  assert (Hr : eq_ key (key r) r = true).
  { unfold eq_. by rewrite bool_decide_eq_true_2. }
  assert (Hnone : filter (λ x, eq_ key (key r) x && c x) l = []).
  { apply (filter_no_match (λ x, eq_ key (key r) x && c x)). intros x Hx.
    eapply Forall_forall in Hl; [|done]. by intros [? _]%andb_True. }
  rewrite !filter_app. split.
  - rewrite Hnone. destruct (c r) eqn:Hc.
    + rewrite filter_cons_True; [reflexivity|]. simpl.
      rewrite Hr, Hc. exact I.
    + rewrite filter_cons_False; [reflexivity|]. simpl.
      rewrite Hr, Hc. tauto.
  - rewrite (filter_none_keeps_all (λ x, eq_ key (key r) x && c x))
      by done.
    f_equal. destruct (c r) eqn:Hc.
    + rewrite filter_cons_False; [reflexivity|]. simpl.
      rewrite Hr, Hc. tauto.
    + rewrite filter_cons_True; [reflexivity|]. simpl.
      rewrite Hr, Hc. exact I.
Qed.

Lemma filter_pair_as_andb {R} (c1 c2 : Cond R) (l : list R) :
  filter c2 (filter c1 l) = filter (λ x, c1 x && c2 x) l ∧
  filter (λ r, negb (and_ [c1; c2] r)) l
  = filter (λ x, negb (c1 x && c2 x)) l.
Proof.
  split.
  - rewrite list_filter_filter. apply list_filter_iff. intros x.
    rewrite andb_True. tauto.
  - apply list_filter_iff. intros x. unfold and_. simpl.
    by rewrite andb_true_r.
Qed.

(** X19. When no variable of the template holds an integer the client
    cannot decode, a variable that was just created is listed under its
    template; a deletePromptVariable with its id and template then
    succeeds and leaves the variables as they were before the creation;
    it is listed no more, and deleting it again fails with NOT_FOUND. *)
Theorem variable_created_listed_deleted
    (rt : Runtime) (raw raw_list raw_delete : RawInput)
    (input : CreatePromptVariable.Input)
    (context : ActionAPIContext) (db db1 : Db)
    (reply : Envelope (option PromptVariables.row))
    (Hparse : CreatePromptVariable.input raw = Some input)
    (Hrun : server.createPromptVariable rt raw context db = (Ok reply, db1))
    (Hsafe : Forall (λ x, PromptVariables.templateId x
                          = CreatePromptVariable.templateId input →
                          unsafe Variables x = false) (variables db))
    (Hlist : ListPromptVariables.input raw_list =
             Some {| ListPromptVariables.templateId :=
                       CreatePromptVariable.templateId input |})
    (Hdelete : DeletePromptVariable.input raw_delete =
               Some {| DeletePromptVariable.id := randomUUID rt;
                       DeletePromptVariable.templateId :=
                         CreatePromptVariable.templateId input |}) :
  ∃ v : PromptVariables.row,
    reply = {| success := true; data := Some (Some v) |} ∧
    PromptVariables.id v = randomUUID rt ∧
    (∃ page,
       (server.listPromptVariables raw_list context db1).1
       = Ok {| success := true; data := Some page |} ∧
       v ∈ items page) ∧
    let deleted := server.deletePromptVariable raw_delete context db1 in
    deleted.1 = Ok {| success := true; data := None |} ∧
    variables deleted.2 = variables db ∧
    (∃ page,
       (server.listPromptVariables raw_list context deleted.2).1
       = Ok {| success := true; data := Some page |} ∧
       v ∉ items page) ∧
    (server.deletePromptVariable raw_delete context deleted.2).1
    = Throw (ActionError NOT_FOUND "Prompt variable not found.").
Proof.
  destruct (createPromptVariable_ok rt raw input context db db1 reply
              Hparse Hrun)
    as (user & tpl & Huser & Hin & Hid & Hu & Hown & Hreply & Hfresh &
        Hvars & Hcols & Htpls & Hdecoded).
  match type of Hreply with
  | _ = {| success := _; data := Some (Some ?r) |} => set (v := r) in *
  end.
  set (T := CreatePromptVariable.templateId input) in *.
  assert (Hown1 : (getOwnedTemplate T (App.id user) db1).1 = Ok tpl).
  { by rewrite (getOwnedTemplate_same_templates _ _ db db1 Htpls). }
  assert (Hlisted : ∀ d, templates d = templates db →
    (∀ x, x ∈ variables d → x ∈ variables db ∨ x = v) →
    ∃ page,
      (server.listPromptVariables raw_list context d).1
      = Ok {| success := true; data := Some page |} ∧
      ∀ x, x ∈ items page ↔
           x ∈ variables d ∧ PromptVariables.templateId x = T).
  { intros d Hd Hsub.
    assert (Hownd : (getOwnedTemplate T (App.id user) d).1 = Ok tpl).
    { by rewrite (getOwnedTemplate_same_templates _ _ db d Hd). }
    rewrite (listPromptVariables_run raw_list _ context user d tpl
               Hlist Huser Hownd).
    cbn [ListPromptVariables.templateId]. cbv zeta.
    destruct (existsb_cases (unsafe Variables)
                (filter (λ x, PromptVariables.templateId x = T)
                   (variables d))) as [[_ Hbad] | [-> _]].
    - exfalso. apply Exists_exists in Hbad as (x & Hx & Hbad).
      apply list_elem_of_filter in Hx as [HxT Hx].
      destruct (Hsub x Hx) as [Hdb | ->]; [|congruence].
      eapply Forall_forall in Hsafe; [|exact Hdb].
      rewrite Hsafe in Hbad; done.
    - eexists. split; [reflexivity|]. simpl. intros x.
      by rewrite list_elem_of_filter, (comm and). }
  exists v. split; [done|]. split; [done|]. split.
  { destruct (Hlisted db1 Htpls) as (page & -> & Hitems).
    { intros x. rewrite Hvars, elem_of_app, list_elem_of_singleton. tauto. }
    exists page. split; [done|]. apply Hitems. rewrite Hvars.
    split; [|done]. apply elem_of_app. right. by apply list_elem_of_singleton. }
  assert (Hfresh' : PromptVariables.id v
                    ∉ PromptVariables.id <$> variables db) by done.
  destruct (filter_fresh_key PromptVariables.id
              (eq_ PromptVariables.templateId T) (variables db) v Hfresh')
    as (Hhit & Hrest).
  assert (Htv : eq_ PromptVariables.templateId T v = true).
  { unfold eq_. by rewrite bool_decide_eq_true_2. }
  rewrite Htv in Hhit, Hrest. rewrite app_nil_r in Hrest.
  pose proof (deletePromptVariable_run raw_delete _ context user db1 tpl
                Hdelete Huser Hown1) as Hdel.
  cbn [DeletePromptVariable.id DeletePromptVariable.templateId] in Hdel.
  cbv zeta in Hdel.
  destruct (filter_pair_as_andb (eq_ PromptVariables.id (randomUUID rt))
              (eq_ PromptVariables.templateId T) (variables db1))
    as (E1 & E2).
  rewrite E1, E2, Hvars in Hdel.
  change (randomUUID rt) with (PromptVariables.id v) in Hdel.
  rewrite Hhit, Hrest in Hdel.
  rewrite bool_decide_eq_false_2 in Hdel by done.
  rewrite Hdel. cbv zeta. cbn [fst snd].
  split; [done|]. split; [done|].
  set (db2 := set_rows Variables (variables db)
                (issue (DELETE TVariables) (issue (SELECT TTemplates) db1))).
  assert (Hown2 : (getOwnedTemplate T (App.id user) db2).1 = Ok tpl).
  { by rewrite (getOwnedTemplate_same_templates _ _ db db2 Htpls). }
  split.
  - destruct (Hlisted db2 Htpls) as (page & -> & Hitems).
    { intros x Hx. by left. }
    exists page. split; [done|]. intros [Hv _]%Hitems. apply Hfresh'.
    by apply list_elem_of_fmap_2.
  - rewrite (deletePromptVariable_run raw_delete _ context user db2 tpl
               Hdelete Huser Hown2).
    cbn [DeletePromptVariable.id DeletePromptVariable.templateId fst].
    cbv zeta.
    destruct (filter_pair_as_andb (eq_ PromptVariables.id (randomUUID rt))
                (eq_ PromptVariables.templateId T) (variables db))
      as (F1 & _).
    change (variables db2) with (variables db).
    rewrite F1.
    rewrite (filter_no_match
               (λ x, eq_ PromptVariables.id (randomUUID rt) x &&
                     eq_ PromptVariables.templateId T x)); [done|].
    intros x Hx [Hk _]%andb_True. apply eq_spec in Hk. apply Hfresh'.
    simpl. rewrite <- Hk. by apply list_elem_of_fmap_2.
Qed.

(** ** Updates that go through *)

Lemma existsb_none {A} (p : A → bool) (l : list A) :
  (∀ x, p x = false) → existsb p l = false.
Proof.
  intros H. induction l as [|x l IH]; simpl; [done|]. by rewrite H, IH.
Qed.

Lemma getOwnedTemplate_owned (db d : Db) (user : string)
    (old : PromptTemplates.row) :
  NoDup (PromptTemplates.id <$> templates db) →
  templates d = templates db → old ∈ templates db →
  PromptTemplates.userId old = user →
  getOwnedTemplate (PromptTemplates.id old) user d
  = (Ok old, issue (SELECT TTemplates) d).
Proof.
  intros Hnd Hd Hold Hown. rewrite getOwnedTemplate_run, Hd.
  rewrite (filter_key_unique PromptTemplates.id) by done. simpl.
  by rewrite bool_decide_eq_false_2 by (intros H; by apply H).
Qed.

Lemma updateTemplate_owned
    (rt : Runtime) (raw : RawInput) (input : UpdateTemplate.Input)
    (context : ActionAPIContext) (user : App.User) (db : Db)
    (old : PromptTemplates.row) :
  keys_unique db →
  UpdateTemplate.input raw = Some input →
  requireUser context = Ok user →
  old ∈ templates db →
  PromptTemplates.id old = UpdateTemplate.id input →
  PromptTemplates.userId old = App.id user →
  (∀ c, UpdateTemplate.collectionId input = Some c →
        ∃ col, col ∈ collections db ∧ PromptCollections.id col = c ∧
               PromptCollections.userId col = App.id user) →
  let new := SetTemplates.set (UpdateTemplate.set_clause rt input) old in
  ∃ db',
    server.updateTemplate rt raw context db =
      (Ok {| success := true; data := Some (Some new) |}, db') ∧
    templates db' =
      (λ r, if decide (PromptTemplates.id r = UpdateTemplate.id input)
            then new else r) <$> templates db ∧
    collections db' = collections db ∧
    variables db' = variables db.
Proof.
  intros (_ & Ht & _) Hparse Huser Hold Hid Hown Hcol new.
  unfold server.updateTemplate, defineAction. rewrite Hparse.
  unfold UpdateTemplate.handler, bind, lift, ret. rewrite Huser, <- Hid.
  rewrite (getOwnedTemplate_owned db db) by done.
  assert (Hupd : ∀ d, same_rows db d →
    update_returning Templates
      (SetTemplates.set (UpdateTemplate.set_clause rt input))
      (eq_ PromptTemplates.id (PromptTemplates.id old)) d
    = (Ok [new],
       set_rows Templates
         ((λ r, if decide (PromptTemplates.id r = PromptTemplates.id old)
                then new else r) <$> templates db)
         (issue (UPDATE TTemplates) d))).
  { intros d (Hc & Htd & Hv). unfold update_returning.
    rewrite existsb_none.
    - rewrite andb_false_r. simpl. rewrite Htd.
      rewrite (filter_key_unique PromptTemplates.id) by done.
      by rewrite (map_on_unique_key PromptTemplates.id).
    - intros r. rewrite updateTemplate_set_fields. unfold fk_ok. simpl.
      destruct (UpdateTemplate.collectionId input) as [c|] eqn:Ec.
      + destruct (Hcol c eq_refl) as (col & Hin & Hcid & _).
        rewrite (bool_decide_eq_true_2 (c ∈ _)); [by rewrite andb_false_r|].
        rewrite Hc, <- Hcid. by apply list_elem_of_fmap_2.
      + by rewrite bool_decide_eq_false_2 by (intros H; by apply H). }
  destruct (UpdateTemplate.collectionId input) as [c|] eqn:Ec.
  - destruct (Hcol c eq_refl) as (col & Hin & Hcid & Hcown).
    rewrite getOwnedCollection_run. simpl.
    destruct (head _) as [col'|] eqn:Hhead.
    + rewrite Hupd by by repeat split. simpl. eexists. by repeat split.
    + exfalso.
      assert (col ∈ filter (eq_ PromptCollections.userId (App.id user))
                (filter (eq_ PromptCollections.id c) (collections db)))
        as Hf.
      { apply list_elem_of_filter. split; [by apply eq_spec|].
        apply list_elem_of_filter. split; [by apply eq_spec|done]. }
      destruct (filter _ (filter _ _)); [by apply elem_of_nil in Hf|done].
  - rewrite Hupd by by repeat split. simpl. eexists. by repeat split.
Qed.

(** X14. updateTemplate by a signed-in caller on a template of the caller's,
    naming no collection or one of the caller's, succeeds whatever the
    accepted input: the store does not refuse it, and the reply holds the
    row as changed. *)
Theorem updateTemplate_succeeds
    (rt : Runtime) (raw : RawInput) (input : UpdateTemplate.Input)
    (context : ActionAPIContext) (user : App.User) (db : Db)
    (old : PromptTemplates.row)
    (Hkeys : keys_unique db)
    (Hparse : UpdateTemplate.input raw = Some input)
    (Huser : requireUser context = Ok user)
    (Hold : old ∈ templates db)
    (Hid : PromptTemplates.id old = UpdateTemplate.id input)
    (Hown : PromptTemplates.userId old = App.id user)
    (Hcol : ∀ c, UpdateTemplate.collectionId input = Some c →
              ∃ col, col ∈ collections db ∧ PromptCollections.id col = c ∧
                     PromptCollections.userId col = App.id user) :
  let new := SetTemplates.set (UpdateTemplate.set_clause rt input) old in
  ∃ db',
    server.updateTemplate rt raw context db =
      (Ok {| success := true; data := Some (Some new) |}, db') ∧
    templates db' =
      (λ r, if decide (PromptTemplates.id r = UpdateTemplate.id input)
            then new else r) <$> templates db ∧
    collections db' = collections db ∧
    variables db' = variables db.
Proof. by apply (updateTemplate_owned rt raw input context user db old). Qed.

Lemma string_min1_accepts (s : string) :
  s ≠ EmptyString → z.string_min1 (JStr s) = Some s.
Proof.
  intros H. unfold z.string_min1. simpl. case_decide as Hl; [done|].
  destruct s; [done|]. simpl in Hl. lia.
Qed.

Lemma createTemplate_input_text (raw : RawInput)
    (input : CreateTemplate.Input) :
  CreateTemplate.input raw = Some input →
  CreateTemplate.name input ≠ EmptyString ∧
  CreateTemplate.promptBody input ≠ EmptyString.
Proof.
  unfold CreateTemplate.input, z.object. destruct raw as [v|o]; [done|].
  intros H.
  destruct (z.optional z.string (field o "collectionId")); simpl in H;
    [|done].
  destruct (z.string_min1 (field o "name")) as [n|] eqn:En; simpl in H;
    [|done].
  destruct (z.optional z.string (field o "description")); simpl in H;
    [|done].
  destruct (z.optional z.string (field o "modelHint")); simpl in H;
    [|done].
  destruct (z.string_min1 (field o "promptBody")) as [p|] eqn:Ep;
    simpl in H; [|done].
  destruct (z.optional z.string (field o "tags")); simpl in H; [|done].
  destruct (z.optional z.boolean (field o "isFavorite")); simpl in H;
    [|done].
  injection H as <-. simpl.
  split; by eapply string_min1_nonempty.
Qed.

(** X15. The schema of createTemplate lets no empty [name] or [promptBody]
    through, but updateTemplate does: the owner of a template can set both
    to the empty string, and the call succeeds and stores them. *)
Theorem template_text_checked_on_create_only
    (rt : Runtime) (user : string) (db : Db) (old : PromptTemplates.row)
    (Hkeys : keys_unique db)
    (Hold : old ∈ templates db)
    (Hown : PromptTemplates.userId old = user)
    (Hid : PromptTemplates.id old ≠ EmptyString) :
  (∀ raw input, CreateTemplate.input raw = Some input →
     CreateTemplate.name input ≠ EmptyString ∧
     CreateTemplate.promptBody input ≠ EmptyString) ∧
  ∃ new db',
    server.updateTemplate rt
      (object_of [("id", JStr (PromptTemplates.id old));
                  ("name", JStr EmptyString);
                  ("promptBody", JStr EmptyString)])
      (signed_in user) db
    = (Ok {| success := true; data := Some (Some new) |}, db') ∧
    new ∈ templates db' ∧
    PromptTemplates.id new = PromptTemplates.id old ∧
    PromptTemplates.name new = EmptyString ∧
    PromptTemplates.promptBody new = EmptyString.
Proof.
  split; [apply createTemplate_input_text|].
  set (raw := object_of _).
  set (input := {| UpdateTemplate.id := PromptTemplates.id old;
                   UpdateTemplate.collectionId := None;
                   UpdateTemplate.name := Some EmptyString;
                   UpdateTemplate.description := None;
                   UpdateTemplate.modelHint := None;
                   UpdateTemplate.promptBody := Some EmptyString;
                   UpdateTemplate.tags := None;
                   UpdateTemplate.isFavorite := None |}).
  assert (Hparse : UpdateTemplate.input raw = Some input).
  { unfold UpdateTemplate.input, z.refine, z.object, raw, object_of.
    change (field _ "id") with (JStr (PromptTemplates.id old)).
    rewrite string_min1_accepts by done. reflexivity. }
  destruct (updateTemplate_owned rt raw input (signed_in user)
              {| App.id := user |} db old Hkeys Hparse eq_refl Hold
              eq_refl Hown) as (db' & Hrun & Ht & _).
  { intros c [=]. }
  eexists _, db'. split; [exact Hrun|].
  rewrite updateTemplate_set_fields. simpl. split; [|done].
  rewrite Ht. apply list_elem_of_fmap. exists old. split; [|done].
  rewrite decide_True by done. by rewrite updateTemplate_set_fields.
Qed.

(** ** The names of the collections *)

(** A name that is read back non-empty. *)
Lemma plain_name_read (n : string) :
  plain n → n ≠ EmptyString → cut n ≠ EmptyString.
Proof. intros Hn. by rewrite Hn. Qed.

Lemma createCollection_names (rt : Runtime) (raw : RawInput)
    (context : ActionAPIContext) (db : Db) :
  plain_raw raw →
  Forall (λ c, cut (PromptCollections.name c) ≠ EmptyString)
         (collections db) →
  Forall (λ c, cut (PromptCollections.name c) ≠ EmptyString)
         (collections (server.createCollection rt raw context db).2).
Proof.
  intros Hraw H. unfold server.createCollection, defineAction.
  destruct (CreateCollection.input raw) as [input|] eqn:Hparse; [|done].
  unfold CreateCollection.handler, bind, lift, ret.
  destruct (requireUser context) as [user|]; [|done].
  rewrite insert_returning_decoded by done. cbv zeta. simpl.
  case_bool_decide; [done|]. rewrite andb_false_r. simpl.
  apply Forall_app. split; [done|]. apply Forall_singleton. simpl.
  apply plain_name_read.
  - by eapply createCollection_input_plain.
  - by eapply createCollection_input_name.
Qed.

Lemma updateCollection_names (rt : Runtime) (raw : RawInput)
    (context : ActionAPIContext) (db : Db) :
  plain_raw raw →
  Forall (λ c, cut (PromptCollections.name c) ≠ EmptyString)
         (collections db) →
  Forall (λ c, cut (PromptCollections.name c) ≠ EmptyString)
         (collections (server.updateCollection rt raw context db).2).
Proof.
  intros Hraw H. unfold server.updateCollection, defineAction.
  destruct (UpdateCollection.input raw) as [input|] eqn:Hparse; [|done].
  unfold UpdateCollection.handler, bind, lift, ret.
  destruct (requireUser context) as [user|]; [|done].
  rewrite getOwnedCollection_run.
  destruct (head _) as [old|]; [|done].
  rewrite update_returning_run by done. simpl.
  apply Forall_fmap. eapply Forall_impl; [exact H|].
  intros r Hr. simpl. destruct (eq_ _ _ r); [|done].
  rewrite updateCollection_set_fields. simpl.
  pose proof (updateCollection_input_plain raw input Hraw Hparse) as Hn.
  destruct (UpdateCollection.name input) as [n|] eqn:En; [|done].
  simpl. apply plain_name_read; [done|].
  by eapply updateCollection_input_name.
Qed.

Lemma collection_names_step (call : Call) (db : Db) :
  plain_raw (raw_of call) →
  Forall (λ c, cut (PromptCollections.name c) ≠ EmptyString)
         (collections db) →
  Forall (λ c, cut (PromptCollections.name c) ≠ EmptyString)
         (collections (perform call db)).
Proof.
  destruct call; simpl;
    [apply createCollection_names | apply updateCollection_names | ..];
    intros _; unfold_actions; cases_of_action; by simpl.
Qed.

(** X11. A collection name is read back non-empty.  From a store where the
    name of every collection, cut at its first U+0000 as the client reads
    it, is non-empty, every sequence of calls whose inputs hold no U+0000
    leads to such a store. *)
Theorem collection_names_stay_nonempty (calls : list Call) (db : Db)
    (Hplain : Forall (λ call, plain_raw (raw_of call)) calls)
    (H : Forall (λ c, cut (PromptCollections.name c) ≠ EmptyString)
                (collections db)) :
  Forall (λ c, cut (PromptCollections.name c) ≠ EmptyString)
         (collections (perform_all calls db)).
Proof.
  unfold perform_all. revert db H.
  induction Hplain as [|call calls Hcall _ IH]; simpl; intros db H; [done|].
  by apply IH, collection_names_step.
Qed.

(** A name that starts with U+0000 passes [min(1)]: the collection is
    created, and its name is read back empty. *)
Example createCollection_name_cut :
  let raw := object_of [("name", JStr (String Ascii.zero "x"))] in
  let run :=
    server.createCollection sample_rt raw (signed_in "alice")
      (sample_db true) in
  ¬ plain_raw raw ∧
  ∃ c, run.1 = Ok {| success := true; data := Some (Some c) |} ∧
       c ∈ collections run.2 ∧
       cut (PromptCollections.name c) = EmptyString.
Proof.
  split.
  - intros H. specialize (H "name" _ eq_refl). discriminate H.
  - eexists. split; [reflexivity|]. split; [|reflexivity].
    vm_compute. by repeat constructor.
Qed.

(** A variable created with an [orderIndex] of 2^53 is stored, and the call
    fails when its row is decoded.  Listing the variables of its template
    and updating it then fail the same way; deleting it succeeds, after
    which the variables are listed again. *)
Example scenario_undecodable_variable :
  let context := signed_in "alice" in
  let created :=
    server.createPromptVariable sample_rt
      (object_of [("templateId", JStr "t1"); ("name", JStr "level");
                  ("orderIndex", JNum (2 ^ 53))])
      context (sample_db true) in
  let listed :=
    server.listPromptVariables (object_of [("templateId", JStr "t1")])
      context created.2 in
  let updated :=
    server.updatePromptVariable
      (object_of [("id", JStr "n1"); ("templateId", JStr "t1");
                  ("orderIndex", JNum 1)])
      context created.2 in
  let deleted :=
    server.deletePromptVariable
      (object_of [("id", JStr "n1"); ("templateId", JStr "t1")])
      context created.2 in
  created.1 = Throw RangeError ∧
  PromptVariables.id <$> variables created.2 = ["v1"; "v2"; "n1"] ∧
  listed.1 = Throw RangeError ∧
  updated.1 = Throw RangeError ∧
  variables updated.2 = variables created.2 ∧
  deleted.1 = Ok {| success := true; data := None |} ∧
  variables deleted.2 = variables (sample_db true) ∧
  (server.listPromptVariables (object_of [("templateId", JStr "t1")])
     context deleted.2).1
  = Ok {| success := true;
          data := Some {| items := [topic_of_explain]; total := 1 |} |}.
Proof. repeat split; vm_compute; reflexivity. Qed.

(** ** Further properties on the sample store *)

Lemma rows_changed_by_owner_only_witness :
  let call :=
    UpdateCollection sample_rt
      (object_of [("id", JStr "c1"); ("name", JStr "Mine")])
      (signed_in "bob") in
  collections (perform call (sample_db true)) !! 0%nat = Some alice_coding ∧
  templates (perform call (sample_db true)) !! 0%nat = Some alice_explain.
Proof.
  intros call.
  assert (Hk : keys_unique (sample_db true)) by sample_keys.
  destruct (rows_changed_by_owner_only call (sample_db true) Hk) as (A & B).
  split.
  - destruct (A 0%nat alice_coding eq_refl) as [H | (u & Hu & Hown)];
      [exact H|]. injection Hu as <-. discriminate Hown.
  - destruct (B 0%nat alice_explain eq_refl) as [H | (u & Hu & Hown)];
      [exact H|]. injection Hu as <-. discriminate Hown.
Defined.

Lemma variables_changed_by_owner_only_witness :
  topic_of_explain ∈
  variables
    (perform (DeletePromptVariable
                (object_of [("id", JStr "v1"); ("templateId", JStr "t1")])
                (signed_in "bob"))
             (sample_db true)).
Proof.
  assert (Hk : keys_unique (sample_db true)) by sample_keys.
  assert (Hv : topic_of_explain ∈ variables (sample_db true))
    by repeat constructor.
  destruct (variables_changed_by_owner_only
              (DeletePromptVariable
                 (object_of [("id", JStr "v1"); ("templateId", JStr "t1")])
                 (signed_in "bob"))
              (sample_db true) topic_of_explain Hk Hv)
    as [H | (u & tpl & Hu & Hin & Hid & Hown)]; [exact H|].
  exfalso. injection Hu as <-. simpl in Hin, Hown.
  repeat (apply elem_of_cons in Hin as [->|Hin]; [discriminate|]).
  by apply elem_of_nil in Hin.
Defined.

Lemma collection_names_stay_nonempty_witness :
  Forall (λ c, cut (PromptCollections.name c) ≠ EmptyString)
         (collections (perform_all sample_calls (sample_db true))).
Proof.
  apply collection_names_stay_nonempty.
  - repeat (apply Forall_cons; split; [decided|]). apply Forall_nil_2.
  - repeat (apply Forall_cons; split; [discriminate|]). apply Forall_nil_2.
Defined.

Lemma templates_stay_non_system_witness :
  Forall (λ t, PromptTemplates.isSystem t = false)
         (templates (perform_all sample_calls (sample_db true))).
Proof.
  apply templates_stay_non_system.
  repeat (apply Forall_cons; split; [reflexivity|]). apply Forall_nil_2.
Defined.

Lemma variables_keep_a_template_witness :
  let db' := perform_all sample_calls (sample_db false) in
  Forall (λ v, PromptVariables.templateId v
               ∈ PromptTemplates.id <$> templates db') (variables db').
Proof.
  apply variables_keep_a_template.
  repeat (apply Forall_cons; split; [decided|]). apply Forall_nil_2.
Defined.

Lemma rows_never_removed_witness :
  ∃ c' t',
    collections (perform_all sample_calls (sample_db true)) !! 0%nat
    = Some c' ∧
    PromptCollections.id c' = "c1" ∧
    PromptCollections.userId c' = "alice" ∧
    templates (perform_all sample_calls (sample_db true)) !! 2%nat
    = Some t' ∧
    PromptTemplates.id t' = "t3" ∧ PromptTemplates.userId t' = "bob".
Proof.
  destruct (rows_never_removed sample_calls (sample_db true)) as (A & B).
  destruct (A 0%nat alice_coding eq_refl) as (c' & Hc & ? & ? & _).
  destruct (B 2%nat bob_slogan eq_refl) as (t' & Ht & ? & ? & _).
  by exists c', t'.
Defined.

Lemma anonymous_call_refused_witness :
  let call :=
    CreateCollection sample_rt (object_of [("name", JStr "Drafts")])
      anonymous in
  perform call (sample_db true) = sample_db true ∧
  (outcome call (sample_db true) = Some VALIDATION ∨
   outcome call (sample_db true) =
   Some (ActionError UNAUTHORIZED
           "You must be signed in to perform this action.")).
Proof.
  intros call.
  exact (anonymous_call_refused call (sample_db true) _ eq_refl).
Defined.

Lemma failed_call_keeps_rows_witness :
  let refused :=
    DeletePromptVariable
      (object_of [("id", JStr "v9"); ("templateId", JStr "t1")])
      (signed_in "alice") in
  let undecoded :=
    CreatePromptVariable sample_rt
      (object_of [("templateId", JStr "t1"); ("name", JStr "level");
                  ("orderIndex", JNum (2 ^ 53))])
      (signed_in "alice") in
  outcome refused (sample_db true)
  = Some (ActionError NOT_FOUND "Prompt variable not found.") ∧
  same_rows (sample_db true) (perform refused (sample_db true)) ∧
  outcome undecoded (sample_db true) = Some RangeError ∧
  length (variables (perform undecoded (sample_db true))) = 3%nat ∧
  collections (perform undecoded (sample_db true))
  = collections (sample_db true) ∧
  templates (perform undecoded (sample_db true))
  = templates (sample_db true).
Proof.
  intros refused undecoded.
  assert (H : outcome refused (sample_db true)
              = Some (ActionError NOT_FOUND "Prompt variable not found."))
    by (vm_compute; reflexivity).
  assert (H' : outcome undecoded (sample_db true) = Some RangeError)
    by (vm_compute; reflexivity).
  split; [exact H|]. split.
  { apply (failed_call_keeps_rows refused (sample_db true) _ H).
    discriminate. }
  split; [exact H'|]. split; [vm_compute; reflexivity|].
  apply (failed_call_keeps_rows undecoded (sample_db true) _ H').
  reflexivity.
Defined.

Lemma unresolved_template_stops_action_witness :
  server.listPromptVariables (object_of [("templateId", JStr "t3")])
    (signed_in "alice") (sample_db true)
  = (Throw (ActionError FORBIDDEN
              "You do not have access to this template."),
     issue (SELECT TTemplates) (sample_db true)) ∧
  server.deletePromptVariable
    (object_of [("id", JStr "v1"); ("templateId", JStr "t9")])
    (signed_in "alice") (sample_db true)
  = (Throw (ActionError NOT_FOUND "Template not found."),
     issue (SELECT TTemplates) (sample_db true)).
Proof.
  split.
  - destruct (unresolved_template_stops_action (signed_in "alice")
                {| App.id := "alice" |} (sample_db true) "t3"
                (ActionError FORBIDDEN
                   "You do not have access to this template.")
                eq_refl eq_refl) as (_ & _ & _ & _ & _ & L).
    apply (L _ {| ListPromptVariables.templateId := "t3" |});
      reflexivity.
  - destruct (unresolved_template_stops_action (signed_in "alice")
                {| App.id := "alice" |} (sample_db true) "t9"
                (ActionError NOT_FOUND "Template not found.")
                eq_refl eq_refl) as (_ & _ & _ & _ & D & _).
    apply (D _ {| DeletePromptVariable.id := "v1";
                  DeletePromptVariable.templateId := "t9" |});
      reflexivity.
Defined.

Lemma unresolved_collection_stops_update_witness :
  server.updateCollection sample_rt
    (object_of [("id", JStr "c2"); ("name", JStr "Mine")])
    (signed_in "alice") (sample_db true)
  = (Throw (ActionError NOT_FOUND "Collection not found."),
     issue (SELECT TCollections) (sample_db true)) ∧
  server.updateTemplate sample_rt
    (object_of [("id", JStr "t1"); ("collectionId", JStr "c2")])
    (signed_in "alice") (sample_db true)
  = (Throw (ActionError NOT_FOUND "Collection not found."),
     issue (SELECT TCollections)
       (issue (SELECT TTemplates) (sample_db true))).
Proof.
  destruct (unresolved_collection_stops_update (signed_in "alice")
              {| App.id := "alice" |} (sample_db true) "c2"
              (ActionError NOT_FOUND "Collection not found.")
              eq_refl eq_refl) as (_ & U & T).
  split.
  - apply (U sample_rt _
             {| UpdateCollection.id := "c2";
                UpdateCollection.name := Some "Mine";
                UpdateCollection.description := None;
                UpdateCollection.icon := None;
                UpdateCollection.isDefault := None |}); reflexivity.
  - apply (T sample_rt _
             {| UpdateTemplate.id := "t1";
                UpdateTemplate.collectionId := Some "c2";
                UpdateTemplate.name := None;
                UpdateTemplate.description := None;
                UpdateTemplate.modelHint := None;
                UpdateTemplate.promptBody := None;
                UpdateTemplate.tags := None;
                UpdateTemplate.isFavorite := None |} alice_explain);
      reflexivity.
Defined.

Lemma updateTemplate_partial_witness :
  let run :=
    server.updateTemplate sample_rt
      (object_of [("id", JStr "t2"); ("isFavorite", JBool false);
                  ("collectionId", JStr "c1")])
      (signed_in "alice") (sample_db true) in
  ∃ new, run.1 = Ok {| success := true; data := Some (Some new) |} ∧
         new ∈ templates run.2 ∧
         PromptTemplates.isFavorite new = false ∧
         PromptTemplates.collectionId new = Some "c1" ∧
         PromptTemplates.name new = "Rewrite" ∧
         PromptTemplates.tags new = Some "style" ∧
         PromptTemplates.updatedAt new = 100%Z.
Proof.
  intros run.
  assert (Hk : keys_unique (sample_db true)) by sample_keys.
  destruct run as [[reply|e] db'] eqn:Hrun;
    [|vm_compute in Hrun; discriminate].
  destruct (updateTemplate_partial sample_rt
              (object_of [("id", JStr "t2"); ("isFavorite", JBool false);
                          ("collectionId", JStr "c1")])
              {| UpdateTemplate.id := "t2";
                 UpdateTemplate.collectionId := Some "c1";
                 UpdateTemplate.name := None;
                 UpdateTemplate.description := None;
                 UpdateTemplate.modelHint := None;
                 UpdateTemplate.promptBody := None;
                 UpdateTemplate.tags := None;
                 UpdateTemplate.isFavorite := Some false |}
              (signed_in "alice") (sample_db true) db' reply
              Hk ltac:(decided)
              ltac:(repeat (apply Forall_cons; split;
                              [by repeat split|]); apply Forall_nil_2)
              eq_refl Hrun)
    as (user & old & _ & Hold & Hid & _ & -> & Hrows & _).
  assert (old = alice_rewrite) as ->.
  { simpl in Hold, Hid.
    apply elem_of_cons in Hold as [->|Hold]; [discriminate|].
    apply elem_of_cons in Hold as [->|Hold]; [done|].
    apply elem_of_cons in Hold as [->|Hold]; [discriminate|].
    by apply elem_of_nil in Hold. }
  eexists. split; [reflexivity|]. split; [|by repeat split].
  simpl. rewrite Hrows. apply list_elem_of_fmap. exists alice_rewrite.
  split; [reflexivity|]. by repeat constructor.
Defined.

Lemma updatePromptVariable_partial_witness :
  let run :=
    server.updatePromptVariable
      (object_of [("id", JStr "v2"); ("templateId", JStr "t2");
                  ("orderIndex", JNum 3)])
      (signed_in "alice") (sample_db true) in
  ∃ new, run.1 = Ok {| success := true; data := Some (Some new) |} ∧
         new ∈ variables run.2 ∧
         PromptVariables.orderIndex new = Some 3%Z ∧
         PromptVariables.name new = "tone" ∧
         PromptVariables.defaultValue new = Some "formal".
Proof.
  intros run.
  assert (Hk : keys_unique (sample_db true)) by sample_keys.
  destruct run as [[reply|e] db'] eqn:Hrun;
    [|vm_compute in Hrun; discriminate].
  destruct (updatePromptVariable_partial
              (object_of [("id", JStr "v2"); ("templateId", JStr "t2");
                          ("orderIndex", JNum 3)])
              {| UpdatePromptVariable.id := "v2";
                 UpdatePromptVariable.templateId := "t2";
                 UpdatePromptVariable.name := None;
                 UpdatePromptVariable.label := None;
                 UpdatePromptVariable.description := None;
                 UpdatePromptVariable.inputType := None;
                 UpdatePromptVariable.defaultValue := None;
                 UpdatePromptVariable.optionsJson := None;
                 UpdatePromptVariable.orderIndex := Some 3%Z |}
              (signed_in "alice") (sample_db true) db' reply
              Hk ltac:(decided)
              ltac:(repeat (apply Forall_cons; split;
                              [by repeat split|]); apply Forall_nil_2)
              eq_refl Hrun)
    as (user & tpl & old & _ & _ & _ & _ & Hold & Hid & _ & -> & Hrows & _).
  assert (old = tone_of_rewrite) as ->.
  { simpl in Hold, Hid.
    apply elem_of_cons in Hold as [->|Hold]; [discriminate|].
    apply elem_of_cons in Hold as [->|Hold]; [done|].
    by apply elem_of_nil in Hold. }
  eexists. split; [reflexivity|]. split; [|by repeat split].
  simpl. rewrite Hrows. apply list_elem_of_fmap. exists tone_of_rewrite.
  split; [reflexivity|]. by repeat constructor.
Defined.

Lemma createPromptVariable_created_witness :
  let run :=
    server.createPromptVariable sample_rt
      (object_of [("templateId", JStr "t1"); ("name", JStr "level");
                  ("orderIndex", JNum 1)])
      (signed_in "alice") (sample_db true) in
  ∃ v, run.1 = Ok {| success := true; data := Some (Some v) |} ∧
       variables run.2 = variables (sample_db true) ++ [v] ∧
       PromptVariables.id v = "n1" ∧
       PromptVariables.templateId v = "t1" ∧
       PromptVariables.createdAt v = 100%Z.
Proof.
  intros run.
  destruct run as [[reply|e] db'] eqn:Hrun;
    [|vm_compute in Hrun; discriminate].
  destruct (createPromptVariable_created sample_rt
              (object_of [("templateId", JStr "t1"); ("name", JStr "level");
                          ("orderIndex", JNum 1)])
              {| CreatePromptVariable.templateId := "t1";
                 CreatePromptVariable.name := "level";
                 CreatePromptVariable.label := None;
                 CreatePromptVariable.description := None;
                 CreatePromptVariable.inputType := None;
                 CreatePromptVariable.defaultValue := None;
                 CreatePromptVariable.optionsJson := None;
                 CreatePromptVariable.orderIndex := Some 1%Z |}
              (signed_in "alice") (sample_db true) db' reply
              ltac:(decided) eq_refl eq_refl Hrun)
    as (user & tpl & _ & _ & _ & _ & _ & -> & _ & Hrows & _).
  eexists. split; [reflexivity|]. split; [exact Hrows|]. by repeat split.
Defined.

Lemma listPromptVariables_items_witness :
  let undecoded :=
    (server.createPromptVariable sample_rt
       (object_of [("templateId", JStr "t1"); ("name", JStr "level");
                   ("orderIndex", JNum (2 ^ 53))])
       (signed_in "alice") (sample_db true)).2 in
  server.listPromptVariables (object_of [("templateId", JStr "t1")])
    (signed_in "alice") (sample_db true)
  = (Ok {| success := true;
           data := Some {| items := [topic_of_explain]; total := 1 |} |},
     issue (SELECT TVariables) (issue (SELECT TTemplates) (sample_db true))) ∧
  server.listPromptVariables (object_of [("templateId", JStr "t1")])
    (signed_in "alice") undecoded
  = (Throw RangeError,
     issue (SELECT TVariables) (issue (SELECT TTemplates) undecoded)).
Proof.
  intros undecoded. split.
  - destruct (listPromptVariables_items
                (object_of [("templateId", JStr "t1")])
                {| ListPromptVariables.templateId := "t1" |}
                (signed_in "alice") {| App.id := "alice" |} (sample_db true)
                alice_explain eq_refl eq_refl eq_refl) as (Hlisted & _).
    destruct Hlisted as ([its n] & -> & Hitems & _ & Htotal).
    { by repeat constructor. }
    simpl in Hitems, Htotal. subst n. rewrite Hitems. reflexivity.
  - destruct (listPromptVariables_items
                (object_of [("templateId", JStr "t1")])
                {| ListPromptVariables.templateId := "t1" |}
                (signed_in "alice") {| App.id := "alice" |} undecoded
                alice_explain eq_refl eq_refl eq_refl) as (_ & Hfails).
    apply Hfails. apply Exists_cons_tl, Exists_cons_hd. reflexivity.
Defined.

Lemma variable_created_listed_deleted_witness :
  let created :=
    server.createPromptVariable sample_rt
      (object_of [("templateId", JStr "t1"); ("name", JStr "level")])
      (signed_in "alice") (sample_db true) in
  let deleted :=
    server.deletePromptVariable
      (object_of [("id", JStr "n1"); ("templateId", JStr "t1")])
      (signed_in "alice") created.2 in
  deleted.1 = Ok {| success := true; data := None |} ∧
  variables deleted.2 = variables (sample_db true) ∧
  (server.deletePromptVariable
     (object_of [("id", JStr "n1"); ("templateId", JStr "t1")])
     (signed_in "alice") deleted.2).1
  = Throw (ActionError NOT_FOUND "Prompt variable not found.").
Proof.
  intros created.
  destruct created as [[reply|e] db1] eqn:Hrun;
    [|vm_compute in Hrun; discriminate].
  destruct (variable_created_listed_deleted sample_rt
              (object_of [("templateId", JStr "t1"); ("name", JStr "level")])
              (object_of [("templateId", JStr "t1")])
              (object_of [("id", JStr "n1"); ("templateId", JStr "t1")])
              {| CreatePromptVariable.templateId := "t1";
                 CreatePromptVariable.name := "level";
                 CreatePromptVariable.label := None;
                 CreatePromptVariable.description := None;
                 CreatePromptVariable.inputType := None;
                 CreatePromptVariable.defaultValue := None;
                 CreatePromptVariable.optionsJson := None;
                 CreatePromptVariable.orderIndex := None |}
              (signed_in "alice") (sample_db true) db1 reply
              eq_refl Hrun
              ltac:(repeat (apply Forall_cons; split; [done|]);
                    apply Forall_nil_2)
              eq_refl eq_refl)
    as (v & _ & _ & _ & Hdel & Hrows & _ & Hagain).
  simpl. by repeat split.
Defined.

Lemma updateTemplate_succeeds_witness :
  ∃ new db',
    server.updateTemplate sample_rt
      (object_of [("id", JStr "t1"); ("collectionId", JStr "c1");
                  ("tags", JStr "how-to")])
      (signed_in "alice") (sample_db true)
    = (Ok {| success := true; data := Some (Some new) |}, db') ∧
    PromptTemplates.tags new = Some "how-to" ∧
    PromptTemplates.collectionId new = Some "c1".
Proof.
  assert (Hk : keys_unique (sample_db true)) by sample_keys.
  destruct (updateTemplate_succeeds sample_rt
              (object_of [("id", JStr "t1"); ("collectionId", JStr "c1");
                          ("tags", JStr "how-to")])
              {| UpdateTemplate.id := "t1";
                 UpdateTemplate.collectionId := Some "c1";
                 UpdateTemplate.name := None;
                 UpdateTemplate.description := None;
                 UpdateTemplate.modelHint := None;
                 UpdateTemplate.promptBody := None;
                 UpdateTemplate.tags := Some "how-to";
                 UpdateTemplate.isFavorite := None |}
              (signed_in "alice") {| App.id := "alice" |} (sample_db true)
              alice_explain Hk eq_refl eq_refl)
    as (db' & Hrun & _).
  - by repeat constructor.
  - reflexivity.
  - reflexivity.
  - intros c [= <-]. exists alice_coding. split; [by repeat constructor|].
    by split.
  - eexists _, db'. split; [exact Hrun|]. by split.
Defined.

Lemma template_text_checked_on_create_only_witness :
  CreateTemplate.input
    (object_of [("name", JStr "Explain");
                ("promptBody", JStr EmptyString)]) = None ∧
  ∃ new db',
    server.updateTemplate sample_rt
      (object_of [("id", JStr "t1"); ("name", JStr EmptyString);
                  ("promptBody", JStr EmptyString)])
      (signed_in "alice") (sample_db true)
    = (Ok {| success := true; data := Some (Some new) |}, db') ∧
    new ∈ templates db' ∧
    PromptTemplates.promptBody new = EmptyString.
Proof.
  assert (Hk : keys_unique (sample_db true)) by sample_keys.
  destruct (template_text_checked_on_create_only sample_rt "alice"
              (sample_db true) alice_explain Hk)
    as (Hcreate & new & db' & Hrun & Hin & _ & _ & Hbody);
    [by repeat constructor | reflexivity | discriminate |].
  split.
  - reflexivity.
  - by exists new, db'.
Defined.
